(** * Agentic ICU decision support: message bus, agents and coordinator

    A shallow embedding of
    - [agentic_icu/orchestration/mock_message_bus.py]   (MockMessageBus, MockDevice, MockICUUnit),
    - [agentic_icu/agent_framework/base_agent.py]       (MockLLMInterface, BaseAgent),
    - [agentic_icu/agent_framework/clinical_agents/clinical_agents.py]
                                                        (PhysicianAgent, NurseAgent, PharmacistAgent),
    - [agentic_icu/orchestration/workflow_coordinator.py] (WorkflowCoordinator),
    and of the stop endpoint of [agentic_icu/api/main.py], followed by
    their properties.

    Python objects are records held in a store, coroutines are run to
    completion (an [await] is a call), exceptions are explicit results, and
    every operation returns, next to the new store, the list of events it
    caused: messages stored, callbacks called, lines printed.

    Left out: the device simulation loop and the generation of patients
    and vitals (random numbers, float rounding and tasks that interleave),
    the periodic status report, the loading of patients in
    [WorkflowCoordinator.initialize], and the HTTP endpoints other than
    the stop endpoint. *)

From Stdlib Require Import ZArith QArith String Ascii List Bool Lia.
From stdpp Require Import base option list gmap strings pretty.

Import ListNotations.
Local Open Scope string_scope.
Local Open Scope list_scope.
Local Open Scope nat_scope.

(** ** Python values *)

(** The values that travel in messages and decisions.  A [float] is taken
    as the rational it denotes (no NaN, no infinities). *)
Inductive Value : Type :=
  | VNone
  | VBool (b : bool)
  | VInt (z : Z)
  | VFloat (q : Q)
  | VStr (s : string).

(** A [dict] with string keys, in insertion order. *)
Definition Dict : Type := list (string * Value).

(** What a caller may hand to [publish]: the annotation asks for a dict,
    the interpreter does not check it. *)
Inductive PyObject : Type :=
  | Mapping (d : Dict)
  | Scalar (v : Value).

(** The exceptions of the program, all of them instances of [Exception]
    (what [except Exception] catches). *)
Inductive Exn : Type :=
  | TypeError (msg : string)
  | AttributeError (msg : string)
  | KeyError (msg : string)
  | RecursionError (msg : string)
  | RuntimeError (msg : string).

(** [str(e)] *)
Definition exn_message (e : Exn) : string :=
  match e with
  | TypeError m | AttributeError m | KeyError m | RecursionError m | RuntimeError m => m
  end.

Definition type_name (v : Value) : string :=
  match v with
  | VNone => "NoneType"
  | VBool _ => "bool"
  | VInt _ => "int"
  | VFloat _ => "float"
  | VStr _ => "str"
  end.

(** [d.get(k)] : the value bound to [k], if any. *)
Fixpoint dict_get (k : string) (d : Dict) : option Value :=
  match d with
  | [] => None
  | (k', v) :: rest => if String.eqb k k' then Some v else dict_get k rest
  end.

(** [d[k]] : a missing key is a [KeyError]. *)
Definition getitem (k : string) (d : Dict) : Exn + Value :=
  match dict_get k d with
  | Some v => inr v
  | None => inl (KeyError ("'" +:+ k +:+ "'"))
  end.

(** [d.get(k)] with Python's default [None]. *)
Definition get (k : string) (d : Dict) : Value :=
  default VNone (dict_get k d).

(** [d[k] = v] : overwrite in place, or append a new key. *)
Fixpoint dict_set (k : string) (v : Value) (d : Dict) : Dict :=
  match d with
  | [] => [(k, v)]
  | (k', v') :: rest =>
      if String.eqb k k' then (k', v) :: rest else (k', v') :: dict_set k v rest
  end.

(** [d.update(u)], also the meaning of [{**d, k1: v1, ...}]. *)
Definition dict_update (d u : Dict) : Dict :=
  fold_left (fun acc kv => dict_set (fst kv) (snd kv) acc) u d.

(** ** Numbers and strings *)

Definition Qltb (x y : Q) : bool := negb (Qle_bool y x).

Definition as_number (v : Value) : option Q :=
  match v with
  | VBool b => Some (if b then 1%Q else 0%Q)
  | VInt z => Some (inject_Z z)
  | VFloat q => Some q
  | VNone | VStr _ => None
  end.

(** [v < bound] and [v > bound] against a numeric literal of the source:
    numbers compare by value, anything else is a [TypeError]. *)
Definition py_lt (v bound : Value) : Exn + bool :=
  match as_number v, as_number bound with
  | Some x, Some y => inr (Qltb x y)
  | _, _ => inl (TypeError ("'<' not supported between instances of '"
                            +:+ type_name v +:+ "' and '" +:+ type_name bound +:+ "'"))
  end.

Definition py_gt (v bound : Value) : Exn + bool :=
  match as_number v, as_number bound with
  | Some x, Some y => inr (Qltb y x)
  | _, _ => inl (TypeError ("'>' not supported between instances of '"
                            +:+ type_name v +:+ "' and '" +:+ type_name bound +:+ "'"))
  end.

(** [str.lower()] on ASCII text. *)
Definition lower_ascii (c : ascii) : ascii :=
  let n := nat_of_ascii c in
  if (65 <=? n) && (n <=? 90) then ascii_of_nat (n + 32) else c.

Fixpoint lower (s : string) : string :=
  match s with
  | EmptyString => EmptyString
  | String c rest => String (lower_ascii c) (lower rest)
  end.

(** [needle in hay] on strings. *)
Fixpoint contains (needle hay : string) : bool :=
  String.prefix needle hay ||
  match hay with
  | EmptyString => false
  | String _ rest => contains needle rest
  end.

Fixpoint join (sep : string) (parts : list string) : string :=
  match parts with
  | [] => EmptyString
  | [p] => p
  | p :: rest => p +:+ sep +:+ join sep rest
  end.

(** ** The interpreter and the operating system

    What the program reads from outside: the clock, the uuid generator, the
    text Python prints for a float and for a quoted string, and the float
    that [/] gives for two integers (the double nearest to the quotient). *)
Record Env : Type := {
  clock : nat -> Q;            (* seconds shown by the n-th read of [datetime.now()] *)
  isoformat : Q -> string;     (* [datetime.isoformat()] *)
  uuid4 : nat -> string;       (* [str(uuid.uuid4())], n-th draw *)
  repr_float : Q -> string;    (* [repr] of a float *)
  repr_str : string -> string; (* [repr] of a str *)
  true_div : Z -> Z -> Q       (* [n / d] for two ints, [d] not zero *)
}.

Section Rendering.
Variable env : Env.

(** [repr(v)], as used for the entries of a printed dict. *)
Definition repr_value (v : Value) : string :=
  match v with
  | VNone => "None"
  | VBool true => "True"
  | VBool false => "False"
  | VInt z => pretty z
  | VFloat q => repr_float env q
  | VStr s => repr_str env s
  end.

(** [str(v)], as used by an f-string field. *)
Definition str_value (v : Value) : string :=
  match v with
  | VStr s => s
  | _ => repr_value v
  end.

(** [str(d)] for a dict. *)
Definition str_dict (d : Dict) : string :=
  "{" +:+ join ", " (map (fun kv => repr_str env (fst kv) +:+ ": " +:+ repr_value (snd kv)) d) +:+ "}".
End Rendering.

(** ** Events

    What an operation did, in the order it did it: a message entering a
    topic buffer, a subscriber callback being called (with everything the
    callback did nested inside, and the exception it ended with, if any),
    and a line of console output. *)
#[warnings="-register-all"] Inductive Event (Cb : Type) : Type :=
  | Stored (topic : string) (message : Dict)
  | Called (callback : Cb) (topic : string) (message : Dict)
           (inner : list (Event Cb)) (raised : option Exn)
  | Console (line : string).
Arguments Stored {Cb} topic message.
Arguments Called {Cb} callback topic message inner raised.
Arguments Console {Cb} line.

Section Events.
Context {Cb : Type}.

(** The messages stored on [topic], at any depth of nesting, in order. *)
Fixpoint stored_in (topic : string) (e : Event Cb) : list Dict :=
  match e with
  | Stored t m => if String.eqb t topic then [m] else []
  | Called _ _ _ inner _ => flat_map (stored_in topic) inner
  | Console _ => []
  end.

Definition stored_on (topic : string) (evs : list (Event Cb)) : list Dict :=
  flat_map (stored_in topic) evs.

(** The callbacks called directly by the operation for [topic], each
    with the message it was given, in order. *)
Definition calls_on (topic : string) (evs : list (Event Cb)) : list (Cb * Dict) :=
  flat_map (fun e => match e with
                     | Called c t m _ _ => if String.eqb t topic then [(c, m)] else []
                     | _ => []
                     end) evs.

Definition console (evs : list (Event Cb)) : list string :=
  flat_map (fun e => match e with Console l => [l] | _ => [] end) evs.
End Events.

(** ** State, results and sequencing *)

Section Machine.
Context {Cb Ext : Type}.

(** [MockMessageBus]: [topics] is a [defaultdict] of [deque(maxlen=1000)],
    [subscribers] a [defaultdict(list)]. *)
Record MockMessageBus : Type := {
  topics : gmap string (list Dict);
  subscribers : gmap string (list Cb)
}.

(** The store: the global bus, every other object of the program
    ([Ext]), and how often the clock and the uuid generator were read. *)
Record World : Type := {
  message_bus : MockMessageBus;
  ext : Ext;
  clock_reads : nat;
  uuid_draws : nat
}.

Record Outcome (A : Type) : Type := {
  world : World;
  events : list (Event Cb);
  result : Exn + A
}.
Arguments world {A} _.
Arguments events {A} _.
Arguments result {A} _.

Definition M (A : Type) : Type := World -> Outcome A.

Definition ret {A} (a : A) : M A :=
  fun w => {| world := w; events := []; result := inr a |}.

Definition raise {A} (e : Exn) : M A :=
  fun w => {| world := w; events := []; result := inl e |}.

Definition bind {A B} (m : M A) (k : A -> M B) : M B :=
  fun w =>
    let o := m w in
    match result o with
    | inl e => {| world := world o; events := events o; result := inl e |}
    | inr a =>
        let o' := k a (world o) in
        {| world := world o'; events := events o ++ events o'; result := result o' |}
    end.

(** [try: m  except Exception as e: h e] *)
Definition try_except {A} (m : M A) (h : Exn -> M A) : M A :=
  fun w =>
    let o := m w in
    match result o with
    | inr _ => o
    | inl e =>
        let o' := h e (world o) in
        {| world := world o'; events := events o ++ events o'; result := result o' |}
    end.

Definition emit (e : Event Cb) : M unit :=
  fun w => {| world := w; events := [e]; result := inr tt |}.

(** [print(line)] *)
Definition print (line : string) : M unit := emit (Console line).

Definition read {A} (f : World -> A) : M A :=
  fun w => {| world := w; events := []; result := inr (f w) |}.

Definition modify (f : World -> World) : M unit :=
  fun w => {| world := f w; events := []; result := inr tt |}.

Definition lift {A} (r : Exn + A) : M A :=
  fun w => {| world := w; events := []; result := r |}.

(** [for x in xs: body x] *)
Fixpoint for_each {A} (xs : list A) (body : A -> M unit) : M unit :=
  match xs with
  | [] => ret tt
  | x :: rest => bind (body x) (fun _ => for_each rest body)
  end.

(** Run a subscriber callback, keeping what it did under one [Called] event. *)
Definition called (c : Cb) (topic : string) (message : Dict) (body : M unit) : M unit :=
  fun w =>
    let o := body w in
    {| world := world o;
       events := [Called c topic message (events o)
                         (match result o with inl e => Some e | inr _ => None end)];
       result := result o |}.

Definition set_bus (b : MockMessageBus) (w : World) : World :=
  {| message_bus := b; ext := ext w;
     clock_reads := clock_reads w; uuid_draws := uuid_draws w |}.

Definition set_ext (x : Ext) (w : World) : World :=
  {| message_bus := message_bus w; ext := x;
     clock_reads := clock_reads w; uuid_draws := uuid_draws w |}.
End Machine.

Arguments MockMessageBus Cb : clear implicits.
Arguments World Cb Ext : clear implicits.
Arguments Outcome Cb Ext A : clear implicits.
Arguments M Cb Ext A : clear implicits.
Arguments world {Cb Ext A} _.
Arguments events {Cb Ext A} _.
Arguments result {Cb Ext A} _.

Declare Scope prog_scope.
Delimit Scope prog_scope with prog.
Notation "x <- m ;; k" := (bind m (fun x => k))
  (at level 100, m at next level, right associativity) : prog_scope.
Notation "m ;; k" := (bind m (fun _ => k))
  (at level 100, right associativity) : prog_scope.

Local Open Scope prog_scope.

(** ** mock_message_bus.py : MockMessageBus *)

Section Bus.
Context {Cb Ext : Type}.
Variable env : Env.

(** What calling a subscriber callback does.  The callbacks of this
    program are bound methods of agents and of the coordinator (see
    [invoke] below); none of them calls [subscribe]. *)
Variable call : Cb -> string -> Dict -> M Cb Ext unit.

(** [datetime.now()] *)
Definition now : M Cb Ext Q :=
  fun w =>
    {| world := {| message_bus := message_bus w; ext := ext w;
                   clock_reads := S (clock_reads w); uuid_draws := uuid_draws w |};
       events := [];
       result := inr (clock env (clock_reads w)) |}.

Definition maxlen : nat := 1000.

(** [deque.append] on a [deque(maxlen=1000)]: a full deque drops its
    oldest entry. *)
Definition deque_append (q : list Dict) (m : Dict) : list Dict :=
  if length q <? maxlen then q ++ [m] else drop 1 q ++ [m].

Definition buffer (topic : string) (b : MockMessageBus Cb) : list Dict :=
  default [] (topics b !! topic).

Definition subscribed (topic : string) (b : MockMessageBus Cb) : list Cb :=
  default [] (subscribers b !! topic).

(** [self.topics[topic]] : reading a [defaultdict] creates the entry. *)
Definition topics_getitem (topic : string) : M Cb Ext (list Dict) :=
  fun w =>
    let b := message_bus w in
    {| world := set_bus {| topics := <[topic := buffer topic b]> (topics b);
                           subscribers := subscribers b |} w;
       events := [];
       result := inr (buffer topic b) |}.

(** [self.subscribers[topic]] *)
Definition subscribers_getitem (topic : string) : M Cb Ext (list Cb) :=
  fun w =>
    let b := message_bus w in
    {| world := set_bus {| topics := topics b;
                           subscribers := <[topic := subscribed topic b]> (subscribers b) |} w;
       events := [];
       result := inr (subscribed topic b) |}.

(** The dict display of [publish]: [**message] first, then the three
    metadata keys; [_id] is the topic name and the current length of the
    topic's buffer. *)
Definition enrich (topic : string) (message : PyObject) : M Cb Ext Dict :=
  match message with
  | Scalar v => raise (TypeError ("'" +:+ type_name v +:+ "' object is not a mapping"))
  | Mapping d =>
      stamp <- now ;;
      q <- topics_getitem topic ;;
      ret (dict_update d [("_topic", VStr topic);
                          ("_timestamp", VStr (isoformat env stamp));
                          ("_id", VStr (topic +:+ "_" +:+ pretty (length q)))])
  end.

(** [self.topics[topic].append(enriched_message)] *)
Definition store (topic : string) (enriched : Dict) : M Cb Ext unit :=
  q <- topics_getitem topic ;;
  modify (fun w => let b := message_bus w in
                   set_bus {| topics := <[topic := deque_append q enriched]> (topics b);
                              subscribers := subscribers b |} w) ;;
  emit (Stored topic enriched).

(** The body of the notification loop: the inner [try]. *)
Definition notify (topic : string) (enriched : Dict) (callback : Cb) : M Cb Ext unit :=
  try_except
    (called callback topic enriched (call callback topic enriched))
    (fun e => print ("Error in subscriber callback: " +:+ exn_message e)).

(** [publish]: the outer [try] covers the construction of the message,
    the append and the loop.  The loop walks the subscriber list as it
    stands when the loop starts.  The source walks the list object itself,
    so a callback appended to this topic's list during the loop would be
    called in the same loop ([publish_live] below is [publish] with that
    loop).  The two agree as long as no callback changes a subscriber list
    while it is being called ([publish_live_run]), which holds for every
    callback of this program ([invoke_keeps_subscribers]) and is a
    hypothesis of the properties stated for arbitrary callbacks. *)
Definition publish (topic : string) (message : PyObject) : M Cb Ext bool :=
  try_except
    (enriched <- enrich topic message ;;
     store topic enriched ;;
     subs <- subscribers_getitem topic ;;
     for_each subs (notify topic enriched) ;;
     ret true)
    (fun e =>
       print ("Failed to publish to " +:+ topic +:+ ": " +:+ exn_message e) ;;
       ret false).

(** The notification loop as the source writes it.  [for callback in
    self.subscribers[topic]] walks the list object by position and looks
    at the list again before every call, so it also calls what a callback
    appended to the list meanwhile ([subscribe] appends to the list object
    in place, and nothing in the bus binds another list to the topic).  A
    loop that its callbacks keep feeding does not end: [steps] bounds the
    number of calls, and the result says whether the loop came to the end
    of the list within them. *)
Fixpoint walk (steps : nat) (topic : string) (enriched : Dict) (position : nat)
    : M Cb Ext bool :=
  fun w =>
    match subscribed topic (message_bus w) !! position with
    | None => ret true w
    | Some callback =>
        match steps with
        | 0 => ret false w
        | S n => bind (notify topic enriched callback)
                      (fun _ => walk n topic enriched (S position)) w
        end
    end.

(** [publish] with that loop: the value returned, or nothing when the
    loop did not come to its end within [steps] calls. *)
Definition publish_live (steps : nat) (topic : string) (message : PyObject)
    : M Cb Ext (option bool) :=
  try_except
    (enriched <- enrich topic message ;;
     store topic enriched ;;
     _ <- subscribers_getitem topic ;;
     ended <- walk steps topic enriched 0 ;;
     ret (if ended then Some true else None))
    (fun e =>
       print ("Failed to publish to " +:+ topic +:+ ": " +:+ exn_message e) ;;
       ret (Some false)).

Definition subscribe (topic : string) (callback : Cb) : M Cb Ext unit :=
  subs <- subscribers_getitem topic ;;
  modify (fun w => let b := message_bus w in
                   set_bus {| topics := topics b;
                              subscribers := <[topic := subs ++ [callback]]> (subscribers b) |} w).

(** [xs[start:]] *)
Definition slice_from {A} (start : Z) (xs : list A) : list A :=
  let n := Z.of_nat (length xs) in
  let i := if (start <? 0)%Z then Z.max (start + n) 0 else Z.min start n in
  drop (Z.to_nat i) xs.

Definition get_messages (topic : string) (count : Z) : M Cb Ext (list Dict) :=
  messages <- topics_getitem topic ;;
  ret (match messages with
       | [] => []
       | _ => slice_from (- count) messages
       end).

Definition get_topic_stats : M Cb Ext (gmap string nat) :=
  read (fun w => length <$> topics (message_bus w)).

(** The module-level [publish_message]: [publish] on the global bus. *)
Definition publish_message (topic : string) (message : Dict) : M Cb Ext bool :=
  publish topic (Mapping message).
End Bus.

(** ** The objects of the program *)

(** The fields of a [BaseAgent] (and of its three subclasses, which add
    none that change). *)
Record AgentState : Type := {
  agent_id : string;
  agent_type : string;
  specialization : option string;
  is_active : bool;
  patients_assigned : list string;
  last_decision_time : option Q;
  decision_count : nat;
  response_times : list Q;
  confidence_scores : list Q
}.

Record DeviceState : Type := {
  device_id : string;
  device_type : string;
  device_patient_id : string;
  device_is_running : bool
}.

Record UnitState : Type := {
  unit_id : string;
  devices : list DeviceState;
  unit_patients : list string
}.

(** An [asyncio.Task] as the coordinator sees it. *)
Record TaskState : Type := {
  task_name : string;
  task_done : bool;
  task_cancelled : bool
}.

(** The fields of the [WorkflowCoordinator].  [agents] lists the keys of
    [self.agents] in insertion order (the agent objects live in the store),
    [patients] the keys of [self.patients]. *)
Record CoordinatorState : Type := {
  agents : list string;
  patients : list string;
  is_running : bool;
  tasks : list TaskState;
  start_time : option Q;
  total_decisions : nat;
  total_messages : nat
}.

(** Everything besides the bus: the agent objects by [agent_id], the global
    [coordinator], the global [icu_unit], and the report files written. *)
Record Program : Type := {
  agent_objects : gmap string AgentState;
  coordinator : CoordinatorState;
  icu_unit : UnitState;
  files : gmap string Dict
}.

(** The callables handed to [subscribe]: bound methods, named by class,
    method and the [agent_id] of the object they are bound to. *)
Inductive Callback : Type :=
  | PhysicianAgent_handle_vitals (self : string)
  | PhysicianAgent_handle_alerts (self : string)
  | NurseAgent_handle_vitals_monitoring (self : string)
  | PharmacistAgent_handle_medication_review (self : string)
  | WorkflowCoordinator_monitor_messages
  | WorkflowCoordinator_track_decisions.

Abbreviation Prog := (M Callback Program).

Definition set_agents (f : gmap string AgentState -> gmap string AgentState)
    (w : World Callback Program) : World Callback Program :=
  let p := ext w in
  set_ext {| agent_objects := f (agent_objects p); coordinator := coordinator p;
             icu_unit := icu_unit p; files := files p |} w.

Definition set_coordinator (f : CoordinatorState -> CoordinatorState)
    (w : World Callback Program) : World Callback Program :=
  let p := ext w in
  set_ext {| agent_objects := agent_objects p; coordinator := f (coordinator p);
             icu_unit := icu_unit p; files := files p |} w.

Definition set_icu_unit (f : UnitState -> UnitState)
    (w : World Callback Program) : World Callback Program :=
  let p := ext w in
  set_ext {| agent_objects := agent_objects p; coordinator := coordinator p;
             icu_unit := f (icu_unit p); files := files p |} w.

Definition set_files (f : gmap string Dict -> gmap string Dict)
    (w : World Callback Program) : World Callback Program :=
  let p := ext w in
  set_ext {| agent_objects := agent_objects p; coordinator := coordinator p;
             icu_unit := icu_unit p; files := f (files p) |} w.

(** Reading [self] for the agent bound to a method.  A bound method keeps
    its object alive, so the lookup succeeds for every callback the program
    creates; the error case stands for a reference to no object. *)
Definition agent (self : string) : Prog AgentState :=
  fun w =>
    match agent_objects (ext w) !! self with
    | Some a => ret a w
    | None => raise (RuntimeError ("no agent object " +:+ self)) w
    end.

Definition update_agent (self : string) (f : AgentState -> AgentState) : Prog unit :=
  modify (set_agents (alter f self)).

(** [str(uuid.uuid4())] *)
Definition draw_uuid (env : Env) : Prog string :=
  fun w =>
    {| world := {| message_bus := message_bus w; ext := ext w;
                   clock_reads := clock_reads w; uuid_draws := S (uuid_draws w) |};
       events := [];
       result := inr (uuid4 env (uuid_draws w)) |}.

(** ** base_agent.py *)

Record LLMResponse : Type := {
  recommendation : string;
  confidence : Q;
  reasoning : string
}.

Module MockLLMInterface.

(** [generate_response]: the first keyword found in the lower-cased
    prompt selects the answer; [context] is not read.  (The simulated
    delay of 0.1 s changes nothing in the store.) *)
Definition generate_response (prompt : string) (context : Dict) : LLMResponse :=
  if contains "vital signs" (lower prompt) then
    {| recommendation := "Monitor patient closely. Consider fluid resuscitation if hypotensive.";
       confidence := 85 # 100;
       reasoning := "Based on current vital signs pattern, patient shows signs of hemodynamic instability." |}
  else if contains "medication" (lower prompt) then
    {| recommendation := "Continue current medication regimen. Monitor for drug interactions.";
       confidence := 78 # 100;
       reasoning := "Current medications are appropriate for diagnosis. No immediate changes needed." |}
  else if contains "lab results" (lower prompt) then
    {| recommendation := "Repeat labs in 6 hours. Consider electrolyte replacement if indicated.";
       confidence := 82 # 100;
       reasoning := "Lab values show mild abnormalities that require monitoring." |}
  else
    {| recommendation := "Continue current care plan with regular monitoring.";
       confidence := 75 # 100;
       reasoning := "Patient condition appears stable based on available data." |}.

End MockLLMInterface.

Module BaseAgent.

(** [__init__] *)
Definition init (agent_id agent_type : string) (specialization : option string) : AgentState :=
  {| agent_id := agent_id; agent_type := agent_type; specialization := specialization;
     is_active := false; patients_assigned := []; last_decision_time := None;
     decision_count := 0; response_times := []; confidence_scores := [] |}.

Definition set_is_active (b : bool) (a : AgentState) : AgentState :=
  {| agent_id := agent_id a; agent_type := agent_type a; specialization := specialization a;
     is_active := b; patients_assigned := patients_assigned a;
     last_decision_time := last_decision_time a; decision_count := decision_count a;
     response_times := response_times a; confidence_scores := confidence_scores a |}.

Definition track_metrics (response_time : Q) (a : AgentState) : AgentState :=
  {| agent_id := agent_id a; agent_type := agent_type a; specialization := specialization a;
     is_active := is_active a; patients_assigned := patients_assigned a;
     last_decision_time := last_decision_time a; decision_count := decision_count a + 1;
     response_times := response_times a ++ [response_time];
     confidence_scores := confidence_scores a |}.

Definition set_last_decision_time (t : Q) (a : AgentState) : AgentState :=
  {| agent_id := agent_id a; agent_type := agent_type a; specialization := specialization a;
     is_active := is_active a; patients_assigned := patients_assigned a;
     last_decision_time := Some t; decision_count := decision_count a;
     response_times := response_times a; confidence_scores := confidence_scores a |}.

Definition append_confidence (c : Q) (a : AgentState) : AgentState :=
  {| agent_id := agent_id a; agent_type := agent_type a; specialization := specialization a;
     is_active := is_active a; patients_assigned := patients_assigned a;
     last_decision_time := last_decision_time a; decision_count := decision_count a;
     response_times := response_times a; confidence_scores := confidence_scores a ++ [c] |}.

Definition append_patient (p : string) (a : AgentState) : AgentState :=
  {| agent_id := agent_id a; agent_type := agent_type a; specialization := specialization a;
     is_active := is_active a; patients_assigned := patients_assigned a ++ [p];
     last_decision_time := last_decision_time a; decision_count := decision_count a;
     response_times := response_times a; confidence_scores := confidence_scores a |}.

Section Methods.
Variable env : Env.
Variable call : Callback -> string -> Dict -> Prog unit.

(** The two abstract methods, supplied by the subclass. *)
Variable _setup_subscriptions : string -> Prog unit.
Variable process_patient_data : string -> string -> Dict -> Prog Dict.

Definition initialize (self : string) : Prog unit :=
  update_agent self (set_is_active true) ;;
  a <- agent self ;;
  print (agent_type a +:+ " agent " +:+ agent_id a +:+ " initialized") ;;
  _setup_subscriptions self.

Definition make_decision (self : string) (patient_id : string) (context : Dict) : Prog Dict :=
  start <- now env ;;
  try_except
    (decision <- process_patient_data self patient_id context ;;
     a <- agent self ;;
     stamp <- now env ;;
     uid <- draw_uuid env ;;
     let decision := dict_update decision
                       [("agent_id", VStr (agent_id a));
                        ("agent_type", VStr (agent_type a));
                        ("timestamp", VStr (isoformat env stamp));
                        ("decision_id", VStr uid)] in
     finish <- now env ;;
     update_agent self (track_metrics (finish - start)%Q) ;;
     last <- now env ;;
     update_agent self (set_last_decision_time last) ;;
     _ <- publish_message env call "agent_decisions" decision ;;
     print ("Decision made by " +:+ agent_type a +:+ " for " +:+ patient_id +:+ ": "
            +:+ str_value env (default (VStr "unknown") (dict_get "recommendation_type" decision))) ;;
     ret decision)
    (fun e =>
       print ("Error making decision for " +:+ patient_id +:+ ": " +:+ exn_message e) ;;
       a <- agent self ;;
       stamp <- now env ;;
       ret [("error", VStr (exn_message e));
            ("agent_id", VStr (agent_id a));
            ("patient_id", VStr patient_id);
            ("timestamp", VStr (isoformat env stamp))]).

Definition assign_patient (self : string) (patient_id : string) : Prog unit :=
  a <- agent self ;;
  if bool_decide (patient_id ∈ patients_assigned a) then ret tt
  else
    update_agent self (append_patient patient_id) ;;
    print ("Assigned patient " +:+ patient_id +:+ " to " +:+ agent_type a).

Definition shutdown (self : string) : Prog unit :=
  update_agent self (set_is_active false) ;;
  a <- agent self ;;
  print (agent_type a +:+ " agent " +:+ agent_id a +:+ " shutdown").

End Methods.
End BaseAgent.

(** ** clinical_agents.py *)

(** [patient_id in self.patients_assigned] for the value read from a
    message: only a string can equal an entry of the list. *)
Definition assigned_patient (v : Value) (a : AgentState) : option string :=
  match v with
  | VStr p => if bool_decide (p ∈ patients_assigned a) then Some p else None
  | _ => None
  end.

Module PhysicianAgent.

Definition init (agent_id : string) : AgentState :=
  BaseAgent.init agent_id "physician" (Some "critical_care").

(** The [critical_thresholds] table of [_handle_vitals]: (low, high). *)
Definition critical_thresholds : list (string * (Z * Z)) :=
  [("heart_rate", (50, 120)); ("systolic_bp", (90, 180)); ("spo2", (92, 100))]%Z.

(** [critical_thresholds[parameter]] when [parameter in critical_thresholds]. *)
Definition thresholds_of (parameter : Value) : option (Z * Z) :=
  match parameter with
  | VStr p => snd <$> find (fun kv => String.eqb (fst kv) p) critical_thresholds
  | _ => None
  end.

Section Methods.
Variable env : Env.
Variable call : Callback -> string -> Dict -> Prog unit.

Definition _setup_subscriptions (self : string) : Prog unit :=
  subscribe "vitals" (PhysicianAgent_handle_vitals self) ;;
  subscribe "alerts" (PhysicianAgent_handle_alerts self).

Definition process_patient_data (self : string) (patient_id : string) (data : Dict) : Prog Dict :=
  let prompt := "Clinical Assessment for Patient " +:+ patient_id +:+ ": " +:+ str_dict env data in
  let llm_response := MockLLMInterface.generate_response prompt data in
  let decision := [("patient_id", VStr patient_id);
                   ("recommendation_type", VStr "clinical_assessment");
                   ("assessment", VStr (recommendation llm_response));
                   ("confidence_score", VFloat (confidence llm_response));
                   ("reasoning", VStr (reasoning llm_response));
                   ("urgency", VStr "low")] in
  update_agent self (BaseAgent.append_confidence (confidence llm_response)) ;;
  ret decision.

Definition make_decision : string -> string -> Dict -> Prog Dict :=
  BaseAgent.make_decision env call process_patient_data.

Definition initialize : string -> Prog unit :=
  BaseAgent.initialize _setup_subscriptions.

Definition _make_urgent_decision (self : string) (patient_id : string) (context : Dict) : Prog unit :=
  let prompt := "URGENT: Patient " +:+ patient_id +:+ " - " +:+ str_value env (get "trigger" context)
                +:+ " - Provide immediate recommendations" in
  let llm_response := MockLLMInterface.generate_response prompt context in
  let decision := [("patient_id", VStr patient_id);
                   ("recommendation_type", VStr "urgent_clinical_decision");
                   ("trigger", get "trigger" context);
                   ("recommendation", VStr (recommendation llm_response));
                   ("confidence_score", VFloat (confidence llm_response));
                   ("reasoning", VStr (reasoning llm_response));
                   ("urgency", VStr "high")] in
  _ <- make_decision self patient_id decision ;;
  ret tt.

Definition _handle_vitals (self : string) (topic : string) (message : Dict) : Prog unit :=
  a <- agent self ;;
  match assigned_patient (get "patient_id" message) a with
  | None => ret tt
  | Some patient_id =>
      let parameter := get "parameter" message in
      let value := get "value" message in
      match thresholds_of parameter with
      | None => ret tt
      | Some (low, high) =>
          below <- lift (py_lt value (VInt low)) ;;
          critical <- (if below : bool then ret true else lift (py_gt value (VInt high))) ;;
          if critical : bool then
            _make_urgent_decision self patient_id
              [("trigger", VStr "critical_vital"); ("parameter", parameter); ("value", value)]
          else ret tt
      end
  end.

(** [message.get("severity") in ["high", "critical"]] *)
Definition severe (message : Dict) : bool :=
  match get "severity" message with
  | VStr s => String.eqb s "high" || String.eqb s "critical"
  | _ => false
  end.

Definition _handle_alerts (self : string) (topic : string) (message : Dict) : Prog unit :=
  a <- agent self ;;
  match assigned_patient (get "patient_id" message) a with
  | None => ret tt
  | Some patient_id =>
      if severe message then
        _make_urgent_decision self patient_id
          [("trigger", VStr "clinical_alert"); ("alert_type", get "alert_type" message)]
      else ret tt
  end.

End Methods.
End PhysicianAgent.

Module NurseAgent.

Definition init (agent_id : string) : AgentState :=
  BaseAgent.init agent_id "nurse" (Some "icu_nursing").

Section Methods.
Variable env : Env.
Variable call : Callback -> string -> Dict -> Prog unit.

Definition _setup_subscriptions (self : string) : Prog unit :=
  subscribe "vitals" (NurseAgent_handle_vitals_monitoring self).

Definition process_patient_data (self : string) (patient_id : string) (data : Dict) : Prog Dict :=
  let prompt := "Nursing Assessment for Patient " +:+ patient_id +:+ ": " +:+ str_dict env data in
  let llm_response := MockLLMInterface.generate_response prompt data in
  let decision := [("patient_id", VStr patient_id);
                   ("recommendation_type", VStr "nursing_care_plan");
                   ("care_plan", VStr (recommendation llm_response));
                   ("confidence_score", VFloat (confidence llm_response));
                   ("reasoning", VStr (reasoning llm_response))] in
  update_agent self (BaseAgent.append_confidence (confidence llm_response)) ;;
  ret decision.

Definition make_decision : string -> string -> Dict -> Prog Dict :=
  BaseAgent.make_decision env call process_patient_data.

Definition initialize : string -> Prog unit :=
  BaseAgent.initialize _setup_subscriptions.

Definition _recommend_nursing_intervention (self : string) (patient_id : string)
    (intervention : Dict) : Prog unit :=
  what <- lift (getitem "intervention" intervention) ;;
  details <- lift (getitem "details" intervention) ;;
  let decision := [("patient_id", VStr patient_id);
                   ("recommendation_type", VStr "nursing_intervention");
                   ("intervention", what);
                   ("details", details);
                   ("confidence_score", VFloat (90 # 100));
                   ("reasoning", VStr "Standard nursing protocol")] in
  _ <- make_decision self patient_id decision ;;
  ret tt.

(** [parameter == "temperature"] *)
Definition is_temperature (parameter : Value) : bool :=
  match parameter with
  | VStr p => String.eqb p "temperature"
  | _ => false
  end.

Definition _handle_vitals_monitoring (self : string) (topic : string) (message : Dict) : Prog unit :=
  a <- agent self ;;
  match assigned_patient (get "patient_id" message) a with
  | None => ret tt
  | Some patient_id =>
      let parameter := get "parameter" message in
      let value := get "value" message in
      fever <- (if is_temperature parameter then lift (py_gt value (VFloat 38)) else ret false) ;;
      if fever : bool then
        _recommend_nursing_intervention self patient_id
          [("intervention", VStr "fever_management");
           ("details", VStr "Administer antipyretic, cooling measures")]
      else ret tt
  end.

End Methods.
End NurseAgent.

Module PharmacistAgent.

Definition init (agent_id : string) : AgentState :=
  BaseAgent.init agent_id "pharmacist" (Some "clinical_pharmacy").

(** [self.drug_interactions], set once in [__init__] and never changed. *)
Definition drug_interactions : list (string * list string) :=
  [("warfarin", ["aspirin"; "heparin"]); ("digoxin", ["furosemide"])].

Section Methods.
Variable env : Env.
Variable call : Callback -> string -> Dict -> Prog unit.

Definition _setup_subscriptions (self : string) : Prog unit :=
  subscribe "medications" (PharmacistAgent_handle_medication_review self).

Definition process_patient_data (self : string) (patient_id : string) (data : Dict) : Prog Dict :=
  let prompt := "Pharmaceutical Care Review for Patient " +:+ patient_id +:+ ": " +:+ str_dict env data in
  let llm_response := MockLLMInterface.generate_response prompt data in
  let decision := [("patient_id", VStr patient_id);
                   ("recommendation_type", VStr "pharmaceutical_care");
                   ("recommendations", VStr (recommendation llm_response));
                   ("confidence_score", VFloat (confidence llm_response));
                   ("reasoning", VStr (reasoning llm_response))] in
  update_agent self (BaseAgent.append_confidence (confidence llm_response)) ;;
  ret decision.

Definition make_decision : string -> string -> Dict -> Prog Dict :=
  BaseAgent.make_decision env call process_patient_data.

Definition initialize : string -> Prog unit :=
  BaseAgent.initialize _setup_subscriptions.

Definition _check_drug_interactions (self : string) (patient_id : string) (medication : Dict) : Prog unit :=
  let decision := [("patient_id", VStr patient_id);
                   ("recommendation_type", VStr "drug_interaction_alert");
                   ("medication", get "drug_name" medication);
                   ("alert", VStr "Potential drug interaction detected");
                   ("confidence_score", VFloat (95 # 100));
                   ("reasoning", VStr "Drug interaction database match")] in
  _ <- make_decision self patient_id decision ;;
  ret tt.

(** [message.get("drug_name", EMPTY).lower()], with the empty string for [EMPTY]. *)
Definition drug_name_lower (message : Dict) : Exn + string :=
  match dict_get "drug_name" message with
  | None => inr EmptyString
  | Some (VStr s) => inr (lower s)
  | Some v => inl (AttributeError ("'" +:+ type_name v +:+ "' object has no attribute 'lower'"))
  end.

Definition _handle_medication_review (self : string) (topic : string) (message : Dict) : Prog unit :=
  a <- agent self ;;
  match assigned_patient (get "patient_id" message) a with
  | None => ret tt
  | Some patient_id =>
      drug_name <- lift (drug_name_lower message) ;;
      if existsb (fun kv => String.eqb (fst kv) drug_name) drug_interactions then
        _check_drug_interactions self patient_id message
      else ret tt
  end.

End Methods.
End PharmacistAgent.

(** ** mock_message_bus.py : MockDevice, MockICUUnit *)

Module MockDevice.

Definition init (device_id device_type patient_id : string) : DeviceState :=
  {| device_id := device_id; device_type := device_type;
     device_patient_id := patient_id; device_is_running := false |}.

Definition stop_simulation (d : DeviceState) : DeviceState :=
  {| device_id := device_id d; device_type := device_type d;
     device_patient_id := device_patient_id d; device_is_running := false |}.

End MockDevice.

Module MockICUUnit.

Definition add_patient (patient_id : string) : Prog unit :=
  u <- read (fun w => icu_unit (ext w)) ;;
  if bool_decide (patient_id ∈ unit_patients u) then ret tt
  else
    modify (set_icu_unit (fun u =>
      {| unit_id := unit_id u;
         devices := devices u ++ [MockDevice.init (patient_id +:+ "_MONITOR") "monitor" patient_id];
         unit_patients := unit_patients u ++ [patient_id] |})).

Definition stop_unit_simulation : Prog unit :=
  modify (set_icu_unit (fun u =>
    {| unit_id := unit_id u;
       devices := map MockDevice.stop_simulation (devices u);
       unit_patients := unit_patients u |})) ;;
  u <- read (fun w => icu_unit (ext w)) ;;
  print ("Stopped simulation for " +:+ pretty (length (devices u)) +:+ " devices").

End MockICUUnit.

(** ** workflow_coordinator.py *)

(** [int(x)] on a float: truncation toward zero. *)
Definition int_of_Q (q : Q) : Z := Z.quot (Qnum q) (Zpos (Qden q)).

Definition rule60 : string :=
  "============================================================".

Module WorkflowCoordinator.

Definition init : CoordinatorState :=
  {| agents := []; patients := []; is_running := false; tasks := [];
     start_time := None; total_decisions := 0; total_messages := 0 |}.

Definition set_is_running (b : bool) (c : CoordinatorState) : CoordinatorState :=
  {| agents := agents c; patients := patients c; is_running := b; tasks := tasks c;
     start_time := start_time c; total_decisions := total_decisions c;
     total_messages := total_messages c |}.

Definition set_tasks (f : list TaskState -> list TaskState) (c : CoordinatorState) : CoordinatorState :=
  {| agents := agents c; patients := patients c; is_running := is_running c;
     tasks := f (tasks c); start_time := start_time c;
     total_decisions := total_decisions c; total_messages := total_messages c |}.

Definition register_agent (agent_id : string) (c : CoordinatorState) : CoordinatorState :=
  {| agents := if bool_decide (agent_id ∈ agents c) then agents c else agents c ++ [agent_id];
     patients := patients c; is_running := is_running c; tasks := tasks c;
     start_time := start_time c; total_decisions := total_decisions c;
     total_messages := total_messages c |}.

Definition count_message (c : CoordinatorState) : CoordinatorState :=
  {| agents := agents c; patients := patients c; is_running := is_running c; tasks := tasks c;
     start_time := start_time c; total_decisions := total_decisions c;
     total_messages := total_messages c + 1 |}.

Definition count_decision (c : CoordinatorState) : CoordinatorState :=
  {| agents := agents c; patients := patients c; is_running := is_running c; tasks := tasks c;
     start_time := start_time c; total_decisions := total_decisions c + 1;
     total_messages := total_messages c |}.

(** [task.cancel()] on a task that is not done, and the task as
    [asyncio.gather(..., return_exceptions=True)] leaves it: finished.
    What a task does between the two is outside this model. *)
Definition cancel (t : TaskState) : TaskState :=
  {| task_name := task_name t; task_done := task_done t; task_cancelled := true |}.

Definition awaited (t : TaskState) : TaskState :=
  {| task_name := task_name t; task_done := true; task_cancelled := task_cancelled t |}.

(** [asyncio.create_task(...)] *)
Definition create_task (name : string) : TaskState :=
  {| task_name := name; task_done := false; task_cancelled := false |}.

Section Methods.
Variable env : Env.
Variable call : Callback -> string -> Dict -> Prog unit.

(** [settings.data_path] and the [:.1f] format of the final report. *)
Variable data_path : string.
Variable format_1f : Q -> string.

Definition self : Prog CoordinatorState := read (fun w => coordinator (ext w)).

Definition _monitor_messages (topic : string) (message : Dict) : Prog unit :=
  modify (set_coordinator count_message) ;;
  if String.eqb topic "alerts" && PhysicianAgent.severe message then
    print ("🚨 Critical alert: " +:+ str_dict env message)
  else ret tt.

(** [decision.get("urgency") == "high"] *)
Definition is_high (urgency : Value) : bool :=
  match urgency with
  | VStr s => String.eqb s "high"
  | _ => false
  end.

Definition _track_decisions (topic : string) (decision : Dict) : Prog unit :=
  modify (set_coordinator count_decision) ;;
  if is_high (get "urgency" decision) then
    print ("⚠️  High urgency decision: " +:+ str_value env (get "recommendation_type" decision)
           +:+ " for " +:+ str_value env (get "patient_id" decision))
  else ret tt.

Definition _setup_monitoring : Prog unit :=
  for_each ["vitals"; "labs"; "medications"; "alerts"; "agent_decisions"]
    (fun topic => subscribe topic WorkflowCoordinator_monitor_messages).

Definition _assign_patients_to_agents : Prog unit :=
  c <- self ;;
  for_each (agents c) (fun agent_id =>
    for_each (patients c) (fun patient_id => BaseAgent.assign_patient agent_id patient_id)) ;;
  print ("✅ Assigned " +:+ pretty (length (patients c)) +:+ " patients to agents").

(** [_initialize_agents]: construct, initialise and register the three
    agents, assign the patients, subscribe the decision tracker. *)
Definition _initialize_agents : Prog unit :=
  print "🤖 Initializing agents..." ;;
  for_each [("PHYSICIAN_001", (PhysicianAgent.init, PhysicianAgent.initialize));
            ("NURSE_001", (NurseAgent.init, NurseAgent.initialize));
            ("PHARMACIST_001", (PharmacistAgent.init, PharmacistAgent.initialize))]
    (fun entry =>
       let agent_id := fst entry in
       modify (set_agents (insert agent_id (fst (snd entry) agent_id))) ;;
       snd (snd entry) agent_id ;;
       modify (set_coordinator (register_agent agent_id))) ;;
  _assign_patients_to_agents ;;
  subscribe "agent_decisions" WorkflowCoordinator_track_decisions ;;
  c <- self ;;
  print ("✅ Initialized " +:+ pretty (length (agents c)) +:+ " agents").

(** [start_simulation] up to the point where the coroutine suspends in
    [asyncio.sleep]: the guard, the flag, the two tasks.  What runs after
    the sleep is [stop_simulation], from the [finally] clause. *)
Definition start_simulation (duration_minutes : Z) : Prog unit :=
  c <- self ;;
  if is_running c then print "⚠️  Simulation already running"
  else
    modify (set_coordinator (set_is_running true)) ;;
    print ("🚀 Starting ICU simulation for " +:+ pretty duration_minutes +:+ " minutes...") ;;
    modify (set_coordinator (set_tasks (fun ts => ts ++ [create_task "device_task"]))) ;;
    modify (set_coordinator (set_tasks (fun ts => ts ++ [create_task "monitoring_task"]))).

(** [_generate_final_report].  The directory and the file can always be
    written: a failure of [mkdir], [open] or [json.dump] is not part of
    this model. *)
Definition _generate_final_report : Prog unit :=
  c <- self ;;
  duration_minutes <- match start_time c with
                      | Some t0 => t <- now env ;; ret (int_of_Q ((t - t0) / 60))
                      | None => ret 0%Z
                      end ;;
  completed <- now env ;;
  let per_minute := true_div env (Z.of_nat (total_decisions c)) (Z.max 1 duration_minutes) in
  let final_report :=
    [("simulation_completed", VStr (isoformat env completed));
     ("duration_minutes", VInt duration_minutes);
     ("total_decisions_made", VInt (Z.of_nat (total_decisions c)));
     ("total_messages_processed", VInt (Z.of_nat (total_messages c)));
     ("patients_monitored", VInt (Z.of_nat (length (patients c))));
     ("agents_deployed", VInt (Z.of_nat (length (agents c))));
     ("decisions_per_minute", VFloat per_minute)] in
  modify (set_files (insert (data_path +:+ "/final_report.json") final_report)) ;;
  print (String (ascii_of_nat 10) rule60) ;;
  print "🎉 ICU SIMULATION COMPLETED!" ;;
  print rule60 ;;
  print ("Duration: " +:+ pretty duration_minutes +:+ " minutes") ;;
  print ("Decisions Made: " +:+ pretty (total_decisions c)) ;;
  print ("Messages Processed: " +:+ pretty (total_messages c)) ;;
  print ("Patients Monitored: " +:+ pretty (length (patients c))) ;;
  print ("Performance: " +:+ format_1f per_minute +:+ " decisions/min") ;;
  print rule60 ;;
  print "📄 Reports saved:" ;;
  print ("  • " +:+ data_path +:+ "/final_report.json") ;;
  print ("  • " +:+ data_path +:+ "/status_report.json") ;;
  print ("  • " +:+ data_path +:+ "/patients/").

Definition stop_simulation : Prog unit :=
  print "⏹️  Stopping ICU simulation..." ;;
  modify (set_coordinator (set_is_running false)) ;;
  MockICUUnit.stop_unit_simulation ;;
  modify (set_coordinator (set_tasks (map (fun t => if task_done t then t else cancel t)))) ;;
  modify (set_coordinator (set_tasks (map awaited))) ;;
  c <- self ;;
  for_each (agents c) BaseAgent.shutdown ;;
  _generate_final_report ;;
  print "✅ ICU simulation stopped".

End Methods.
End WorkflowCoordinator.

(** ** Calling a subscriber

    A callback is called with a bound on the depth of nested calls (an
    agent callback publishes a decision, which calls the subscribers of
    [agent_decisions], and so on); at depth zero the interpreter gives up
    with a [RecursionError]. *)
Fixpoint invoke (env : Env) (depth : nat) (callback : Callback) (topic : string) (message : Dict)
    : Prog unit :=
  match depth with
  | 0 => raise (RecursionError "maximum recursion depth exceeded")
  | S d =>
      match callback with
      | PhysicianAgent_handle_vitals self =>
          PhysicianAgent._handle_vitals env (invoke env d) self topic message
      | PhysicianAgent_handle_alerts self =>
          PhysicianAgent._handle_alerts env (invoke env d) self topic message
      | NurseAgent_handle_vitals_monitoring self =>
          NurseAgent._handle_vitals_monitoring env (invoke env d) self topic message
      | PharmacistAgent_handle_medication_review self =>
          PharmacistAgent._handle_medication_review env (invoke env d) self topic message
      | WorkflowCoordinator_monitor_messages =>
          WorkflowCoordinator._monitor_messages env topic message
      | WorkflowCoordinator_track_decisions =>
          WorkflowCoordinator._track_decisions env topic message
      end
  end.

(** ** A concrete environment for the closed examples

    The clock shows the number of reads so far, in seconds; floats are
    printed in decimal notation and strings between single quotes, which
    is what Python prints for the values that occur in the examples; the
    quotient of two integers is taken exactly, which is the float Python
    computes for the quotients that occur in the examples (a zero
    numerator, or a denominator of one). *)

Fixpoint fraction_digits (fuel : nat) (r d : Z) : string :=
  match fuel with
  | 0 => EmptyString
  | S f =>
      if (r =? 0)%Z then EmptyString
      else pretty ((r * 10) / d)%Z +:+ fraction_digits f ((r * 10) mod d)%Z d
  end.

Definition decimal (q : Q) : string :=
  let n := Qnum q in
  let d := Zpos (Qden q) in
  let a := Z.abs n in
  (if (n <? 0)%Z then "-" else EmptyString) +:+ pretty (a / d)%Z +:+ "."
  +:+ (if (a mod d =? 0)%Z then "0" else fraction_digits 17 (a mod d)%Z d).

Definition example_env : Env :=
  {| clock := fun n => inject_Z (Z.of_nat n);
     isoformat := fun q => "1970-01-01T00:00:" +:+ decimal q;
     uuid4 := fun n => "00000000-0000-4000-8000-" +:+ pretty n;
     repr_float := decimal;
     repr_str := fun s => "'" +:+ s +:+ "'";
     true_div := fun n d => (inject_Z n / inject_Z d)%Q |}.

Definition empty_bus : MockMessageBus Callback :=
  {| topics := ∅; subscribers := ∅ |}.

(** The store when the modules have been imported: an empty bus, a fresh
    coordinator, the empty unit [ICU_1]. *)
Definition initial_world : World Callback Program :=
  {| message_bus := empty_bus;
     ext := {| agent_objects := ∅;
               coordinator := WorkflowCoordinator.init;
               icu_unit := {| unit_id := "ICU_1"; devices := []; unit_patients := [] |};
               files := ∅ |};
     clock_reads := 0;
     uuid_draws := 0 |}.

Definition set_patients (ps : list string) (c : CoordinatorState) : CoordinatorState :=
  {| agents := agents c; patients := ps; is_running := is_running c; tasks := tasks c;
     start_time := start_time c; total_decisions := total_decisions c;
     total_messages := total_messages c |}.

(** The store after [WorkflowCoordinator.initialize] for one patient
    [PATIENT_1]: the three agents initialised and assigned, the coordinator
    subscribed to every topic. *)
Definition wired_world : World Callback Program :=
  world ((modify (set_coordinator (set_patients ["PATIENT_1"])) ;;
          MockICUUnit.add_patient "PATIENT_1" ;;
          WorkflowCoordinator._initialize_agents ;;
          WorkflowCoordinator._setup_monitoring) initial_world).

(** ** Vocabulary of the properties *)

Section Observations.
Context {Cb : Type}.

(** The messages an operation itself stored on [topic] (not those stored
    by the callbacks it called), in order. *)
Definition appended_to (topic : string) (evs : list (Event Cb)) : list Dict :=
  flat_map (fun e => match e with
                     | Stored t m => if String.eqb t topic then [m] else []
                     | _ => []
                     end) evs.

(** What the notification loop leaves for one subscriber: the call, and the
    logged line when the call ended with an exception. *)
Definition notified (topic : string) (enriched : Dict) (c : Cb)
    (x : list (Event Cb) * option Exn) : list (Event Cb) :=
  Called c topic enriched (fst x) (snd x)
  :: match snd x with
     | Some e => [Console ("Error in subscriber callback: " +:+ exn_message e)]
     | None => []
     end.

(** The messages with which [c] was called directly for [topic], in order. *)
Definition deliveries `{EqDecision Cb} (c : Cb) (topic : string) (evs : list (Event Cb)) : list Dict :=
  map snd (List.filter (fun x => bool_decide (fst x = c)) (calls_on topic evs)).
(** How often [c] occurs in a subscriber list. *)
Definition occurrences `{EqDecision Cb} (c : Cb) (subs : list Cb) : nat :=
  length (List.filter (fun c' => bool_decide (c' = c)) subs).
End Observations.

(** The metadata [publish] adds to a message. *)
Definition metadata (env : Env) (topic : string) (reads : nat) (len : nat) : Dict :=
  [("_topic", VStr topic);
   ("_timestamp", VStr (isoformat env (clock env reads)));
   ("_id", VStr (topic +:+ "_" +:+ pretty len))].

(** The two stores give every topic the same subscriber list. *)
Definition same_subscribers {Cb Ext} (w w' : World Cb Ext) : Prop :=
  forall topic, subscribed topic (message_bus w') = subscribed topic (message_bus w).

Section Scripts.
Context {Cb Ext : Type}.
Variable env : Env.
Variable call : Cb -> string -> Dict -> M Cb Ext unit.

(** The message [publish] stores and hands to the subscribers. *)
Definition enriched_by (topic : string) (d : Dict) (w : World Cb Ext) : Dict :=
  dict_update d (metadata env topic (clock_reads w) (length (buffer topic (message_bus w)))).

(** The store at the start of the notification loop of [publish]. *)
Definition loop_entry (topic : string) (enriched : Dict) (w : World Cb Ext) : World Cb Ext :=
  let b := message_bus w in
  {| message_bus := {| topics := <[topic := deque_append (buffer topic b) enriched]> (topics b);
                       subscribers := <[topic := subscribed topic b]> (subscribers b) |};
     ext := ext w;
     clock_reads := S (clock_reads w);
     uuid_draws := uuid_draws w |}.

(** The exception a program ended with, if any. *)
Definition exception_of {A} (o : Outcome Cb Ext A) : option Exn :=
  match result o with inl e => Some e | inr _ => None end.

(** What the subscribers of a list do when each is called in the store
    the one before it left, whether that one returned or raised: for each,
    the events of its call and the exception it ended with. *)
Fixpoint loop_outcomes (topic : string) (enriched : Dict) (subs : list Cb) (w : World Cb Ext)
    : list (list (Event Cb) * option Exn) :=
  match subs with
  | [] => []
  | c :: rest =>
      let o := call c topic enriched w in
      (events o, exception_of o) :: loop_outcomes topic enriched rest (world o)
  end.

(** The store they leave. *)
Fixpoint loop_world (topic : string) (enriched : Dict) (subs : list Cb) (w : World Cb Ext)
    : World Cb Ext :=
  match subs with
  | [] => w
  | c :: rest => loop_world topic enriched rest (world (call c topic enriched w))
  end.

(** A run of [publish] calls, one after the other. *)
Definition publish_all (script : list (string * PyObject)) : M Cb Ext unit :=
  for_each script (fun tm => _ <- publish env call (fst tm) (snd tm) ;; ret tt).
End Scripts.

(** ** Vocabulary for the agents *)

(** The three concrete agent classes; [process_patient_data] dispatches on
    the class of [self]. *)
Inductive AgentClass : Type := Physician | Nurse | Pharmacist.

Definition process_patient_data (env : Env) (cls : AgentClass) : string -> string -> Dict -> Prog Dict :=
  match cls with
  | Physician => PhysicianAgent.process_patient_data env
  | Nurse => NurseAgent.process_patient_data env
  | Pharmacist => PharmacistAgent.process_patient_data env
  end.

Definition make_decision (env : Env) (call : Callback -> string -> Dict -> Prog unit)
    (cls : AgentClass) : string -> string -> Dict -> Prog Dict :=
  BaseAgent.make_decision env call (process_patient_data env cls).

(** The prompt a class builds in [process_patient_data], the answer of the
    decision engine to it, and the decision the method returns. *)
Definition prompt_of (env : Env) (cls : AgentClass) (patient_id : string) (data : Dict) : string :=
  match cls with
  | Physician => "Clinical Assessment for Patient "
  | Nurse => "Nursing Assessment for Patient "
  | Pharmacist => "Pharmaceutical Care Review for Patient "
  end +:+ patient_id +:+ ": " +:+ str_dict env data.

Definition engine_answer (env : Env) (cls : AgentClass) (patient_id : string) (data : Dict) : LLMResponse :=
  MockLLMInterface.generate_response (prompt_of env cls patient_id data) data.

Definition baseline_decision (env : Env) (cls : AgentClass) (patient_id : string) (data : Dict) : Dict :=
  let r := engine_answer env cls patient_id data in
  match cls with
  | Physician =>
      [("patient_id", VStr patient_id); ("recommendation_type", VStr "clinical_assessment");
       ("assessment", VStr (recommendation r)); ("confidence_score", VFloat (confidence r));
       ("reasoning", VStr (reasoning r)); ("urgency", VStr "low")]
  | Nurse =>
      [("patient_id", VStr patient_id); ("recommendation_type", VStr "nursing_care_plan");
       ("care_plan", VStr (recommendation r)); ("confidence_score", VFloat (confidence r));
       ("reasoning", VStr (reasoning r))]
  | Pharmacist =>
      [("patient_id", VStr patient_id); ("recommendation_type", VStr "pharmaceutical_care");
       ("recommendations", VStr (recommendation r)); ("confidence_score", VFloat (confidence r));
       ("reasoning", VStr (reasoning r))]
  end.

(** The decision [make_decision] returns on success: the baseline decision
    with the agent's identity, a timestamp and a fresh decision id. *)
Definition completed_decision (env : Env) (cls : AgentClass) (a : AgentState)
    (patient_id : string) (data : Dict) (w : World Callback Program) : Dict :=
  dict_update (baseline_decision env cls patient_id data)
    [("agent_id", VStr (agent_id a));
     ("agent_type", VStr (agent_type a));
     ("timestamp", VStr (isoformat env (clock env (S (clock_reads w)))));
     ("decision_id", VStr (uuid4 env (uuid_draws w)))].

#[global] Instance callback_eq_dec : EqDecision Callback.
Proof. solve_decision. Defined.

(** A message no agent callback reacts to: it names no parameter, no
    severity and no drug. *)
Definition inert (m : Dict) : Prop :=
  dict_get "parameter" m = None /\ dict_get "severity" m = None /\ dict_get "drug_name" m = None.

Definition same_agents (w w' : World Callback Program) : Prop :=
  agent_objects (ext w') = agent_objects (ext w).

Definition agent_of (self : string) (w : World Callback Program) : option AgentState :=
  agent_objects (ext w) !! self.

(** An outcome that touched neither the agents, nor the bus, nor the clock
    and the uuid generator, and stored no message. *)
Definition quiet {A} (o : Outcome Callback Program A) (w : World Callback Program) : Prop :=
  same_agents w (world o) /\ message_bus (world o) = message_bus w /\
  clock_reads (world o) = clock_reads w /\ uuid_draws (world o) = uuid_draws w /\
  forall topic, stored_on topic (events o) = [].

(** The store in which [make_decision] publishes: the confidence, the
    response time and the time of the decision are recorded, the clock
    has been read four times and one uuid drawn. *)
Definition before_publish (env : Env) (cls : AgentClass) (self patient_id : string)
    (data : Dict) (w : World Callback Program) : World Callback Program :=
  let n := clock_reads w in
  {| message_bus := message_bus w;
     ext := {| agent_objects :=
                 alter (BaseAgent.set_last_decision_time (clock env (S (S (S n))))) self
                   (alter (BaseAgent.track_metrics (clock env (S (S n)) - clock env n)) self
                      (alter (BaseAgent.append_confidence
                                (confidence (engine_answer env cls patient_id data))) self
                         (agent_objects (ext w))));
               coordinator := coordinator (ext w);
               icu_unit := icu_unit (ext w);
               files := files (ext w) |};
     clock_reads := S (S (S (S n)));
     uuid_draws := S (uuid_draws w) |}.

(** The agent as a successful [make_decision] leaves it. *)
Definition decided (env : Env) (cls : AgentClass) (patient_id : string) (data : Dict)
    (n : nat) (a : AgentState) : AgentState :=
  BaseAgent.set_last_decision_time (clock env (S (S (S n))))
    (BaseAgent.track_metrics (clock env (S (S n)) - clock env n)
       (BaseAgent.append_confidence (confidence (engine_answer env cls patient_id data)) a)).

(** The store once [make_decision] has read the clock for [start_time]. *)
Definition started (w : World Callback Program) : World Callback Program :=
  {| message_bus := message_bus w; ext := ext w;
     clock_reads := S (clock_reads w); uuid_draws := uuid_draws w |}.



(** A vitals reading as a [MockDevice] publishes it. *)
Definition vitals_reading (patient_id parameter : string) (value : Value) : Dict :=
  [("patient_id", VStr patient_id);
   ("device_id", VStr (patient_id +:+ "_MONITOR"));
   ("parameter", VStr parameter);
   ("value", value);
   ("unit", VStr "bpm");
   ("quality_score", VFloat (95 # 100))].

Definition example_context : Dict := [("note", VStr "routine review")].

(** The dict [_make_urgent_decision] builds and hands to [make_decision]
    as its [context] argument. *)
Definition urgent_decision (env : Env) (patient_id : string) (context : Dict) : Dict :=
  let prompt := "URGENT: Patient " +:+ patient_id +:+ " - " +:+ str_value env (get "trigger" context)
                +:+ " - Provide immediate recommendations" in
  let llm_response := MockLLMInterface.generate_response prompt context in
  [("patient_id", VStr patient_id);
   ("recommendation_type", VStr "urgent_clinical_decision");
   ("trigger", get "trigger" context);
   ("recommendation", VStr (recommendation llm_response));
   ("confidence_score", VFloat (confidence llm_response));
   ("reasoning", VStr (reasoning llm_response));
   ("urgency", VStr "high")].

(** The dict [_recommend_nursing_intervention] builds for a fever. *)
Definition fever_intervention (patient_id : string) : Dict :=
  [("patient_id", VStr patient_id);
   ("recommendation_type", VStr "nursing_intervention");
   ("intervention", VStr "fever_management");
   ("details", VStr "Administer antipyretic, cooling measures");
   ("confidence_score", VFloat (90 # 100));
   ("reasoning", VStr "Standard nursing protocol")].

(** The context of a critical-vital trigger. *)
Definition critical_vital (message : Dict) : Dict :=
  [("trigger", VStr "critical_vital");
   ("parameter", get "parameter" message);
   ("value", get "value" message)].

(** An agent subclass whose [_setup_subscriptions] raises. *)
Definition failing_setup (self : string) : Prog unit :=
  raise (RuntimeError "message bus unavailable").

(** The store with one freshly constructed agent of that subclass. *)
Definition created_world : World Callback Program :=
  set_agents (insert "AGENT_X" (BaseAgent.init "AGENT_X" "observer" None)) initial_world.

(** [self.is_active] of the agent [self], if there is such an object. *)
Definition active (self : string) (w : World Callback Program) : option bool :=
  is_active <$> agent_of self w.

(** The file the final report is written to. *)
Definition final_report_path (data_path : string) : string :=
  data_path +:+ "/final_report.json".

(** The store in which [stop_simulation] starts to shut the agents down. *)
Definition stopping (w : World Callback Program) : World Callback Program :=
  let p := ext w in
  let c := coordinator p in
  let u := icu_unit p in
  {| message_bus := message_bus w;
     ext := {| agent_objects := agent_objects p;
               coordinator :=
                 WorkflowCoordinator.set_tasks (map WorkflowCoordinator.awaited)
                   (WorkflowCoordinator.set_tasks
                      (map (fun t => if task_done t then t else WorkflowCoordinator.cancel t))
                      (WorkflowCoordinator.set_is_running false c));
               icu_unit := {| unit_id := unit_id u;
                              devices := map MockDevice.stop_simulation (devices u);
                              unit_patients := unit_patients u |};
               files := files p |};
     clock_reads := clock_reads w;
     uuid_draws := uuid_draws w |}.

(** ** The rest of the bus, the unit, the agents and the coordinator *)

(** *** mock_message_bus.py : the shared state of the bus

    [MockMessageBus.state] maps a key to the value last set for it and the
    time it was set.  Only [set_state] and [get_state] use the field; it
    is the [Ext] part of the store of a bus used on its own. *)
Record StateEntry : Type := {
  entry_value : PyObject;
  entry_timestamp : string
}.

Abbreviation BusState := (gmap string StateEntry).

Section SharedState.
Context {Cb : Type}.
Variable env : Env.

Definition set_state (key : string) (value : PyObject) : M Cb BusState unit :=
  stamp <- now env ;;
  modify (fun w => set_ext (<[key := {| entry_value := value;
                                        entry_timestamp := isoformat env stamp |}]> (ext w)) w).

(** [state_data["value"] if state_data else None]: an entry is a dict of
    two keys, so it is never empty. *)
Definition get_state (key : string) : M Cb BusState PyObject :=
  state_data <- read (fun w => ext w !! key) ;;
  ret (match state_data with
       | Some entry => entry_value entry
       | None => Scalar VNone
       end).
End SharedState.

(** *** mock_message_bus.py : MockICUUnit.get_unit_status *)

Record UnitStatus : Type := {
  status_unit_id : string;
  patient_count : nat;
  device_count : nat;
  active_devices : nat;
  status_patients : list string
}.

Definition get_unit_status : Prog UnitStatus :=
  u <- read (fun w => icu_unit (ext w)) ;;
  ret {| status_unit_id := unit_id u;
         patient_count := length (unit_patients u);
         device_count := length (devices u);
         active_devices := length (List.filter device_is_running (devices u));
         status_patients := unit_patients u |}.

(** *** base_agent.py : BaseAgent.get_status *)

Section Status.
Variable env : Env.

(** The float arithmetic of [get_status]: [sum] of a list of floats and
    the quotient of a float by a length.  Nothing is assumed about them. *)
Variable float_sum : list Q -> Q.
Variable float_div : Q -> nat -> Q.

(** [sum(xs) / len(xs) if xs else 0] *)
Definition average (xs : list Q) : Value :=
  match xs with
  | [] => VInt 0
  | _ => VFloat (float_div (float_sum xs) (length xs))
  end.

Definition get_status (self : string) : Prog Dict :=
  a <- agent self ;;
  ret [("agent_id", VStr (agent_id a));
       ("agent_type", VStr (agent_type a));
       ("specialization", match specialization a with Some s => VStr s | None => VNone end);
       ("is_active", VBool (is_active a));
       ("assigned_patients", VInt (Z.of_nat (length (patients_assigned a))));
       ("decision_count", VInt (Z.of_nat (decision_count a)));
       ("avg_response_time", average (response_times a));
       ("avg_confidence", average (confidence_scores a));
       ("last_decision", match last_decision_time a with
                         | Some t => VStr (isoformat env t)
                         | None => VNone
                         end)].
End Status.

(** *** workflow_coordinator.py : get_system_status *)

(** [[f x for x in xs]] *)
Fixpoint collect {A B} (xs : list A) (f : A -> Prog B) : Prog (list B) :=
  match xs with
  | [] => ret []
  | x :: rest => b <- f x ;; bs <- collect rest f ;; ret (b :: bs)
  end.

Definition get_system_status (env : Env) : Prog Dict :=
  c <- WorkflowCoordinator.self ;;
  values <- collect (agents c) agent ;;
  ret [("is_running", VBool (is_running c));
       ("start_time", match start_time c with
                      | Some t => VStr (isoformat env t)
                      | None => VNone
                      end);
       ("active_patients", VInt (Z.of_nat (length (patients c))));
       ("active_agents", VInt (Z.of_nat (length (List.filter is_active values))));
       ("total_decisions", VInt (Z.of_nat (total_decisions c)));
       ("total_messages", VInt (Z.of_nat (total_messages c)))].

(** *** api/main.py *)

Module Api.
Section Endpoints.
Variable env : Env.
Variable data_path : string.
Variable format_1f : Q -> string.

(** [POST /simulation/stop] *)
Definition stop_simulation : Prog Dict :=
  c <- WorkflowCoordinator.self ;;
  if negb (is_running c) then ret [("message", VStr "Simulation not running")]
  else
    WorkflowCoordinator.stop_simulation env data_path format_1f ;;
    stamp <- now env ;;
    ret [("message", VStr "Simulation stopped");
         ("timestamp", VStr (isoformat env stamp))].

End Endpoints.
End Api.

(** ** Vocabulary of the further properties *)

(** The last [n] entries of a list. *)
Definition last_n {A} (n : nat) (xs : list A) : list A := drop (length xs - n) xs.

(** No topic buffer holds more than [maxlen] messages. *)
Definition bounded {Cb Ext} (w : World Cb Ext) : Prop :=
  forall topic, length (buffer topic (message_bus w)) <= maxlen.

(** One elementary change to the store, of those made while messages of
    the topics [ts] are published and the subscribers of the program are
    called: the clock is read, a uuid is drawn, an agent records a
    confidence, a response time or the time of its last decision, the
    coordinator counts a message or a decision, a message is appended to
    the buffer of one of the topics, the subscriber list of one of the
    topics is read. *)
Inductive touches (ts : list string) : World Callback Program -> World Callback Program -> Prop :=
  | clock_read w : touches ts w (started w)
  | uuid_drawn w :
      touches ts w {| message_bus := message_bus w; ext := ext w;
                      clock_reads := clock_reads w; uuid_draws := S (uuid_draws w) |}
  | confidence_appended w self c :
      touches ts w (set_agents (alter (BaseAgent.append_confidence c) self) w)
  | metrics_tracked w self t :
      touches ts w (set_agents (alter (BaseAgent.track_metrics t) self) w)
  | decision_time_set w self t :
      touches ts w (set_agents (alter (BaseAgent.set_last_decision_time t) self) w)
  | message_counted w :
      touches ts w (set_coordinator WorkflowCoordinator.count_message w)
  | decision_counted w :
      touches ts w (set_coordinator WorkflowCoordinator.count_decision w)
  | message_appended w topic m :
      topic ∈ ts ->
      touches ts w (set_bus {| topics := <[topic := deque_append (buffer topic (message_bus w)) m]>
                                           (topics (message_bus w));
                               subscribers := subscribers (message_bus w) |} w)
  | subscribers_read w topic :
      topic ∈ ts ->
      touches ts w (set_bus {| topics := topics (message_bus w);
                               subscribers := <[topic := subscribed topic (message_bus w)]>
                                                (subscribers (message_bus w)) |} w).

(** What message handling leaves alone in an agent and in the coordinator. *)
Definition standing (a : AgentState) : string * string * option string * bool * list string :=
  (agent_id a, agent_type a, specialization a, is_active a, patients_assigned a).

Definition setup (c : CoordinatorState)
    : list string * list string * bool * list TaskState * option Q :=
  (agents c, patients c, is_running c, tasks c, start_time c).

(** Every agent has counted as many decisions as it has recorded response
    times. *)
Definition counts_agree (w : World Callback Program) : Prop :=
  forall id a, agent_of id w = Some a -> decision_count a = length (response_times a).

(** The two stores hold the same messages on [topic]. *)
Definition same_buffer {Cb Ext} (topic : string) (w w' : World Cb Ext) : Prop :=
  buffer topic (message_bus w') = buffer topic (message_bus w).

(** What one call of a callback adds to the counters of the coordinator,
    for a message no agent reacts to. *)
Definition counted (c : Callback) (k : CoordinatorState) : CoordinatorState :=
  match c with
  | WorkflowCoordinator_monitor_messages => WorkflowCoordinator.count_message k
  | WorkflowCoordinator_track_decisions => WorkflowCoordinator.count_decision k
  | _ => k
  end.

(** What identifies a device, and the monitor [add_patient] creates for a
    patient. *)
Definition identity (d : DeviceState) : string * string * string :=
  (device_id d, device_type d, device_patient_id d).

Definition monitor_of (patient_id : string) : DeviceState :=
  MockDevice.init (patient_id +:+ "_MONITOR") "monitor" patient_id.

(** The unit lists no patient twice and has, in the same order, exactly
    one monitor for each of its patients. *)
Definition unit_consistent (u : UnitState) : Prop :=
  NoDup (unit_patients u) /\
  map identity (devices u) = map (fun p => identity (monitor_of p)) (unit_patients u).

(** The list of assigned patients once [assign_patient] has been called
    for each of [ps] in turn, and the agent with that list. *)
Fixpoint assign_all (ps : list string) (assigned : list string) : list string :=
  match ps with
  | [] => assigned
  | p :: rest =>
      assign_all rest (if bool_decide (p ∈ assigned) then assigned else assigned ++ [p])
  end.

Definition with_patients (ps : list string) (a : AgentState) : AgentState :=
  {| agent_id := agent_id a; agent_type := agent_type a; specialization := specialization a;
     is_active := is_active a; patients_assigned := assign_all ps (patients_assigned a);
     last_decision_time := last_decision_time a; decision_count := decision_count a;
     response_times := response_times a; confidence_scores := confidence_scores a |}.

(** The parts of the store other than the agent objects are the same. *)
Definition only_agents_differ (w w' : World Callback Program) : Prop :=
  message_bus w' = message_bus w /\
  coordinator (ext w') = coordinator (ext w) /\
  icu_unit (ext w') = icu_unit (ext w) /\
  files (ext w') = files (ext w).

(** The store in which [WorkflowCoordinator.initialize] creates the
    agents: the modules imported, the patients [ps] entered in the
    coordinator, the unit as [u]. *)
Definition loaded (ps : list string) (u : UnitState) : World Callback Program :=
  set_icu_unit (fun _ => u) (set_coordinator (set_patients ps) initial_world).

(** *** Three callables for a bus used on its own

    What a later subscriber sees when an earlier one publishes or
    subscribes during delivery.  [Relay] answers a message by publishing,
    on the topic it was called for, a message marked [relayed]; it does
    not answer a message that is marked so.  [Recorder] appends the
    message it is given to a list, which is the [Ext] part of the store.
    [Usher] subscribes [Recorder] to the topic it is called for.  In
    Python:

      async def relay(topic, message):
          if message.get("relayed") is not True:
              await message_bus.publish(topic, {"relayed": True})

      def recorder(topic, message):
          received.append(message)

      def usher(topic, message):
          message_bus.subscribe(topic, recorder)
*)
Inductive Probe : Type := Relay | Recorder | Usher.

Fixpoint probe (env : Env) (depth : nat) (callback : Probe) (topic : string) (message : Dict)
    : M Probe (list Dict) unit :=
  match depth with
  | 0 => raise (RecursionError "maximum recursion depth exceeded")
  | S d =>
      match callback with
      | Relay =>
          match get "relayed" message with
          | VBool true => ret tt
          | _ => _ <- publish env (probe env d) topic (Mapping [("relayed", VBool true)]) ;;
                 ret tt
          end
      | Recorder => modify (fun w => set_ext (ext w ++ [message]) w)
      | Usher => subscribe topic Recorder
      end
  end.

#[global] Instance probe_eq_dec : EqDecision Probe.
Proof. solve_decision. Defined.


(** * Properties *)

(** ** Sequencing *)

Section MachineFacts.
Context {Cb Ext : Type}.
Implicit Types w : World Cb Ext.

Lemma bind_inr {A B} (m : M Cb Ext A) (k : A -> M Cb Ext B) w a :
  result (m w) = inr a ->
  bind m k w = {| world := world (k a (world (m w)));
                  events := events (m w) ++ events (k a (world (m w)));
                  result := result (k a (world (m w))) |}.
Proof. intros H. unfold bind. rewrite H. reflexivity. Qed.

Lemma bind_inl {A B} (m : M Cb Ext A) (k : A -> M Cb Ext B) w e :
  result (m w) = inl e ->
  bind m k w = {| world := world (m w); events := events (m w); result := inl e |}.
Proof. intros H. unfold bind. rewrite H. reflexivity. Qed.

Lemma try_except_inr {A} (m : M Cb Ext A) h w a :
  result (m w) = inr a -> try_except m h w = m w.
Proof. intros H. unfold try_except. rewrite H. reflexivity. Qed.

Lemma try_except_inl {A} (m : M Cb Ext A) h w e :
  result (m w) = inl e ->
  try_except m h w = {| world := world (h e (world (m w)));
                        events := events (m w) ++ events (h e (world (m w)));
                        result := result (h e (world (m w))) |}.
Proof. intros H. unfold try_except. rewrite H. reflexivity. Qed.

Lemma for_each_cons {A} (x : A) xs (body : A -> M Cb Ext unit) :
  for_each (x :: xs) body = bind (body x) (fun _ => for_each xs body).
Proof. reflexivity. Qed.

(** A loop whose body never raises runs to its end. *)
Lemma for_each_total {A} (xs : list A) (body : A -> M Cb Ext unit) :
  (forall x w, result (body x w) = inr tt) ->
  forall w, result (for_each xs body w) = inr tt.
Proof.
  intros Hbody. induction xs as [|x xs IH]; intros w; [reflexivity|].
  rewrite for_each_cons, (bind_inr _ _ _ tt) by apply Hbody. simpl. apply IH.
Qed.
End MachineFacts.

(** ** Running a program step by step *)

Section Running.
Context {Cb Ext : Type}.
Implicit Types w : World Cb Ext.

Lemma outcome_eta {A} (o : Outcome Cb Ext A) :
  o = {| world := world o; events := events o; result := result o |}.
Proof. destruct o; reflexivity. Qed.

Lemma bind_run {A B} (m : M Cb Ext A) (k : A -> M Cb Ext B) w w1 evs a :
  m w = {| world := w1; events := evs; result := inr a |} ->
  bind m k w = {| world := world (k a w1); events := evs ++ events (k a w1);
                  result := result (k a w1) |}.
Proof. intros H. unfold bind. rewrite H. reflexivity. Qed.

Lemma bind_fail {A B} (m : M Cb Ext A) (k : A -> M Cb Ext B) w w1 evs e :
  m w = {| world := w1; events := evs; result := inl e |} ->
  bind m k w = {| world := w1; events := evs; result := inl e |}.
Proof. intros H. unfold bind. rewrite H. reflexivity. Qed.

Lemma try_run {A} (m : M Cb Ext A) h w w1 evs a :
  m w = {| world := w1; events := evs; result := inr a |} ->
  try_except m h w = {| world := w1; events := evs; result := inr a |}.
Proof. intros H. unfold try_except. rewrite H. reflexivity. Qed.

Lemma try_fail {A} (m : M Cb Ext A) h w w1 evs e :
  m w = {| world := w1; events := evs; result := inl e |} ->
  try_except m h w = {| world := world (h e w1); events := evs ++ events (h e w1);
                        result := result (h e w1) |}.
Proof. intros H. unfold try_except. rewrite H. reflexivity. Qed.

Lemma bind_assoc {A B C} (m : M Cb Ext A) (f : A -> M Cb Ext B) (g : B -> M Cb Ext C) w :
  bind (bind m f) g w = bind m (fun x => bind (f x) g) w.
Proof.
  unfold bind. destruct (result (m w)) as [e|a]; cbn [world events result]; [reflexivity|].
  destruct (result (f a (world (m w)))) as [e|b]; cbn [world events result]; [reflexivity|].
  rewrite app_assoc. reflexivity.
Qed.

Lemma bind_then {A B} (m : M Cb Ext A) (k : A -> M Cb Ext B) w w1 evs a w2 evs2 r :
  m w = {| world := w1; events := evs; result := inr a |} ->
  k a w1 = {| world := w2; events := evs2; result := r |} ->
  bind m k w = {| world := w2; events := evs ++ evs2; result := r |}.
Proof. intros H1 H2. unfold bind. rewrite H1. cbn [result world events]. rewrite H2. reflexivity. Qed.

Lemma try_then {A} (m : M Cb Ext A) h w w1 evs e w2 evs2 r :
  m w = {| world := w1; events := evs; result := inl e |} ->
  h e w1 = {| world := w2; events := evs2; result := r |} ->
  try_except m h w = {| world := w2; events := evs ++ evs2; result := r |}.
Proof. intros H1 H2. unfold try_except. rewrite H1. cbn [result world events]. rewrite H2. reflexivity. Qed.

(** An operation that only computes a value. *)
Lemma bind_pure {A B} (m : M Cb Ext A) (k : A -> M Cb Ext B) w a :
  m w = {| world := w; events := []; result := inr a |} ->
  bind m k w = k a w.
Proof.
  intros H. unfold bind. rewrite H. cbn [result world events app].
  symmetry. apply outcome_eta.
Qed.

Lemma run_eta {A} (m : M Cb Ext A) w a :
  result (m w) = inr a ->
  m w = {| world := world (m w); events := events (m w); result := inr a |}.
Proof. intros H. rewrite <- H. apply outcome_eta. Qed.
End Running.

(** One step of a straight-line program: the first operation of a [bind]
    is a primitive whose outcome is read off its definition. *)
Ltac run_prim := lazymatch goal with
  | |- ret _ _ = _ => reflexivity
  | |- raise _ _ = _ => reflexivity
  | |- modify _ _ = _ => reflexivity
  | |- emit _ _ = _ => reflexivity
  | |- print _ _ = _ => reflexivity
  | |- read _ _ = _ => reflexivity
  | |- lift (inr _) _ = _ => reflexivity
  | |- lift (inl _) _ = _ => reflexivity
  | |- now _ _ = _ => reflexivity
  | |- draw_uuid _ _ = _ => reflexivity
  | |- topics_getitem _ _ = _ => reflexivity
  | |- subscribers_getitem _ _ = _ => reflexivity
  | |- update_agent _ _ _ = _ => reflexivity
  end.

Ltac simpl_world :=
  cbn [world events result app ret raise emit print modify read lift
       message_bus ext clock_reads uuid_draws set_bus set_ext
       topics subscribers set_agents set_coordinator set_icu_unit set_files
       agent_objects coordinator icu_unit files agent_id agent_type
       BaseAgent.append_confidence BaseAgent.track_metrics
       BaseAgent.set_last_decision_time BaseAgent.set_is_active BaseAgent.append_patient].

Ltac run_step :=
  first [ rewrite bind_assoc
        | erewrite bind_run by run_prim
        | erewrite bind_fail by run_prim ];
  simpl_world.

Ltac run := repeat run_step.

(** The same, for a goal [program w = outcome] whose outcome is still to
    be found: the program is followed operation by operation and never
    unfolded as a whole. *)
Ltac simpl_values :=
  unfold set_agents, set_coordinator, set_icu_unit, set_files, set_ext, set_bus;
  cbn [message_bus ext clock_reads uuid_draws set_bus set_ext
       topics subscribers set_agents set_coordinator set_icu_unit set_files
       agent_objects coordinator icu_unit files agent_id agent_type
       BaseAgent.append_confidence BaseAgent.track_metrics
       BaseAgent.set_last_decision_time BaseAgent.set_is_active BaseAgent.append_patient].

Ltac follow_step :=
  first [ rewrite bind_assoc
        | eapply bind_then; [run_prim | cbv beta]
        | eapply bind_fail; run_prim ];
  simpl_values.

Ltac follow := repeat follow_step; try run_prim.


(** ** What a program leaves unchanged

    [preserves R m]: the store [m] ends in is related by [R] to the store
    it started from, whether [m] returns or raises. *)

Section Preservation.
Context {Cb Ext : Type}.
Variable R : World Cb Ext -> World Cb Ext -> Prop.
Hypothesis R_refl : forall w, R w w.
Hypothesis R_trans : forall w1 w2 w3, R w1 w2 -> R w2 w3 -> R w1 w3.

Definition preserves {A} (m : M Cb Ext A) : Prop :=
  forall w, R w (world (m w)).

Lemma preserves_ret {A} (a : A) : preserves (ret a).
Proof. intros w. apply R_refl. Qed.

Lemma preserves_raise {A} e : preserves (@raise Cb Ext A e).
Proof. intros w. apply R_refl. Qed.

Lemma preserves_emit e : preserves (emit e).
Proof. intros w. apply R_refl. Qed.

Lemma preserves_print l : preserves (print l).
Proof. intros w. apply R_refl. Qed.

Lemma preserves_read {A} (f : World Cb Ext -> A) : preserves (read f).
Proof. intros w. apply R_refl. Qed.

Lemma preserves_lift {A} (r : Exn + A) : preserves (lift r).
Proof. intros w. apply R_refl. Qed.

Lemma preserves_modify f : (forall w, R w (f w)) -> preserves (modify f).
Proof. intros H w. apply H. Qed.

Lemma preserves_bind {A B} (m : M Cb Ext A) (k : A -> M Cb Ext B) :
  preserves m -> (forall a, preserves (k a)) -> preserves (bind m k).
Proof.
  intros Hm Hk w. unfold bind.
  destruct (result (m w)) as [e|a]; cbn [world]; [apply Hm|].
  eapply R_trans; [apply Hm | apply Hk].
Qed.

Lemma preserves_try_except {A} (m : M Cb Ext A) h :
  preserves m -> (forall e, preserves (h e)) -> preserves (try_except m h).
Proof.
  intros Hm Hh w. unfold try_except.
  destruct (result (m w)) as [e|a]; cbn [world]; [|apply Hm].
  eapply R_trans; [apply Hm | apply Hh].
Qed.

Lemma preserves_for_each {A} (xs : list A) (body : A -> M Cb Ext unit) :
  (forall x, preserves (body x)) -> preserves (for_each xs body).
Proof.
  intros Hbody. induction xs as [|x xs IH]; [apply preserves_ret|].
  rewrite for_each_cons. apply preserves_bind; [apply Hbody | intros _; exact IH].
Qed.

Lemma preserves_called c topic message (body : M Cb Ext unit) :
  preserves body -> preserves (called c topic message body).
Proof. intros H w. apply H. Qed.

Lemma preserves_if {A} (b : bool) (m1 m2 : M Cb Ext A) :
  preserves m1 -> preserves m2 -> preserves (if b then m1 else m2).
Proof. destruct b; auto. Qed.
End Preservation.

(** ** The bus *)

Section BusFacts.
Context {Cb Ext : Type}.
Variable env : Env.
Variable call : Cb -> string -> Dict -> M Cb Ext unit.
Implicit Types w : World Cb Ext.

Lemma buffer_insert topic topic' q (m : gmap string (list Dict)) (s : gmap string (list Cb)) :
  buffer topic' {| topics := <[topic := q]> m; subscribers := s |}
  = if decide (topic = topic') then q else buffer topic' {| topics := m; subscribers := s |}.
Proof. unfold buffer. cbn [topics]. rewrite lookup_insert. destruct (decide _); reflexivity. Qed.

Lemma buffer_insert_eq topic q (m : gmap string (list Dict)) (s : gmap string (list Cb)) :
  buffer topic {| topics := <[topic := q]> m; subscribers := s |} = q.
Proof. rewrite buffer_insert. destruct (decide _); congruence. Qed.

Lemma subscribed_insert topic topic' l (m : gmap string (list Dict)) (s : gmap string (list Cb)) :
  subscribed topic' {| topics := m; subscribers := <[topic := l]> s |}
  = if decide (topic = topic') then l else subscribed topic' {| topics := m; subscribers := s |}.
Proof. unfold subscribed. cbn [subscribers]. rewrite lookup_insert. destruct (decide _); reflexivity. Qed.

Lemma subscribed_insert_eq topic l (m : gmap string (list Dict)) (s : gmap string (list Cb)) :
  subscribed topic {| topics := m; subscribers := <[topic := l]> s |} = l.
Proof. rewrite subscribed_insert. destruct (decide _); congruence. Qed.

Lemma buffer_eta topic (b : MockMessageBus Cb) (s : gmap string (list Cb)) :
  buffer topic {| topics := topics b; subscribers := s |} = buffer topic b.
Proof. reflexivity. Qed.

Lemma subscribed_eta topic (b : MockMessageBus Cb) (m : gmap string (list Dict)) :
  subscribed topic {| topics := m; subscribers := subscribers b |} = subscribed topic b.
Proof. reflexivity. Qed.

Lemma notify_result topic enriched c w :
  result (notify call topic enriched c w) = inr tt.
Proof.
  unfold notify, try_except, called. simpl.
  destruct (result (call c topic enriched w)) as [e|[]]; reflexivity.
Qed.

Lemma notify_events topic enriched c w :
  events (notify call topic enriched c w)
  = notified topic enriched c
      (events (call c topic enriched w),
       match result (call c topic enriched w) with inl e => Some e | inr _ => None end).
Proof.
  unfold notify, try_except, called, notified. simpl.
  destruct (result (call c topic enriched w)) as [e|[]]; reflexivity.
Qed.

Lemma notify_world topic enriched c w :
  world (notify call topic enriched c w) = world (call c topic enriched w).
Proof.
  unfold notify, try_except, called. simpl.
  destruct (result (call c topic enriched w)) as [e|[]]; reflexivity.
Qed.

Lemma publish_mapping topic d w :
  let enriched := enriched_by env topic d w in
  let loop := for_each (subscribed topic (message_bus w)) (notify call topic enriched)
                (loop_entry topic enriched w) in
  publish env call topic (Mapping d) w
  = {| world := world loop; events := Stored topic enriched :: events loop; result := inr true |}.
Proof.
  intros enriched loop.
  unfold publish.
  erewrite try_run; [reflexivity|].
  unfold enrich, store. run.
  erewrite bind_run by (apply run_eta, for_each_total; intros; apply notify_result).
  cbn [world events result app].
  rewrite app_nil_r.
  unfold set_bus; cbn [message_bus ext clock_reads uuid_draws topics subscribers].
  rewrite ?buffer_insert_eq, ?insert_insert_eq.
  reflexivity.
Qed.

Lemma publish_scalar topic v w :
  publish env call topic (Scalar v) w
  = {| world := w;
       events := [Console ("Failed to publish to " +:+ topic +:+ ": '"
                           +:+ type_name v +:+ "' object is not a mapping")];
       result := inr false |}.
Proof.
  unfold publish, enrich.
  erewrite try_fail by (erewrite bind_fail by reflexivity; reflexivity).
  run. reflexivity.
Qed.

(** The loop calls every subscriber, whatever the earlier ones did. *)
Lemma loop_events topic enriched subs : forall w,
  exists outcomes,
    length outcomes = length subs /\
    events (for_each subs (notify call topic enriched) w)
    = concat (zip_with (notified topic enriched) subs outcomes).
Proof.
  induction subs as [|c subs IH]; intros w.
  - exists []. split; reflexivity.
  - destruct (IH (world (notify call topic enriched c w))) as (outcomes & Hlen & Hev).
    eexists (_ :: outcomes). split; [simpl; rewrite Hlen; reflexivity|].
    rewrite for_each_cons.
    erewrite bind_run by (apply run_eta, notify_result).
    cbn [events]. rewrite Hev, notify_events. reflexivity.
Qed.

Lemma loop_outcomes_length topic enriched subs : forall w,
  length (loop_outcomes call topic enriched subs w) = length subs.
Proof.
  induction subs as [|c subs IH]; intros w; [reflexivity|].
  cbn [loop_outcomes length]. rewrite IH. reflexivity.
Qed.

(** The loop with its [try]/[except] is the run that never stops early. *)
Lemma loop_events_exact topic enriched subs : forall w,
  events (for_each subs (notify call topic enriched) w)
  = concat (zip_with (notified topic enriched) subs (loop_outcomes call topic enriched subs w)).
Proof.
  induction subs as [|c subs IH]; intros w; [reflexivity|].
  rewrite for_each_cons.
  erewrite bind_run by (apply run_eta, notify_result).
  cbn [events loop_outcomes zip_with concat].
  rewrite IH, notify_events, notify_world. reflexivity.
Qed.

Lemma calls_on_app topic (evs1 evs2 : list (Event Cb)) :
  calls_on topic (evs1 ++ evs2) = calls_on topic evs1 ++ calls_on topic evs2.
Proof. unfold calls_on. apply flat_map_app. Qed.

Lemma appended_to_app topic (evs1 evs2 : list (Event Cb)) :
  appended_to topic (evs1 ++ evs2) = appended_to topic evs1 ++ appended_to topic evs2.
Proof. unfold appended_to. apply flat_map_app. Qed.

Lemma calls_on_notified topic topic' enriched (c : Cb) (x : list (Event Cb) * option Exn) :
  calls_on topic' (notified topic enriched c x)
  = if String.eqb topic topic' then [(c, enriched)] else [].
Proof.
  unfold notified, calls_on. destruct x as [inner [e|]]; cbn [snd fst flat_map app];
    destruct (String.eqb topic topic'); reflexivity.
Qed.

Lemma appended_to_notified topic topic' enriched (c : Cb) (x : list (Event Cb) * option Exn) :
  appended_to topic' (notified topic enriched c x) = [].
Proof. unfold notified. destruct x as [inner [e|]]; reflexivity. Qed.

Lemma calls_on_loop topic topic' enriched (subs : list Cb) :
  forall outcomes : list (list (Event Cb) * option Exn),
  length outcomes = length subs ->
  calls_on topic' (concat (zip_with (notified topic enriched) subs outcomes))
  = if String.eqb topic topic' then map (fun c => (c, enriched)) subs else [].
Proof.
  induction subs as [|c subs IH]; intros [|x outcomes] Hlen; try discriminate.
  - destruct (String.eqb topic topic'); reflexivity.
  - cbn [zip_with concat]. rewrite calls_on_app, calls_on_notified, IH by (simpl in Hlen; lia).
    destruct (String.eqb topic topic'); reflexivity.
Qed.

Lemma appended_to_loop topic topic' enriched (subs : list Cb) :
  forall outcomes : list (list (Event Cb) * option Exn),
  appended_to topic' (concat (zip_with (notified topic enriched) subs outcomes)) = [].
Proof.
  induction subs as [|c subs IH]; intros [|x outcomes]; try reflexivity.
  cbn [zip_with concat]. rewrite appended_to_app, appended_to_notified, IH. reflexivity.
Qed.
End BusFacts.

(** ** Delivery *)

Section Delivery.
Context {Cb Ext : Type} `{EqDecision Cb}.
Variable env : Env.
Variable call : Cb -> string -> Dict -> M Cb Ext unit.
Implicit Types w : World Cb Ext.

Lemma same_subscribers_refl w : same_subscribers w w.
Proof. intros t. reflexivity. Qed.

Lemma same_subscribers_trans w1 w2 w3 :
  same_subscribers w1 w2 -> same_subscribers w2 w3 -> same_subscribers w1 w3.
Proof. intros H12 H23 t. rewrite H23. apply H12. Qed.

Lemma loop_entry_subscribers topic enriched w :
  same_subscribers w (loop_entry topic enriched w).
Proof.
  intros t. unfold loop_entry. cbn [message_bus]. rewrite subscribed_insert.
  destruct (decide (topic = t)) as [->|]; reflexivity.
Qed.

Lemma publish_result topic message w :
  exists b, result (publish env call topic message w) = inr b.
Proof.
  destruct message as [d|v]; [rewrite publish_mapping | rewrite publish_scalar]; eauto.
Qed.

Lemma publish_events topic topic' message w :
  let evs := events (publish env call topic message w) in
  calls_on topic' evs
  = flat_map (fun m => map (fun c => (c, m)) (subscribed topic' (message_bus w)))
             (appended_to topic' evs).
Proof.
  destruct message as [d|v]; cbv zeta; [rewrite publish_mapping | rewrite publish_scalar; reflexivity].
  cbn [events].
  destruct (loop_events call topic (enriched_by env topic d w)
              (subscribed topic (message_bus w))
              (loop_entry topic (enriched_by env topic d w) w)) as (outcomes & Hlen & ->).
  change (Stored topic ?e :: ?l) with ([Stored (Cb:=Cb) topic e] ++ l).
  rewrite calls_on_app, appended_to_app, calls_on_loop, appended_to_loop by exact Hlen.
  cbn [calls_on appended_to flat_map app].
  destruct (String.eqb_spec topic topic') as [->|]; cbn [flat_map app];
    rewrite ?app_nil_r; reflexivity.
Qed.

Section CallbacksLeaveSubscriptions.
Hypothesis call_keeps_subscribers :
  forall c topic message, preserves same_subscribers (call c topic message).

Lemma publish_keeps_subscribers topic message :
  preserves same_subscribers (publish env call topic message).
Proof.
  intros w. destruct message as [d|v];
    [rewrite publish_mapping | rewrite publish_scalar; apply same_subscribers_refl].
  cbn [world]. eapply same_subscribers_trans; [apply loop_entry_subscribers|].
  apply preserves_for_each;
    [apply same_subscribers_refl | apply same_subscribers_trans |].
  intros c w'. rewrite notify_world. apply call_keeps_subscribers.
Qed.

(** Over a run of publishes every stored message goes to every subscriber
    of its topic, message by message and in subscription order. *)
Lemma publish_all_calls topic script : forall w,
  let evs := events (publish_all env call script w) in
  calls_on topic evs
  = flat_map (fun m => map (fun c => (c, m)) (subscribed topic (message_bus w)))
             (appended_to topic evs).
Proof.
  induction script as [|[t message] script IH]; intros w; cbv zeta; [reflexivity|].
  unfold publish_all in *. rewrite for_each_cons, bind_assoc.
  destruct (publish_result t message w) as [b Hb].
  erewrite bind_run by (apply run_eta, Hb).
  erewrite bind_run by reflexivity.
  cbn [events fst snd app].
  rewrite calls_on_app, appended_to_app, flat_map_app.
  rewrite (publish_events t topic message w).
  specialize (IH (world (publish env call t message w))). cbv zeta in IH.
  rewrite IH, (publish_keeps_subscribers t message w topic). reflexivity.
Qed.
End CallbacksLeaveSubscriptions.

Lemma deliveries_fan_out (c : Cb) (subs : list Cb) (messages : list Dict) :
  map snd (List.filter (fun x => bool_decide (fst x = c))
             (flat_map (fun m => map (fun c' => (c', m)) subs) messages))
  = flat_map (fun m => replicate (occurrences c subs) m) messages.
Proof.
  induction messages as [|m messages IH]; [reflexivity|].
  cbn [flat_map]. rewrite List.filter_app, map_app, IH. f_equal.
  unfold occurrences. clear IH. induction subs as [|c' subs IH]; [reflexivity|].
  cbn [map List.filter fst]. destruct (bool_decide (c' = c)); cbn [map snd length replicate];
    rewrite IH; reflexivity.
Qed.

Lemma occurrences_app (c : Cb) (l1 l2 : list Cb) :
  occurrences c (l1 ++ l2) = occurrences c l1 + occurrences c l2.
Proof. unfold occurrences. rewrite List.filter_app, length_app. reflexivity. Qed.


Lemma occurrences_self (c : Cb) : occurrences c [c] = 1.
Proof. unfold occurrences. cbn [List.filter]. rewrite bool_decide_eq_true_2; reflexivity. Qed.

Lemma subscribe_run topic (c : Cb) w :
  subscribe topic c w
  = {| world := set_bus {| topics := topics (message_bus w);
                           subscribers := <[topic := subscribed topic (message_bus w) ++ [c]]>
                                            (subscribers (message_bus w)) |} w;
       events := [];
       result := inr tt |}.
Proof.
  unfold subscribe. run. unfold set_bus, modify.
  cbn [world events result message_bus ext clock_reads uuid_draws topics subscribers].
  rewrite insert_insert_eq. reflexivity.
Qed.

Lemma subscribe_subscribed topic topic' (c : Cb) w :
  subscribed topic' (message_bus (world (subscribe topic c w)))
  = if decide (topic = topic') then subscribed topic (message_bus w) ++ [c]
    else subscribed topic' (message_bus w).
Proof.
  rewrite subscribe_run. cbn [world]. unfold set_bus. cbn [message_bus].
  rewrite subscribed_insert. destruct (decide _); reflexivity.
Qed.
End Delivery.

(** ** The agents *)

Section AgentFacts.
Variable env : Env.
Implicit Types w : World Callback Program.

Lemma agent_run self w a :
  agent_of self w = Some a ->
  agent self w = {| world := w; events := []; result := inr a |}.
Proof. unfold agent_of, agent. intros ->. reflexivity. Qed.

Lemma agent_fail self w :
  agent_of self w = None ->
  agent self w = {| world := w; events := [];
                    result := inl (RuntimeError ("no agent object " +:+ self)) |}.
Proof. unfold agent_of, agent. intros ->. reflexivity. Qed.

Lemma process_run cls self patient_id data w :
  process_patient_data env cls self patient_id data w
  = {| world := set_agents (alter (BaseAgent.append_confidence
                                     (confidence (engine_answer env cls patient_id data))) self) w;
       events := [];
       result := inr (baseline_decision env cls patient_id data) |}.
Proof. destruct cls; reflexivity. Qed.

Lemma get_absent k m : dict_get k m = None -> get k m = VNone.
Proof. unfold get. intros ->. reflexivity. Qed.

(** A callback does nothing with a message that names no parameter, no
    severity and no drug: an agent callback returns at once, a coordinator
    callback counts the message. *)
Lemma invoke_inert depth c topic m w :
  inert m -> quiet (invoke env depth c topic m w) w.
Proof.
  intros (Hparam & Hsev & Hdrug).
  destruct depth as [|d]; [repeat split|].
  destruct c as [self|self|self|self| |]; cbn [invoke].
  - unfold PhysicianAgent._handle_vitals.
    destruct (agent_of self w) as [a|] eqn:Ha.
    + erewrite bind_run by (apply agent_run, Ha). cbn [world events result app].
      rewrite (get_absent "parameter") by exact Hparam.
      destruct (assigned_patient _ a); repeat split.
    + erewrite bind_fail by (apply agent_fail, Ha). repeat split.
  - unfold PhysicianAgent._handle_alerts.
    destruct (agent_of self w) as [a|] eqn:Ha.
    + erewrite bind_run by (apply agent_run, Ha). cbn [world events result app].
      unfold PhysicianAgent.severe. rewrite (get_absent "severity") by exact Hsev.
      destruct (assigned_patient _ a); repeat split.
    + erewrite bind_fail by (apply agent_fail, Ha). repeat split.
  - unfold NurseAgent._handle_vitals_monitoring.
    destruct (agent_of self w) as [a|] eqn:Ha.
    + erewrite bind_run by (apply agent_run, Ha). cbn [world events result app].
      rewrite (get_absent "parameter") by exact Hparam.
      destruct (assigned_patient _ a); repeat split.
    + erewrite bind_fail by (apply agent_fail, Ha). repeat split.
  - unfold PharmacistAgent._handle_medication_review.
    destruct (agent_of self w) as [a|] eqn:Ha.
    + erewrite bind_run by (apply agent_run, Ha). cbn [world events result app].
      unfold PharmacistAgent.drug_name_lower. rewrite Hdrug.
      destruct (assigned_patient _ a); repeat split.
    + erewrite bind_fail by (apply agent_fail, Ha). repeat split.
  - unfold WorkflowCoordinator._monitor_messages. run.
    destruct (_ && _); repeat split.
  - unfold WorkflowCoordinator._track_decisions. run.
    destruct (WorkflowCoordinator.is_high _); repeat split.
Qed.

End AgentFacts.

(** ** Decisions *)

Section DecisionFacts.
Variable env : Env.
Implicit Types w : World Callback Program.

Lemma stored_on_app {Cb} topic (evs1 evs2 : list (Event Cb)) :
  stored_on topic (evs1 ++ evs2) = stored_on topic evs1 ++ stored_on topic evs2.
Proof. unfold stored_on. apply flat_map_app. Qed.

Lemma stored_on_notified {Cb} topic topic' enriched (c : Cb) inner r :
  stored_on topic' (notified topic enriched c (inner, r)) = stored_on topic' inner.
Proof.
  unfold notified, stored_on. cbn [fst snd flat_map stored_in].
  destruct r; cbn [flat_map stored_in app]; rewrite ?app_nil_r; reflexivity.
Qed.

Lemma loop_inert depth topic m subs :
  inert m -> forall w,
  quiet (for_each subs (notify (invoke env depth) topic m) w) w.
Proof.
  intros Hm. induction subs as [|c subs IH]; intros w; [repeat split|].
  rewrite for_each_cons.
  erewrite bind_run by (apply run_eta, notify_result).
  cbn [world events result].
  destruct (invoke_inert env depth c topic m w Hm) as (A1 & B1 & C1 & D1 & E1).
  destruct (IH (world (notify (invoke env depth) topic m c w))) as (A2 & B2 & C2 & D2 & E2).
  rewrite notify_world in *. unfold quiet, same_agents in *. cbn [world events].
  repeat split; try congruence.
  intros t. rewrite stored_on_app, E2, app_nil_r, notify_events, stored_on_notified. apply E1.
Qed.
Lemma publish_inert depth topic d w :
  let enriched := enriched_by env topic d w in
  let o := publish env (invoke env depth) topic (Mapping d) w in
  inert enriched ->
  result o = inr true /\
  same_agents w (world o) /\
  clock_reads (world o) = S (clock_reads w) /\
  uuid_draws (world o) = uuid_draws w /\
  message_bus (world o) = message_bus (loop_entry topic enriched w) /\
  forall t, stored_on t (events o) = if String.eqb topic t then [enriched] else [].
Proof.
  intros enriched o Hm. subst o. rewrite publish_mapping. cbn [world events result].
  destruct (loop_inert depth topic enriched (subscribed topic (message_bus w)) Hm
              (loop_entry topic enriched w)) as (A & B & C & D & E).
  fold enriched. unfold same_agents in *.
  repeat split; try assumption.
  intros t. change (Stored topic enriched :: ?l) with ([Stored (Cb:=Callback) topic enriched] ++ l).
  rewrite stored_on_app, E, app_nil_r. unfold stored_on. cbn [flat_map stored_in].
  rewrite app_nil_r. reflexivity.
Qed.

Lemma agent_of_alter f self other w :
  agent_of other (set_agents (alter f self) w)
  = if decide (self = other) then f <$> agent_of self w else agent_of other w.
Proof.
  unfold agent_of, set_agents, set_ext. cbn [ext agent_objects].
  destruct (decide (self = other)) as [->|Hne];
    [apply lookup_alter_eq | apply lookup_alter_ne, Hne].
Qed.

Lemma agent_of_frame self (b : MockMessageBus Callback) x reads draws :
  agent_of self {| message_bus := b; ext := x; clock_reads := reads; uuid_draws := draws |}
  = agent_objects x !! self.
Proof. reflexivity. Qed.

Lemma make_decision_run depth cls self a patient_id data w :
  agent_of self w = Some a ->
  let decision := completed_decision env cls a patient_id data w in
  let p := publish env (invoke env depth) "agent_decisions" (Mapping decision)
             (before_publish env cls self patient_id data w) in
  make_decision env (invoke env depth) cls self patient_id data w
  = {| world := world p;
       events := events p
                 ++ [Console ("Decision made by " +:+ agent_type a +:+ " for " +:+ patient_id +:+ ": "
                              +:+ str_value env (default (VStr "unknown")
                                                   (dict_get "recommendation_type" decision)))];
       result := inr decision |}.
Proof.
  intros Ha decision p.
  destruct (publish_result env (invoke env depth) "agent_decisions" (Mapping decision)
              (before_publish env cls self patient_id data w)) as [b Hb].
  subst p decision.
  unfold before_publish, completed_decision in *.
  unfold agent_of in Ha.
  unfold make_decision, BaseAgent.make_decision.
  etransitivity.
  { follow_step.
    eapply try_run.
    eapply bind_then; [apply process_run | cbv beta]. simpl_values.
    eapply bind_then.
    { apply agent_run. unfold agent_of. simpl_values.
      rewrite lookup_alter_eq, Ha. reflexivity. }
    cbv beta. simpl_values.
    do 6 follow_step.
    unfold publish_message.
    eapply bind_then; [apply run_eta; exact Hb | cbv beta].
    follow. }
  rewrite ?app_nil_r. reflexivity.
Qed.

Lemma completed_decision_inert cls a patient_id data w reads len :
  inert (dict_update (completed_decision env cls a patient_id data w)
           (metadata env "agent_decisions" reads len)).
Proof. destruct cls; repeat split. Qed.

End DecisionFacts.
Section DecisionOutcome.
Variable env : Env.
Implicit Types w : World Callback Program.

Lemma alter_thrice (f g h : AgentState -> AgentState) self a (m : gmap string AgentState) :
  m !! self = Some a ->
  alter f self (alter g self (alter h self m)) = <[self := f (g (h a))]> m.
Proof.
  intros Ha. apply map_eq. intros k.
  destruct (decide (self = k)) as [->|Hne].
  - rewrite lookup_insert_eq, !lookup_alter_eq, Ha. reflexivity.
  - rewrite lookup_insert_ne, !lookup_alter_ne by exact Hne. reflexivity.
Qed.

(** A successful [make_decision] for one of the three classes. *)
Lemma make_decision_success depth cls self a patient_id data w :
  agent_of self w = Some a ->
  let o := make_decision env (invoke env depth) cls self patient_id data w in
  let decision := completed_decision env cls a patient_id data w in
  let published := dict_update decision
                     (metadata env "agent_decisions" (S (S (S (S (clock_reads w)))))
                        (length (buffer "agent_decisions" (message_bus w)))) in
  result o = inr decision /\
  agent_objects (ext (world o))
  = <[self := decided env cls patient_id data (clock_reads w) a]> (agent_objects (ext w)) /\
  clock_reads (world o) = S (S (S (S (S (clock_reads w))))) /\
  uuid_draws (world o) = S (uuid_draws w) /\
  same_subscribers w (world o) /\
  forall t, stored_on t (events o) = if String.eqb "agent_decisions" t then [published] else [].
Proof.
  intros Ha. cbv zeta.
  rewrite (make_decision_run env depth cls self a) by exact Ha.
  cbn [world events result].
  pose proof (publish_inert env depth "agent_decisions"
                (completed_decision env cls a patient_id data w)
                (before_publish env cls self patient_id data w)) as Hp.
  cbv zeta in Hp.
  destruct Hp as (_ & Hagents & Hclock & Huuid & Hbus & Hstored).
  { apply completed_decision_inert. }
  unfold same_agents in Hagents.
  split; [reflexivity|].
  split; [rewrite Hagents; unfold before_publish; cbn [ext agent_objects];
          apply alter_thrice, Ha|].
  split; [exact Hclock|]. split; [exact Huuid|].
  split.
  - intros t. rewrite Hbus. unfold loop_entry, before_publish. cbn [message_bus].
    rewrite subscribed_insert. destruct (decide _) as [<-|]; reflexivity.
  - intros t. rewrite stored_on_app, Hstored. unfold stored_on.
    cbn [flat_map stored_in]. rewrite app_nil_r. reflexivity.
Qed.
End DecisionOutcome.
Section Accounting.
Variable env : Env.
Implicit Types w : World Callback Program.


End Accounting.

(** A subclass whose [process_patient_data] raises: [make_decision]
    returns the error result, nothing is published, the counters stay. *)
Example make_decision_with_failing_process :
  let process := fun (_ _ : string) (_ : Dict) =>
                   @raise Callback Program Dict (RuntimeError "decision engine unavailable") in
  let o := BaseAgent.make_decision example_env (invoke example_env 2) process
             "NURSE_001" "PATIENT_1" example_context wired_world in
  (dict_get "error" <$> sum_rect (fun _ => option Dict) (fun _ => None) Some (result o))
  = Some (Some (VStr "decision engine unavailable")) /\
  stored_on "agent_decisions" (events o) = [] /\
  (decision_count <$> agent_of "NURSE_001" (world o)) = Some 0 /\
  (confidence_scores <$> agent_of "NURSE_001" (world o)) = Some [].
Proof. vm_compute. repeat split. Qed.

(** ** A failing subscriber *)

(** A reading without a value for an assigned patient: the physician's
    callback raises a [TypeError]; the line is logged, the nurse's and the
    coordinator's callbacks are still called, and [publish] returns true. *)
Example publish_with_failing_subscriber :
  let m := [("patient_id", VStr "PATIENT_1"); ("parameter", VStr "heart_rate")] in
  let o := publish example_env (invoke example_env 3) "vitals" (Mapping m) wired_world in
  result o = inr true /\
  map fst (calls_on "vitals" (events o))
  = [PhysicianAgent_handle_vitals "PHYSICIAN_001";
     NurseAgent_handle_vitals_monitoring "NURSE_001";
     WorkflowCoordinator_monitor_messages] /\
  console (events o)
  = ["Error in subscriber callback: '<' not supported between instances of 'NoneType' and 'int'"].
Proof. vm_compute. repeat split. Qed.

(** ** No callback of the program changes a subscriber list *)

Section CallbacksKeepSubscribers.
Variable env : Env.
Implicit Types w : World Callback Program.

Local Abbreviation keeps := (preserves (Cb:=Callback) (Ext:=Program) same_subscribers).

Lemma keeps_ret {A} (a : A) : keeps (ret a).
Proof. apply preserves_ret, same_subscribers_refl. Qed.

Lemma keeps_bind {A B} (m : Prog A) (k : A -> Prog B) :
  keeps m -> (forall a, keeps (k a)) -> keeps (bind m k).
Proof. apply preserves_bind, same_subscribers_trans. Qed.

Lemma keeps_try_except {A} (m : Prog A) h :
  keeps m -> (forall e, keeps (h e)) -> keeps (try_except m h).
Proof. apply preserves_try_except, same_subscribers_trans. Qed.

Lemma keeps_same_bus {A} (m : Prog A) :
  (forall w, message_bus (world (m w)) = message_bus w) -> keeps m.
Proof. intros H w t. rewrite H. reflexivity. Qed.

Lemma keeps_agent self : keeps (agent self).
Proof. apply keeps_same_bus. intros w. unfold agent. destruct (_ !! _); reflexivity. Qed.

Lemma keeps_lift {A} (r : Exn + A) : keeps (lift r).
Proof. apply keeps_same_bus. reflexivity. Qed.

Lemma keeps_print l : keeps (print l).
Proof. apply keeps_same_bus. reflexivity. Qed.

Lemma keeps_update_agent self f : keeps (update_agent self f).
Proof. apply keeps_same_bus. reflexivity. Qed.

Lemma keeps_now : keeps (now env).
Proof. apply keeps_same_bus. reflexivity. Qed.

Lemma keeps_draw_uuid : keeps (draw_uuid env).
Proof. apply keeps_same_bus. reflexivity. Qed.

Lemma keeps_count f : keeps (modify (set_coordinator f)).
Proof. apply keeps_same_bus. reflexivity. Qed.

Section Handlers.
Variable call : Callback -> string -> Dict -> Prog unit.
Hypothesis call_keeps : forall c topic message, keeps (call c topic message).

Lemma keeps_make_decision process self patient_id context :
  (forall s p d, keeps (process s p d)) ->
  keeps (BaseAgent.make_decision env call process self patient_id context).
Proof.
  intros Hprocess. unfold BaseAgent.make_decision.
  apply keeps_bind; [apply keeps_now | intros start].
  apply keeps_try_except.
  - apply keeps_bind; [apply Hprocess | intros decision].
    apply keeps_bind; [apply keeps_agent | intros a].
    apply keeps_bind; [apply keeps_now | intros stamp].
    apply keeps_bind; [apply keeps_draw_uuid | intros uid].
    apply keeps_bind; [apply keeps_now | intros finish].
    apply keeps_bind; [apply keeps_update_agent | intros _].
    apply keeps_bind; [apply keeps_now | intros last].
    apply keeps_bind; [apply keeps_update_agent | intros _].
    apply keeps_bind; [apply publish_keeps_subscribers, call_keeps | intros _].
    apply keeps_bind; [apply keeps_print | intros _; apply keeps_ret].
  - intros e.
    apply keeps_bind; [apply keeps_print | intros _].
    apply keeps_bind; [apply keeps_agent | intros a].
    apply keeps_bind; [apply keeps_now | intros stamp; apply keeps_ret].
Qed.

Lemma keeps_process cls self patient_id data :
  keeps (process_patient_data env cls self patient_id data).
Proof.
  destruct cls; (apply keeps_bind; [apply keeps_update_agent | intros _; apply keeps_ret]).
Qed.

Lemma keeps_class_make_decision cls self patient_id context :
  keeps (make_decision env call cls self patient_id context).
Proof. apply keeps_make_decision. intros s p d. apply keeps_process. Qed.

Lemma keeps_handle_vitals self topic message :
  keeps (PhysicianAgent._handle_vitals env call self topic message).
Proof.
  unfold PhysicianAgent._handle_vitals.
  apply keeps_bind; [apply keeps_agent | intros a].
  destruct (assigned_patient _ a) as [patient_id|]; [|apply keeps_ret].
  destruct (PhysicianAgent.thresholds_of _) as [[low high]|]; [|apply keeps_ret].
  apply keeps_bind; [apply keeps_lift | intros below].
  apply keeps_bind; [destruct below; [apply keeps_ret | apply keeps_lift] | intros critical].
  destruct critical; [|apply keeps_ret].
  unfold PhysicianAgent._make_urgent_decision.
  apply keeps_bind; [apply (keeps_class_make_decision Physician) | intros _; apply keeps_ret].
Qed.

Lemma keeps_handle_alerts self topic message :
  keeps (PhysicianAgent._handle_alerts env call self topic message).
Proof.
  unfold PhysicianAgent._handle_alerts.
  apply keeps_bind; [apply keeps_agent | intros a].
  destruct (assigned_patient _ a) as [patient_id|]; [|apply keeps_ret].
  destruct (PhysicianAgent.severe message); [|apply keeps_ret].
  unfold PhysicianAgent._make_urgent_decision.
  apply keeps_bind; [apply (keeps_class_make_decision Physician) | intros _; apply keeps_ret].
Qed.

Lemma keeps_handle_vitals_monitoring self topic message :
  keeps (NurseAgent._handle_vitals_monitoring env call self topic message).
Proof.
  unfold NurseAgent._handle_vitals_monitoring.
  apply keeps_bind; [apply keeps_agent | intros a].
  destruct (assigned_patient _ a) as [patient_id|]; [|apply keeps_ret].
  apply keeps_bind;
    [destruct (NurseAgent.is_temperature _); [apply keeps_lift | apply keeps_ret] | intros fever].
  destruct fever; [|apply keeps_ret].
  unfold NurseAgent._recommend_nursing_intervention.
  apply keeps_bind; [apply keeps_lift | intros what].
  apply keeps_bind; [apply keeps_lift | intros details].
  apply keeps_bind; [apply (keeps_class_make_decision Nurse) | intros _; apply keeps_ret].
Qed.

Lemma keeps_handle_medication_review self topic message :
  keeps (PharmacistAgent._handle_medication_review env call self topic message).
Proof.
  unfold PharmacistAgent._handle_medication_review.
  apply keeps_bind; [apply keeps_agent | intros a].
  destruct (assigned_patient _ a) as [patient_id|]; [|apply keeps_ret].
  apply keeps_bind; [apply keeps_lift | intros drug_name].
  destruct (existsb _ _); [|apply keeps_ret].
  unfold PharmacistAgent._check_drug_interactions.
  apply keeps_bind; [apply (keeps_class_make_decision Pharmacist) | intros _; apply keeps_ret].
Qed.
End Handlers.

Lemma invoke_keeps_subscribers depth : forall c topic message,
  keeps (invoke env depth c topic message).
Proof.
  induction depth as [|d IH]; intros c topic message.
  - apply preserves_raise, same_subscribers_refl.
  - destruct c as [self|self|self|self| |]; cbn [invoke].
    + apply keeps_handle_vitals, IH.
    + apply keeps_handle_alerts, IH.
    + apply keeps_handle_vitals_monitoring, IH.
    + apply keeps_handle_medication_review, IH.
    + unfold WorkflowCoordinator._monitor_messages.
      apply keeps_bind; [apply keeps_count | intros _].
      destruct (_ && _); [apply keeps_print | apply keeps_ret].
    + unfold WorkflowCoordinator._track_decisions.
      apply keeps_bind; [apply keeps_count | intros _].
      destruct (WorkflowCoordinator.is_high _); [apply keeps_print | apply keeps_ret].
Qed.
End CallbacksKeepSubscribers.

(** ** The vitals handlers *)

Lemma Qltb_lt (x y : Q) : Qltb x y = true <-> (x < y)%Q.
Proof.
  unfold Qltb. rewrite negb_true_iff.
  split.
  - intros H. apply Qnot_le_lt. intros Hle. apply Qle_bool_iff in Hle. congruence.
  - intros H. destruct (Qle_bool y x) eqn:E; [|reflexivity].
    apply Qle_bool_iff in E. exfalso. exact (Qlt_not_le _ _ H E).
Qed.

Lemma Qltb_ge (x y : Q) : Qltb x y = false <-> (y <= x)%Q.
Proof.
  unfold Qltb. rewrite negb_false_iff. apply Qle_bool_iff.
Qed.

(** The first operation of the program on the left only computes a value. *)
Ltac pure_step :=
  etransitivity;
  [ apply bind_pure; first [ reflexivity | apply agent_run; eassumption ]
  | cbv beta iota ].

Section VitalsHandlers.
Variable env : Env.
Variable call : Callback -> string -> Dict -> Prog unit.
Implicit Types w : World Callback Program.

Lemma handle_vitals_run self a topic message w patient_id low high q :
  agent_of self w = Some a ->
  assigned_patient (get "patient_id" message) a = Some patient_id ->
  PhysicianAgent.thresholds_of (get "parameter" message) = Some (low, high) ->
  as_number (get "value" message) = Some q ->
  PhysicianAgent._handle_vitals env call self topic message w
  = if Qltb q (inject_Z low) || Qltb (inject_Z high) q then
      bind (make_decision env call Physician self patient_id
              (urgent_decision env patient_id (critical_vital message)))
           (fun _ => ret tt) w
    else ret tt w.
Proof.
  intros Ha Hp Ht Hq. unfold PhysicianAgent._handle_vitals.
  rewrite (bind_pure _ _ _ _ (agent_run self w a Ha)).
  rewrite Hp, Ht. unfold py_lt, py_gt. rewrite Hq. cbn [as_number].
  rewrite (bind_pure (lift _) _ w _ eq_refl).
  destruct (Qltb q (inject_Z low)); cbn [orb].
  - rewrite (bind_pure (ret _) _ w _ eq_refl). reflexivity.
  - rewrite (bind_pure (lift _) _ w _ eq_refl).
    destruct (Qltb (inject_Z high) q); reflexivity.
Qed.

Lemma handle_vitals_monitoring_run self a topic message w patient_id q :
  agent_of self w = Some a ->
  assigned_patient (get "patient_id" message) a = Some patient_id ->
  NurseAgent.is_temperature (get "parameter" message) = true ->
  as_number (get "value" message) = Some q ->
  NurseAgent._handle_vitals_monitoring env call self topic message w
  = if Qltb 38 q then
      bind (make_decision env call Nurse self patient_id (fever_intervention patient_id))
           (fun _ => ret tt) w
    else ret tt w.
Proof.
  intros Ha Hp Ht Hq. unfold NurseAgent._handle_vitals_monitoring.
  pure_step. rewrite Hp, Ht. cbv iota. unfold py_gt. rewrite Hq. cbn [as_number].
  pure_step.
  destruct (Qltb 38 q); [|reflexivity].
  unfold NurseAgent._recommend_nursing_intervention.
  pure_step. pure_step. reflexivity.
Qed.
End VitalsHandlers.

Lemma engine_confidence prompt context :
  let c := confidence (MockLLMInterface.generate_response prompt context) in
  c = 85 # 100 \/ c = 78 # 100 \/ c = 82 # 100 \/ c = 75 # 100.
Proof.
  unfold MockLLMInterface.generate_response.
  destruct (contains "vital signs" (lower prompt)); [left; reflexivity|].
  destruct (contains "medication" (lower prompt)); [right; left; reflexivity|].
  destruct (contains "lab results" (lower prompt)); [right; right; left; reflexivity|].
  right; right; right; reflexivity.
Qed.

Lemma then_ret_events {A} (m : Prog A) w a :
  result (m w) = inr a ->
  events (bind m (fun _ => ret tt) w) = events (m w) /\
  world (bind m (fun _ => ret tt) w) = world (m w).
Proof.
  intros H. rewrite (bind_inr _ _ _ _ H). cbn [events world ret].
  rewrite app_nil_r. split; reflexivity.
Qed.

(** C1, as the code behaves.  For a vitals message of an assigned patient
    whose parameter is in the threshold table: a numeric value strictly
    outside [low, high] makes the physician publish exactly one decision on
    [agent_decisions], and a value inside the band publishes nothing.  The
    published decision is the one [process_patient_data] builds inside
    [make_decision]: a [clinical_assessment] with [urgency = "low"] and no
    [trigger] key; the urgent dict of [_make_urgent_decision] only serves
    as the prompt context. *)
Theorem physician_vitals_decision (env : Env) (depth : nat) (self : string) (a : AgentState)
    (topic : string) (message : Dict) (w : World Callback Program)
    (patient_id : string) (low high : Z) (q : Q)
    (Hself : agent_of self w = Some a)
    (Hassigned : assigned_patient (get "patient_id" message) a = Some patient_id)
    (Hparameter : PhysicianAgent.thresholds_of (get "parameter" message) = Some (low, high))
    (Hvalue : as_number (get "value" message) = Some q) :
  let o := PhysicianAgent._handle_vitals env (invoke env depth) self topic message w in
  ((q < inject_Z low \/ inject_Z high < q)%Q ->
   exists d,
     stored_on "agent_decisions" (events o) = [d] /\
     get "patient_id" d = VStr patient_id /\
     get "recommendation_type" d = VStr "clinical_assessment" /\
     get "urgency" d = VStr "low" /\
     dict_get "trigger" d = None) /\
  ((inject_Z low <= q /\ q <= inject_Z high)%Q ->
   events o = [] /\ world o = w).
Proof.
  cbv zeta.
  rewrite (handle_vitals_run env (invoke env depth) self a topic message w patient_id low high q)
    by assumption.
  split.
  - intros Hout.
    assert (Hc : Qltb q (inject_Z low) || Qltb (inject_Z high) q = true).
    { apply orb_true_iff. destruct Hout as [H|H]; [left|right]; apply Qltb_lt, H. }
    rewrite Hc.
    destruct (make_decision_success env depth Physician self a patient_id
                (urgent_decision env patient_id (critical_vital message)) w Hself)
      as (Hres & _ & _ & _ & _ & Hstored).
    destruct (then_ret_events _ w _ Hres) as [-> _].
    rewrite Hstored. cbn [String.eqb Ascii.eqb Bool.eqb].
    eexists. split; [reflexivity|]. repeat split.
  - intros [Hlow Hhigh].
    apply Qltb_ge in Hlow, Hhigh. rewrite Hlow, Hhigh. split; reflexivity.
Qed.

Lemma physician_vitals_witness :
  let o := PhysicianAgent._handle_vitals example_env (invoke example_env 2) "PHYSICIAN_001"
             "vitals" (vitals_reading "PATIENT_1" "heart_rate" (VInt 40)) wired_world in
  exists d,
    stored_on "agent_decisions" (events o) = [d] /\
    get "recommendation_type" d = VStr "clinical_assessment" /\
    get "urgency" d = VStr "low" /\
    dict_get "trigger" d = None.
Proof.
  destruct (proj1 (physician_vitals_decision example_env 2 "PHYSICIAN_001"
                     (BaseAgent.append_patient "PATIENT_1"
                        (BaseAgent.set_is_active true (PhysicianAgent.init "PHYSICIAN_001")))
                     "vitals" (vitals_reading "PATIENT_1" "heart_rate" (VInt 40)) wired_world
                     "PATIENT_1" 50 120 40
                     ltac:(vm_compute; reflexivity) ltac:(vm_compute; reflexivity)
                     ltac:(vm_compute; reflexivity) ltac:(vm_compute; reflexivity))
              (or_introl eq_refl))
    as (d & Hd & _ & Htype & Hurgency & Htrigger).
  exists d. repeat split; assumption.
Defined.

(** Heart-rate readings of 40 and of 160 each publish one decision, with
    [urgency = "low"] and without a [trigger]; a reading of 80 publishes
    none. *)
Example heart_rate_readings :
  let published v :=
    stored_on "agent_decisions"
      (events (publish example_env (invoke example_env 3) "vitals"
                 (Mapping (vitals_reading "PATIENT_1" "heart_rate" (VInt v))) wired_world)) in
  map (fun d => (get "recommendation_type" d, get "urgency" d, dict_get "trigger" d)) (published 40%Z)
  = [(VStr "clinical_assessment", VStr "low", None)] /\
  map (fun d => (get "recommendation_type" d, get "urgency" d, dict_get "trigger" d)) (published 160%Z)
  = [(VStr "clinical_assessment", VStr "low", None)] /\
  published 80%Z = [].
Proof. vm_compute. repeat split. Qed.

(** C9, as the code behaves.  For a temperature reading of an assigned
    patient: a value above 38.0 makes the nurse publish exactly one
    decision, a value of at most 38.0 publishes nothing.  The published
    decision is the [nursing_care_plan] that [process_patient_data] builds
    from the answer of the decision engine: its confidence is the engine's
    (0.85, 0.78, 0.82 or 0.75), never the 0.90 of the intervention dict,
    which only serves as the prompt context. *)
Theorem nurse_fever_decision (env : Env) (depth : nat) (self : string) (a : AgentState)
    (topic : string) (message : Dict) (w : World Callback Program)
    (patient_id : string) (q : Q)
    (Hself : agent_of self w = Some a)
    (Hassigned : assigned_patient (get "patient_id" message) a = Some patient_id)
    (Hparameter : NurseAgent.is_temperature (get "parameter" message) = true)
    (Hvalue : as_number (get "value" message) = Some q) :
  let o := NurseAgent._handle_vitals_monitoring env (invoke env depth) self topic message w in
  let answer := engine_answer env Nurse patient_id (fever_intervention patient_id) in
  ((38 < q)%Q ->
   exists d,
     stored_on "agent_decisions" (events o) = [d] /\
     get "recommendation_type" d = VStr "nursing_care_plan" /\
     dict_get "intervention" d = None /\
     get "confidence_score" d = VFloat (confidence answer) /\
     (confidence answer = 85 # 100 \/ confidence answer = 78 # 100 \/
      confidence answer = 82 # 100 \/ confidence answer = 75 # 100) /\
     ~ (confidence answer == 90 # 100)%Q) /\
  ((q <= 38)%Q -> events o = [] /\ world o = w).
Proof.
  cbv zeta.
  rewrite (handle_vitals_monitoring_run env (invoke env depth) self a topic message w
             patient_id q) by assumption.
  split.
  - intros Hfever. apply Qltb_lt in Hfever. rewrite Hfever.
    destruct (make_decision_success env depth Nurse self a patient_id
                (fever_intervention patient_id) w Hself)
      as (Hres & _ & _ & _ & _ & Hstored).
    destruct (then_ret_events _ w _ Hres) as [-> _].
    rewrite Hstored. cbn [String.eqb Ascii.eqb Bool.eqb].
    eexists. split; [reflexivity|].
    split; [reflexivity|]. split; [reflexivity|]. split; [reflexivity|].
    pose proof (engine_confidence (prompt_of env Nurse patient_id (fever_intervention patient_id))
                  (fever_intervention patient_id)) as Hc.
    cbv zeta in Hc. fold (engine_answer env Nurse patient_id (fever_intervention patient_id)) in Hc.
    split; [exact Hc|].
    destruct Hc as [-> | [-> | [-> | ->]]]; discriminate.
  - intros Hle. apply Qltb_ge in Hle. rewrite Hle. split; reflexivity.
Qed.

Lemma nurse_fever_witness :
  let o := NurseAgent._handle_vitals_monitoring example_env (invoke example_env 2) "NURSE_001"
             "vitals" (vitals_reading "PATIENT_1" "temperature" (VFloat (385 # 10))) wired_world in
  exists d,
    stored_on "agent_decisions" (events o) = [d] /\
    get "recommendation_type" d = VStr "nursing_care_plan" /\
    get "confidence_score" d <> VFloat (90 # 100).
Proof.
  destruct (proj1 (nurse_fever_decision example_env 2 "NURSE_001"
                     (BaseAgent.append_patient "PATIENT_1"
                        (BaseAgent.set_is_active true (NurseAgent.init "NURSE_001")))
                     "vitals" (vitals_reading "PATIENT_1" "temperature" (VFloat (385 # 10)))
                     wired_world "PATIENT_1" (385 # 10)
                     ltac:(vm_compute; reflexivity) ltac:(vm_compute; reflexivity)
                     ltac:(vm_compute; reflexivity) ltac:(vm_compute; reflexivity))
              eq_refl)
    as (d & Hd & Htype & _ & Hconf & Hrange & _).
  exists d. split; [exact Hd|]. split; [exact Htype|].
  rewrite Hconf. destruct Hrange as [-> | [-> | [-> | ->]]]; discriminate.
Defined.

(** A temperature of 38.5 publishes one decision, a [nursing_care_plan] of
    confidence 0.75; a temperature of 37.0 publishes none. *)
Example temperature_readings :
  let published v :=
    stored_on "agent_decisions"
      (events (publish example_env (invoke example_env 3) "vitals"
                 (Mapping (vitals_reading "PATIENT_1" "temperature" (VFloat v))) wired_world)) in
  map (fun d => (get "recommendation_type" d, get "confidence_score" d)) (published (385 # 10))
  = [(VStr "nursing_care_plan", VFloat (75 # 100))] /\
  published (370 # 10) = [].
Proof. vm_compute. repeat split. Qed.

(** ** The topic buffer *)

Lemma dict_get_set_eq k v d : dict_get k (dict_set k v d) = Some v.
Proof.
  induction d as [|[k' v'] d IH]; cbn [dict_set dict_get].
  - rewrite String.eqb_refl. reflexivity.
  - destruct (String.eqb k k') eqn:E; cbn [dict_get]; rewrite E; [reflexivity | exact IH].
Qed.

Lemma deque_append_length (q : list Dict) (m : Dict) :
  length q <= maxlen -> length (deque_append q m) = Nat.min (S (length q)) maxlen.
Proof.
  intros Hq. unfold deque_append.
  destruct (length q <? maxlen) eqn:E.
  - apply Nat.ltb_lt in E. rewrite length_app. cbn [length]. lia.
  - apply Nat.ltb_ge in E. rewrite length_app, length_drop. cbn [length].
    unfold maxlen in *. lia.
Qed.

(** The buffer never grows beyond 1000 messages, and a full buffer loses
    its oldest message to make room for the new one. *)
Lemma deque_append_bounded (q : list Dict) (m : Dict) :
  length q <= maxlen ->
  length (deque_append q m) <= maxlen /\
  (length q = maxlen -> deque_append q m = drop 1 q ++ [m]) /\
  (length q < maxlen -> deque_append q m = q ++ [m]).
Proof.
  intros Hq. split; [rewrite deque_append_length by exact Hq; lia|].
  unfold deque_append. split; intros H.
  - rewrite (proj2 (Nat.ltb_ge _ _)) by lia. reflexivity.
  - rewrite (proj2 (Nat.ltb_lt _ _)) by exact H. reflexivity.
Qed.

(** The id stamped on a message is the topic name and the length of the
    topic's buffer at publish time. *)
Lemma stamped_id {Cb Ext : Type} (env : Env) (topic : string) (d : Dict) (w : World Cb Ext) :
  get "_id" (enriched_by env topic d w)
  = VStr (topic +:+ "_" +:+ pretty (length (buffer topic (message_bus w)))).
Proof.
  unfold enriched_by, metadata, dict_update, get. cbn [fold_left fst snd].
  rewrite dict_get_set_eq. reflexivity.
Qed.

(** C2, as the code behaves.  The id is derived from the length of a
    buffer that stops growing at 1000: on a bus without subscribers, of 1002
    messages published to one topic the 1000th is stamped [vitals_999] and
    the 1001st and the 1002nd are both stamped [vitals_1000]. *)
Theorem sequence_id_repeats_beyond_buffer_bound :
  let script := repeat ("vitals", Mapping [("patient_id", VStr "PATIENT_1")]) 1002 in
  let o := publish_all example_env (invoke example_env 1) script initial_world in
  let ids := map (get "_id") (appended_to "vitals" (events o)) in
  length ids = 1002 /\
  ids !! 999 = Some (VStr "vitals_999") /\
  ids !! 1000 = Some (VStr "vitals_1000") /\
  ids !! 1001 = Some (VStr "vitals_1000") /\
  length (buffer "vitals" (message_bus (world o))) = 1000.
Proof. vm_compute. repeat split. Qed.

(** While the buffer is not full the ids of two successive publishes
    differ; once it is full they coincide. *)
Lemma sequence_id_of_successor {Cb Ext : Type} (env : Env) (topic : string)
    (d1 d2 : Dict) (w1 w2 : World Cb Ext) :
  length (buffer topic (message_bus w1)) <= maxlen ->
  buffer topic (message_bus w2)
  = deque_append (buffer topic (message_bus w1)) (enriched_by env topic d1 w1) ->
  (get "_id" (enriched_by env topic d1 w1) = get "_id" (enriched_by env topic d2 w2)
   <-> length (buffer topic (message_bus w1)) = maxlen).
Proof.
  intros Hlen Hnext. rewrite !stamped_id, Hnext, deque_append_length by exact Hlen.
  split.
  - intros H. injection H as H. apply (inj (String.append topic)) in H.
    apply (inj (String.append "_")) in H. apply (inj pretty) in H. unfold maxlen in *. lia.
  - intros ->. reflexivity.
Qed.

(** C8, as the code behaves.  [get_messages(topic, 0)] returns the whole
    buffer, not the empty list: [messages[-0:]] is [messages[0:]]. *)
Theorem get_messages_zero_returns_all {Cb Ext : Type} (topic : string) (w : World Cb Ext) :
  result (get_messages topic 0 w) = inr (buffer topic (message_bus w)).
Proof.
  unfold get_messages.
  rewrite (bind_inr _ _ _ (buffer topic (message_bus w))) by reflexivity.
  cbn [result ret]. destruct (buffer topic (message_bus w)); reflexivity.
Qed.

(** For a positive count the result is the last [min count len] messages
    of the buffer, oldest first. *)
Lemma get_messages_positive {Cb Ext : Type} (topic : string) (count : Z) (w : World Cb Ext) :
  (0 < count)%Z ->
  let q := buffer topic (message_bus w) in
  result (get_messages topic count w) = inr (drop (length q - Z.to_nat count) q).
Proof.
  intros Hc q. unfold get_messages.
  rewrite (bind_inr _ _ _ q) by reflexivity.
  cbn [result ret]. fold q. destruct q as [|m q']; [reflexivity|].
  unfold slice_from. f_equal. f_equal.
  destruct (- count <? 0)%Z eqn:E; [|apply Z.ltb_ge in E; lia].
  set (n := length (m :: q')). lia.
Qed.

Lemma get_messages_positive_length {Cb Ext : Type} (topic : string) (count : Z)
    (w : World Cb Ext) (messages : list Dict) :
  (0 < count)%Z ->
  length (buffer topic (message_bus w)) <= maxlen ->
  result (get_messages topic count w) = inr messages ->
  length messages <= Nat.min (Z.to_nat count) maxlen.
Proof.
  intros Hc Hq. rewrite get_messages_positive by exact Hc. cbv zeta.
  intros [= <-]. rewrite length_drop. lia.
Qed.

Example get_messages_zero :
  let w := world (publish_all example_env (invoke example_env 1)
                    (repeat ("vitals", Mapping [("patient_id", VStr "PATIENT_1")]) 3)
                    initial_world) in
  (length <$> sum_rect (fun _ => option (list Dict)) (fun _ => None) Some
                (result (get_messages "vitals" 0 w))) = Some 3 /\
  (length <$> sum_rect (fun _ => option (list Dict)) (fun _ => None) Some
                (result (get_messages "vitals" 2 w))) = Some 2.
Proof. vm_compute. split; reflexivity. Qed.

(** ** Initialisation *)

Lemma same_agents_refl (w : World Callback Program) : same_agents w w.
Proof. reflexivity. Qed.

Lemma same_agents_trans (w1 w2 w3 : World Callback Program) :
  same_agents w1 w2 -> same_agents w2 w3 -> same_agents w1 w3.
Proof. unfold same_agents. congruence. Qed.

Lemma subscribe_same_agents topic c : preserves same_agents (subscribe topic c).
Proof. intros w. rewrite subscribe_run. reflexivity. Qed.

Lemma initialize_run (setup : string -> Prog unit) self a w :
  agent_of self w = Some a ->
  let activated := set_agents (alter (BaseAgent.set_is_active true) self) w in
  let s := setup self activated in
  BaseAgent.initialize setup self w
  = {| world := world s;
       events := Console (agent_type a +:+ " agent " +:+ agent_id a +:+ " initialized") :: events s;
       result := result s |}.
Proof.
  intros Ha activated s. subst s activated. unfold agent_of in Ha.
  unfold BaseAgent.initialize.
  etransitivity.
  { follow_step.
    eapply bind_then.
    { apply agent_run. unfold agent_of. simpl_values. rewrite lookup_alter_eq, Ha. reflexivity. }
    cbv beta. simpl_values.
    follow_step. apply outcome_eta. }
  unfold set_agents, set_ext. reflexivity.
Qed.

(** C6, amended.  [initialize] sets [is_active] before it runs the
    subscription setup and never resets it: it ends exactly as
    [_setup_subscriptions] ends, run on the activated agent, so a failing
    setup makes [initialize] raise (the failure is fatal for the caller),
    and in both cases the agent is left with [is_active = True].  (Stated
    for a setup that does not itself write [is_active] of the agent, as
    none of the three subclasses' does.) *)
Theorem initialize_activates_before_subscribing (setup : string -> Prog unit)
    (self : string) (a : AgentState) (w : World Callback Program)
    (Hself : agent_of self w = Some a)
    (Hsetup : forall w', active self (world (setup self w')) = active self w') :
  let o := BaseAgent.initialize setup self w in
  result o = result (setup self (set_agents (alter (BaseAgent.set_is_active true) self) w)) /\
  active self (world o) = Some true /\
  (forall e, result o = inl e -> active self (world o) = Some true).
Proof.
  cbv zeta. rewrite (initialize_run setup self a w Hself). cbn [world events result].
  assert (Hactive : active self
            (world (setup self (set_agents (alter (BaseAgent.set_is_active true) self) w)))
          = Some true).
  { rewrite Hsetup. unfold active, agent_of.
    unfold set_agents, set_ext. cbn [ext agent_objects].
    unfold agent_of in Hself. rewrite lookup_alter_eq, Hself. reflexivity. }
  split; [reflexivity|]. split; [exact Hactive | intros _ _; exact Hactive].
Qed.

Lemma initialize_witness :
  let w := set_agents (insert "PHYSICIAN_001" (PhysicianAgent.init "PHYSICIAN_001")) initial_world in
  let o := PhysicianAgent.initialize "PHYSICIAN_001" w in
  active "PHYSICIAN_001" w = Some false /\
  result o = inr tt /\
  active "PHYSICIAN_001" (world o) = Some true.
Proof.
  cbv zeta. split; [vm_compute; reflexivity|].
  destruct (initialize_activates_before_subscribing PhysicianAgent._setup_subscriptions
              "PHYSICIAN_001" (PhysicianAgent.init "PHYSICIAN_001")
              (set_agents (insert "PHYSICIAN_001" (PhysicianAgent.init "PHYSICIAN_001"))
                 initial_world))
    as (Hres & Hactive & _).
  - vm_compute. reflexivity.
  - intros w'.
    assert (H : same_agents w' (world (PhysicianAgent._setup_subscriptions "PHYSICIAN_001" w'))).
    { unfold PhysicianAgent._setup_subscriptions.
      apply (preserves_bind same_agents same_agents_trans);
        [apply subscribe_same_agents | intros _; apply subscribe_same_agents]. }
    unfold active, agent_of. unfold same_agents in H. rewrite H. reflexivity.
  - split; [|exact Hactive].
    unfold PhysicianAgent.initialize. rewrite Hres. vm_compute. reflexivity.
Defined.

(** The claim as stated fails: when the subscription setup raises, the
    exception leaves [initialize] and the agent, inactive before, stays
    active. *)
Lemma initialize_failure_leaves_agent_active :
  let o := BaseAgent.initialize failing_setup "AGENT_X" created_world in
  active "AGENT_X" created_world = Some false /\
  result o = inl (RuntimeError "message bus unavailable") /\
  active "AGENT_X" (world o) = Some true.
Proof. vm_compute. repeat split. Qed.

(** ** The coordinator *)

Section Coordinator.
Variable env : Env.
Variable data_path : string.
Variable format_1f : Q -> string.
Implicit Types w : World Callback Program.

Lemma shutdown_run self a w :
  agent_of self w = Some a ->
  BaseAgent.shutdown self w
  = {| world := set_agents (alter (BaseAgent.set_is_active false) self) w;
       events := [Console (agent_type a +:+ " agent " +:+ agent_id a +:+ " shutdown")];
       result := inr tt |}.
Proof.
  intros Ha. unfold agent_of in Ha. unfold BaseAgent.shutdown.
  etransitivity.
  { follow_step.
    eapply bind_then.
    { apply agent_run. unfold agent_of. simpl_values. rewrite lookup_alter_eq, Ha. reflexivity. }
    cbv beta. simpl_values. run_prim. }
  unfold set_agents, set_ext. reflexivity.
Qed.

Lemma final_report_run w :
  let o := WorkflowCoordinator._generate_final_report env data_path format_1f w in
  result o = inr tt /\
  files (ext (world o)) !! final_report_path data_path <> None /\
  agent_objects (ext (world o)) = agent_objects (ext w) /\
  coordinator (ext (world o)) = coordinator (ext w) /\
  icu_unit (ext (world o)) = icu_unit (ext w) /\
  message_bus (world o) = message_bus w.
Proof.
  cbv zeta.
  assert (H : exists o', WorkflowCoordinator._generate_final_report env data_path format_1f w = o' /\
     result o' = inr tt /\
  files (ext (world o')) !! final_report_path data_path <> None /\
  agent_objects (ext (world o')) = agent_objects (ext w) /\
  coordinator (ext (world o')) = coordinator (ext w) /\
  icu_unit (ext (world o')) = icu_unit (ext w) /\
  message_bus (world o') = message_bus w).
  { unfold WorkflowCoordinator._generate_final_report, WorkflowCoordinator.self.
    destruct (start_time (coordinator (ext w))) as [t0|] eqn:Et.
    - eexists. split.
      { follow_step. rewrite Et. follow. }
      cbn [world result ext files agent_objects coordinator icu_unit message_bus].
      unfold final_report_path. rewrite lookup_insert_eq. repeat split. discriminate.
    - eexists. split.
      { follow_step. rewrite Et. follow. }
      cbn [world result ext files agent_objects coordinator icu_unit message_bus].
      unfold final_report_path. rewrite lookup_insert_eq. repeat split. discriminate. }
  destruct H as (o' & -> & H). exact H.
Qed.
Lemma active_alter f self other w :
  active other (set_agents (alter f self) w)
  = if decide (self = other) then is_active <$> (f <$> agent_of self w) else active other w.
Proof. unfold active. rewrite agent_of_alter. destruct (decide _); reflexivity. Qed.

(** The shutdown loop over agents that all exist: it runs to its end,
    leaves exactly the listed agents inactive and touches nothing else. *)
Lemma shutdown_all ids : forall w,
  (forall id, id ∈ ids -> agent_of id w <> None) ->
  let o := for_each ids BaseAgent.shutdown w in
  result o = inr tt /\
  (forall id, active id (world o) = if bool_decide (id ∈ ids) then Some false else active id w) /\
  message_bus (world o) = message_bus w /\
  coordinator (ext (world o)) = coordinator (ext w) /\
  icu_unit (ext (world o)) = icu_unit (ext w) /\
  files (ext (world o)) = files (ext w).
Proof.
  induction ids as [|x ids IH]; intros w Hall; cbv zeta.
  - repeat split.
  - destruct (agent_of x w) as [a|] eqn:Ha; [|exfalso; apply (Hall x); [left | exact Ha]].
    rewrite for_each_cons.
    rewrite (bind_inr _ _ _ tt) by (rewrite (shutdown_run x a w Ha); reflexivity).
    rewrite (shutdown_run x a w Ha). cbn [world events result].
    set (w1 := set_agents (alter (BaseAgent.set_is_active false) x) w).
    destruct (IH w1) as (Hres & Hactive & Hbus & Hcoord & Hunit & Hfiles).
    { intros id Hid. unfold w1. rewrite agent_of_alter.
      destruct (decide (x = id)) as [<-|_]; [rewrite Ha; discriminate|].
      apply Hall. right. exact Hid. }
    split; [exact Hres|]. split; [|repeat split; assumption].
    intros id. rewrite Hactive. unfold w1. rewrite active_alter.
    destruct (decide (x = id)) as [<-|Hne].
    + rewrite Ha. cbn [fmap option_fmap option_map BaseAgent.set_is_active is_active].
      rewrite (bool_decide_eq_true_2 (x ∈ x :: ids)) by left.
      destruct (bool_decide (x ∈ ids)); reflexivity.
    + destruct (bool_decide (id ∈ ids)) eqn:E.
      * apply bool_decide_eq_true_1 in E.
        rewrite bool_decide_eq_true_2 by (right; exact E). reflexivity.
      * apply bool_decide_eq_false_1 in E.
        rewrite bool_decide_eq_false_2; [reflexivity|].
        intros Hin. apply elem_of_cons in Hin as [->|Hin]; [congruence | exact (E Hin)].
Qed.

Lemma start_simulation_running duration_minutes w :
  is_running (coordinator (ext w)) = true ->
  WorkflowCoordinator.start_simulation duration_minutes w
  = {| world := w; events := [Console "⚠️  Simulation already running"]; result := inr tt |}.
Proof.
  intros Hrun. unfold WorkflowCoordinator.start_simulation, WorkflowCoordinator.self.
  etransitivity; [apply bind_pure; reflexivity|]. cbv beta. rewrite Hrun. reflexivity.
Qed.
End Coordinator.

Section StopSimulation.
Variable env : Env.
Variable data_path : string.
Variable format_1f : Q -> string.
Implicit Types w : World Callback Program.

Lemma stop_simulation_run w :
  (forall id, id ∈ agents (coordinator (ext w)) -> agent_of id w <> None) ->
  let loop := for_each (agents (coordinator (ext w))) BaseAgent.shutdown (stopping w) in
  let report := WorkflowCoordinator._generate_final_report env data_path format_1f (world loop) in
  exists evs,
    WorkflowCoordinator.stop_simulation env data_path format_1f w
    = {| world := world report; events := evs; result := inr tt |}.
Proof.
  intros Hall loop report.
  destruct (shutdown_all (agents (coordinator (ext w))) (stopping w)) as (Hloop & _).
  { exact Hall. }
  fold loop in Hloop. apply run_eta in Hloop.
  destruct (final_report_run env data_path format_1f (world loop)) as (Hreport & _).
  fold report in Hreport. apply run_eta in Hreport.
  unfold WorkflowCoordinator.stop_simulation, MockICUUnit.stop_unit_simulation,
    WorkflowCoordinator.self.
  eexists.
  do 10 follow_step.
  cbn [agents WorkflowCoordinator.set_tasks WorkflowCoordinator.set_is_running].
  eapply bind_then.
  { change (for_each _ _ _) with loop. exact Hloop. }
  cbv beta.
  eapply bind_then.
  { change (WorkflowCoordinator._generate_final_report _ _ _ _) with report. exact Hreport. }
  cbv beta. run_prim.
Qed.
Lemma stop_simulation_effects w :
  (forall id, id ∈ agents (coordinator (ext w)) -> agent_of id w <> None) ->
  let o := WorkflowCoordinator.stop_simulation env data_path format_1f w in
  result o = inr tt /\
  is_running (coordinator (ext (world o))) = false /\
  (forall id, id ∈ agents (coordinator (ext w)) -> active id (world o) = Some false) /\
  Forall (fun d => device_is_running d = false) (devices (icu_unit (ext (world o)))) /\
  Forall (fun t => task_done t = true) (tasks (coordinator (ext (world o)))) /\
  files (ext (world o)) !! final_report_path data_path <> None.
Proof.
  intros Hall. cbv zeta.
  destruct (stop_simulation_run w Hall) as (evs & ->). cbn [world result].
  destruct (shutdown_all (agents (coordinator (ext w))) (stopping w) Hall)
    as (_ & Hactive & _ & Hcoord & Hunit & _).
  destruct (final_report_run env data_path format_1f
              (world (for_each (agents (coordinator (ext w))) BaseAgent.shutdown (stopping w))))
    as (_ & Hfile & Hagents' & Hcoord' & Hunit' & _).
  split; [reflexivity|].
  split; [rewrite Hcoord', Hcoord; reflexivity|].
  split.
  { intros id Hid. unfold active, agent_of in *. rewrite Hagents', Hactive.
    rewrite bool_decide_eq_true_2 by exact Hid. reflexivity. }
  split.
  { rewrite Hunit', Hunit. unfold stopping. cbn [ext icu_unit devices].
    apply Forall_forall. intros d Hd. apply list_elem_of_fmap in Hd as (d0 & -> & _).
    reflexivity. }
  split; [|exact Hfile].
  rewrite Hcoord', Hcoord. unfold stopping.
  cbn [ext coordinator tasks WorkflowCoordinator.set_tasks].
  apply Forall_forall. intros t Ht. apply list_elem_of_fmap in Ht as (t0 & -> & _).
  reflexivity.
Qed.

Lemma stop_simulation_unit_and_tasks w :
  (forall id, id ∈ agents (coordinator (ext w)) -> agent_of id w <> None) ->
  let o := WorkflowCoordinator.stop_simulation env data_path format_1f w in
  devices (icu_unit (ext (world o)))
  = map MockDevice.stop_simulation (devices (icu_unit (ext w))) /\
  tasks (coordinator (ext (world o)))
  = map (fun t => WorkflowCoordinator.awaited
                    (if task_done t then t else WorkflowCoordinator.cancel t))
        (tasks (coordinator (ext w))).
Proof.
  intros Hall. cbv zeta.
  destruct (stop_simulation_run w Hall) as (evs & Hrun).
  assert (Hworld : world (WorkflowCoordinator.stop_simulation env data_path format_1f w)
                   = world (WorkflowCoordinator._generate_final_report env data_path format_1f
                              (world (for_each (agents (coordinator (ext w))) BaseAgent.shutdown
                                        (stopping w)))))
    by (rewrite Hrun; reflexivity).
  rewrite Hworld.
  destruct (shutdown_all (agents (coordinator (ext w))) (stopping w) Hall)
    as (_ & _ & _ & Hcoord & Hunit & _).
  destruct (final_report_run env data_path format_1f
              (world (for_each (agents (coordinator (ext w))) BaseAgent.shutdown (stopping w))))
    as (_ & _ & _ & Hcoord' & Hunit' & _).
  rewrite Hcoord', Hcoord, Hunit', Hunit. unfold stopping.
  cbn [ext icu_unit devices coordinator tasks WorkflowCoordinator.set_tasks].
  split; [reflexivity|]. rewrite map_map. reflexivity.
Qed.
End StopSimulation.

(** C7, amended.  [start_simulation] called while the running flag is set
    is a no-op: it prints a warning and returns, the store is unchanged (no
    task is created, the flag stays).  [stop_simulation] has no such guard:
    whether the flag is set or clear, it clears the flag, stops every
    device, cancels every task that is not done and awaits them all, shuts
    every registered agent down and writes the final report. *)
Theorem simulation_lifecycle_guards (env : Env) (data_path : string) (format_1f : Q -> string)
    (w : World Callback Program) :
  (is_running (coordinator (ext w)) = true ->
   forall duration_minutes,
     WorkflowCoordinator.start_simulation duration_minutes w
     = {| world := w; events := [Console "⚠️  Simulation already running"]; result := inr tt |}) /\
  ((forall id, id ∈ agents (coordinator (ext w)) -> agent_of id w <> None) ->
   let o := WorkflowCoordinator.stop_simulation env data_path format_1f w in
   result o = inr tt /\
   is_running (coordinator (ext (world o))) = false /\
   (forall id, id ∈ agents (coordinator (ext w)) -> active id (world o) = Some false) /\
   Forall (fun d => device_is_running d = false) (devices (icu_unit (ext (world o)))) /\
   Forall (fun t => task_done t = true) (tasks (coordinator (ext (world o)))) /\
   files (ext (world o)) !! final_report_path data_path <> None /\
   devices (icu_unit (ext (world o)))
   = map MockDevice.stop_simulation (devices (icu_unit (ext w))) /\
   tasks (coordinator (ext (world o)))
   = map (fun t => WorkflowCoordinator.awaited
                     (if task_done t then t else WorkflowCoordinator.cancel t))
         (tasks (coordinator (ext w)))).
Proof.
  split.
  - intros Hrun duration_minutes. apply start_simulation_running, Hrun.
  - intros Hall. cbv zeta.
    destruct (stop_simulation_effects env data_path format_1f w Hall)
      as (Hres & Hflag & Hactive & Hdevices & Htasks & Hfile).
    repeat (split; [assumption|]).
    pose proof (stop_simulation_unit_and_tasks env data_path format_1f w Hall) as [Hu Ht].
    split; [exact Hu | exact Ht].
Qed.

Lemma simulation_lifecycle_witness :
  let running := world (WorkflowCoordinator.start_simulation 10 wired_world) in
  is_running (coordinator (ext running)) = true /\
  world (WorkflowCoordinator.start_simulation 10 running) = running /\
  is_running (coordinator (ext wired_world)) = false /\
  active "NURSE_001"
    (world (WorkflowCoordinator.stop_simulation example_env "./data" decimal wired_world))
  = Some false.
Proof.
  cbv zeta. split; [vm_compute; reflexivity|]. split.
  - rewrite (proj1 (simulation_lifecycle_guards example_env "./data" decimal
                      (world (WorkflowCoordinator.start_simulation 10 wired_world)))
               ltac:(vm_compute; reflexivity) 10%Z).
    reflexivity.
  - split; [vm_compute; reflexivity|].
    refine (proj1 (proj2 (proj2 (proj2 (simulation_lifecycle_guards example_env "./data" decimal
                                          wired_world) _))) "NURSE_001" _).
    + intros id Hid.
      assert (E : agents (coordinator (ext wired_world))
                  = ["PHYSICIAN_001"; "NURSE_001"; "PHARMACIST_001"])
        by (vm_compute; reflexivity).
      rewrite E in Hid.
      repeat (apply elem_of_cons in Hid as [->|Hid]; [vm_compute; discriminate|]).
      apply elem_of_nil in Hid. destruct Hid.
    + apply (bool_decide_unpack _). vm_compute. exact I.
Defined.

(** The claim as stated fails for [stop_simulation]: called while the
    running flag is clear it still shuts the agents down and writes the
    final report. *)
Lemma stop_simulation_has_no_guard :
  let o := WorkflowCoordinator.stop_simulation example_env "./data" decimal wired_world in
  is_running (coordinator (ext wired_world)) = false /\
  active "PHYSICIAN_001" wired_world = Some true /\
  files (ext wired_world) !! "./data/final_report.json" = None /\
  result o = inr tt /\
  active "PHYSICIAN_001" (world o) = Some false /\
  (dict_get "agents_deployed" <$> files (ext (world o)) !! "./data/final_report.json")
  = Some (Some (VInt 3)).
Proof. vm_compute. repeat split. Qed.

(** ** More about the bus *)

Lemma dict_get_set_ne k k' v d : k <> k' -> dict_get k' (dict_set k v d) = dict_get k' d.
Proof.
  intros Hne. induction d as [|[k0 v0] d IH]; cbn [dict_set dict_get].
  - rewrite (proj2 (String.eqb_neq k' k)) by congruence. reflexivity.
  - destruct (String.eqb k k0) eqn:E; cbn [dict_get].
    + apply String.eqb_eq in E. subst k0.
      rewrite (proj2 (String.eqb_neq k' k)) by congruence. reflexivity.
    + rewrite IH. reflexivity.
Qed.

Lemma appended_to_publish {Cb Ext : Type} (env : Env) (call : Cb -> string -> Dict -> M Cb Ext unit)
    (topic topic' : string) (d : Dict) (w : World Cb Ext) :
  appended_to topic' (events (publish env call topic (Mapping d) w))
  = if String.eqb topic topic' then [enriched_by env topic d w] else [].
Proof.
  rewrite publish_mapping. cbn [events].
  change (Stored topic ?e :: ?l) with ([Stored (Cb:=Cb) topic e] ++ l).
  rewrite appended_to_app, loop_events_exact, appended_to_loop, app_nil_r.
  cbn [appended_to flat_map]. rewrite app_nil_r. reflexivity.
Qed.

(** X1.  [publish] hands on the payload as it got it: the stored message
    has, for every key other than the three metadata keys, the value the
    caller's dict has for it (and none where the caller's dict has none).
    The metadata keys are always those of [publish] itself: a [_topic],
    [_timestamp] or [_id] the caller put in the dict is overwritten. *)
Theorem publish_keeps_payload_and_stamps_metadata {Cb Ext : Type} (env : Env)
    (call : Cb -> string -> Dict -> M Cb Ext unit)
    (topic : string) (d : Dict) (w : World Cb Ext) :
  let o := publish env call topic (Mapping d) w in
  exists enriched,
    appended_to topic (events o) = [enriched] /\
    (forall k, k <> "_topic" -> k <> "_timestamp" -> k <> "_id" ->
               dict_get k enriched = dict_get k d) /\
    dict_get "_topic" enriched = Some (VStr topic) /\
    dict_get "_timestamp" enriched = Some (VStr (isoformat env (clock env (clock_reads w)))) /\
    dict_get "_id" enriched
    = Some (VStr (topic +:+ "_" +:+ pretty (length (buffer topic (message_bus w))))).
Proof.
  cbv zeta. exists (enriched_by env topic d w).
  rewrite appended_to_publish, String.eqb_refl.
  unfold enriched_by, metadata, dict_update. cbn [fold_left fst snd].
  split; [reflexivity|]. split; [|split; [|split]].
  - intros k H1 H2 H3. rewrite !dict_get_set_ne by congruence. reflexivity.
  - rewrite !dict_get_set_ne by discriminate. apply dict_get_set_eq.
  - rewrite dict_get_set_ne by discriminate. apply dict_get_set_eq.
  - apply dict_get_set_eq.
Qed.

Lemma get_messages_run {Cb Ext : Type} (topic : string) (count : Z) (w : World Cb Ext) :
  get_messages topic count w
  = {| world := set_bus {| topics := <[topic := buffer topic (message_bus w)]>
                                       (topics (message_bus w));
                           subscribers := subscribers (message_bus w) |} w;
       events := [];
       result := inr (match buffer topic (message_bus w) with
                      | [] => []
                      | _ => slice_from (- count) (buffer topic (message_bus w))
                      end) |}.
Proof. reflexivity. Qed.

Lemma buffer_touch {Cb : Type} (topic t : string) (b : MockMessageBus Cb) :
  buffer t {| topics := <[topic := buffer topic b]> (topics b); subscribers := subscribers b |}
  = buffer t b.
Proof.
  rewrite buffer_insert. destruct (decide (topic = t)) as [->|]; [reflexivity|].
  destruct b; reflexivity.
Qed.

(** X2.  [get_messages] returns a suffix of the topic's buffer, oldest
    message first: for a positive [count] the last [count] messages (all of
    them when there are fewer), and for a [count] that is zero or negative
    the buffer without its first [-count] messages, since [messages[-count:]]
    then counts from the front.  It changes no buffer and no subscriber
    list, and it never raises. *)
Theorem get_messages_returns_a_suffix {Cb Ext : Type} (topic : string) (count : Z)
    (w : World Cb Ext) :
  let q := buffer topic (message_bus w) in
  let o := get_messages topic count w in
  result o = inr (if (0 <? count)%Z then drop (length q - Z.to_nat count) q
                  else drop (Z.to_nat (- count)) q) /\
  (forall t, buffer t (message_bus (world o)) = buffer t (message_bus w)) /\
  same_subscribers w (world o) /\
  events o = [].
Proof.
  cbv zeta. rewrite get_messages_run. cbn [result world events message_bus set_bus].
  split; [|split; [|split]].
  - f_equal. destruct (buffer topic (message_bus w)) as [|m q] eqn:E.
    + rewrite !drop_nil. destruct (0 <? count)%Z; reflexivity.
    + unfold slice_from. set (l := m :: q).
      destruct (0 <? count)%Z eqn:Hc.
      * apply Z.ltb_lt in Hc.
        rewrite (proj2 (Z.ltb_lt (- count) 0)) by lia.
        f_equal. lia.
      * apply Z.ltb_ge in Hc.
        rewrite (proj2 (Z.ltb_ge (- count) 0)) by lia.
        destruct (Z.le_gt_cases (- count) (Z.of_nat (length l))) as [Hle|Hgt].
        -- rewrite Z.min_l by exact Hle. reflexivity.
        -- rewrite Z.min_r by lia. rewrite Nat2Z.id.
           rewrite !drop_ge by lia. reflexivity.
  - intros t. apply buffer_touch.
  - intros t. unfold subscribed. reflexivity.
  - reflexivity.
Qed.

(** X3.  Reading a topic registers it: [topics] is a [defaultdict], so
    after [get_messages] the statistics list the topic with the length of
    its buffer, and a topic nobody ever published to shows up with a count
    of zero.  The other counts stay as they were. *)
Theorem get_messages_registers_the_topic {Cb Ext : Type} (topic : string) (count : Z)
    (w : World Cb Ext) :
  let w' := world (get_messages topic count w) in
  exists stats stats' : gmap string nat,
    result (get_topic_stats w) = inr stats /\
    result (get_topic_stats w') = inr stats' /\
    stats' = <[topic := length (buffer topic (message_bus w))]> stats /\
    (stats !! topic = None -> stats' !! topic = Some 0) /\
    (forall t, t <> topic -> stats' !! t = stats !! t).
Proof.
  cbv zeta. rewrite get_messages_run. cbn [world].
  eexists _, _. split; [reflexivity|]. split; [reflexivity|].
  cbn [message_bus set_bus topics]. rewrite fmap_insert.
  split; [reflexivity|]. split.
  - intros Hnone. rewrite lookup_insert_eq. f_equal.
    rewrite lookup_fmap in Hnone. unfold buffer.
    destruct (topics (message_bus w) !! topic); [discriminate | reflexivity].
  - intros t Hne. rewrite lookup_insert_ne by congruence. reflexivity.
Qed.

(** X4.  The shared state is a last-write-wins store: [get_state] returns
    the value of the latest [set_state] for the key, whatever that value is
    (a falsy value such as [0] or an empty dict included, since the test is
    on the stored entry), and [None] for a key that was never set.  Setting
    a key leaves every other key, the buffers and the subscribers alone. *)
Theorem get_state_returns_last_set_value {Cb : Type} (env : Env) (key key' : string)
    (value : PyObject) (w : World Cb BusState) :
  let w' := world (set_state env key value w) in
  result (set_state env key value w) = inr tt /\
  result (get_state key' w')
  = (if decide (key = key') then inr value else result (get_state key' w)) /\
  (ext w !! key' = None -> result (get_state key' w) = inr (Scalar VNone)) /\
  message_bus w' = message_bus w /\
  world (get_state key' w') = w'.
Proof.
  cbv zeta. unfold set_state, get_state.
  split; [reflexivity|]. split; [|split; [|split]].
  - cbn. destruct (decide (key = key')) as [->|Hne].
    + rewrite lookup_insert_eq. reflexivity.
    + rewrite lookup_insert_ne by exact Hne. reflexivity.
  - intros Hnone. cbn. rewrite Hnone. reflexivity.
  - reflexivity.
  - reflexivity.
Qed.
(** ** What handling a message can change *)

Section Footprint.
Variable env : Env.
Variable ts : list string.
Hypothesis decisions_in_ts : "agent_decisions" ∈ ts.
Implicit Types w : World Callback Program.

Local Abbreviation reach := (preserves (Cb:=Callback) (Ext:=Program) (rtc (touches ts))).

Lemma reach_bind {A B} (m : Prog A) (k : A -> Prog B) :
  reach m -> (forall a, reach (k a)) -> reach (bind m k).
Proof. apply preserves_bind. intros w1 w2 w3. apply rtc_trans. Qed.

Lemma reach_try_except {A} (m : Prog A) h :
  reach m -> (forall e, reach (h e)) -> reach (try_except m h).
Proof. apply preserves_try_except. intros w1 w2 w3. apply rtc_trans. Qed.

Lemma reach_same {A} (m : Prog A) : (forall w, world (m w) = w) -> reach m.
Proof. intros H w. rewrite H. apply rtc_refl. Qed.

Lemma reach_agent self : reach (agent self).
Proof. apply reach_same. intros w. unfold agent. destruct (_ !! _); reflexivity. Qed.

Lemma reach_now : reach (now env).
Proof. intros w. apply rtc_once, clock_read. Qed.

Lemma reach_draw_uuid : reach (draw_uuid env).
Proof. intros w. apply rtc_once, uuid_drawn. Qed.

Lemma reach_entry topic enriched w :
  topic ∈ ts -> rtc (touches ts) w (loop_entry topic enriched w).
Proof.
  intros Ht.
  eapply rtc_l; [apply clock_read|].
  eapply rtc_l; [apply (message_appended ts _ topic enriched Ht)|].
  apply rtc_once. exact (subscribers_read ts _ topic Ht).
Qed.

Section Handlers.
Variable call : Callback -> string -> Dict -> Prog unit.
Hypothesis call_reach : forall c topic message, reach (call c topic message).

Lemma reach_publish topic message : topic ∈ ts -> reach (publish env call topic message).
Proof.
  intros Ht w. destruct message as [d|v];
    [rewrite publish_mapping | rewrite publish_scalar; apply rtc_refl].
  cbn [world]. eapply rtc_trans; [apply reach_entry, Ht|].
  apply preserves_for_each; [intros w'; apply rtc_refl | intros w1 w2 w3; apply rtc_trans |].
  intros c w'. rewrite notify_world. apply call_reach.
Qed.

Lemma reach_make_decision cls self patient_id context :
  reach (make_decision env call cls self patient_id context).
Proof.
  unfold make_decision, BaseAgent.make_decision.
  apply reach_bind; [apply reach_now | intros start].
  apply reach_try_except.
  - apply reach_bind.
    { destruct cls;
        (apply reach_bind; [|intros _; apply reach_same; reflexivity]);
        intros w; apply rtc_once, confidence_appended. }
    intros decision.
    apply reach_bind; [apply reach_agent | intros a].
    apply reach_bind; [apply reach_now | intros stamp].
    apply reach_bind; [apply reach_draw_uuid | intros uid].
    apply reach_bind; [apply reach_now | intros finish].
    apply reach_bind; [intros w; apply rtc_once, metrics_tracked | intros _].
    apply reach_bind; [apply reach_now | intros last].
    apply reach_bind; [intros w; apply rtc_once, decision_time_set | intros _].
    apply reach_bind; [apply reach_publish, decisions_in_ts | intros _].
    apply reach_bind; [apply reach_same; reflexivity | intros _; apply reach_same; reflexivity].
  - intros e.
    apply reach_bind; [apply reach_same; reflexivity | intros _].
    apply reach_bind; [apply reach_agent | intros a].
    apply reach_bind; [apply reach_now | intros stamp; apply reach_same; reflexivity].
Qed.

Lemma reach_handle_vitals self topic message :
  reach (PhysicianAgent._handle_vitals env call self topic message).
Proof.
  unfold PhysicianAgent._handle_vitals.
  apply reach_bind; [apply reach_agent | intros a].
  destruct (assigned_patient _ a) as [patient_id|]; [|apply reach_same; reflexivity].
  destruct (PhysicianAgent.thresholds_of _) as [[low high]|]; [|apply reach_same; reflexivity].
  apply reach_bind; [apply reach_same; reflexivity | intros below].
  apply reach_bind; [destruct below; apply reach_same; reflexivity | intros critical].
  destruct critical; [|apply reach_same; reflexivity].
  unfold PhysicianAgent._make_urgent_decision.
  apply reach_bind; [apply (reach_make_decision Physician) | intros _; apply reach_same; reflexivity].
Qed.

Lemma reach_handle_alerts self topic message :
  reach (PhysicianAgent._handle_alerts env call self topic message).
Proof.
  unfold PhysicianAgent._handle_alerts.
  apply reach_bind; [apply reach_agent | intros a].
  destruct (assigned_patient _ a) as [patient_id|]; [|apply reach_same; reflexivity].
  destruct (PhysicianAgent.severe message); [|apply reach_same; reflexivity].
  unfold PhysicianAgent._make_urgent_decision.
  apply reach_bind; [apply (reach_make_decision Physician) | intros _; apply reach_same; reflexivity].
Qed.

Lemma reach_handle_vitals_monitoring self topic message :
  reach (NurseAgent._handle_vitals_monitoring env call self topic message).
Proof.
  unfold NurseAgent._handle_vitals_monitoring.
  apply reach_bind; [apply reach_agent | intros a].
  destruct (assigned_patient _ a) as [patient_id|]; [|apply reach_same; reflexivity].
  apply reach_bind;
    [destruct (NurseAgent.is_temperature _); apply reach_same; reflexivity | intros fever].
  destruct fever; [|apply reach_same; reflexivity].
  unfold NurseAgent._recommend_nursing_intervention.
  apply reach_bind; [apply reach_same; reflexivity | intros what].
  apply reach_bind; [apply reach_same; reflexivity | intros details].
  apply reach_bind; [apply (reach_make_decision Nurse) | intros _; apply reach_same; reflexivity].
Qed.

Lemma reach_handle_medication_review self topic message :
  reach (PharmacistAgent._handle_medication_review env call self topic message).
Proof.
  unfold PharmacistAgent._handle_medication_review.
  apply reach_bind; [apply reach_agent | intros a].
  destruct (assigned_patient _ a) as [patient_id|]; [|apply reach_same; reflexivity].
  apply reach_bind; [apply reach_same; reflexivity | intros drug_name].
  destruct (existsb _ _); [|apply reach_same; reflexivity].
  unfold PharmacistAgent._check_drug_interactions.
  apply reach_bind; [apply (reach_make_decision Pharmacist) | intros _; apply reach_same; reflexivity].
Qed.
End Handlers.

(** Every subscriber callback of the program, at every depth of nested
    calls, changes the store by such steps only. *)
Lemma invoke_reach depth : forall c topic message, reach (invoke env depth c topic message).
Proof.
  induction depth as [|d IH]; intros c topic message.
  - apply reach_same. reflexivity.
  - destruct c as [self|self|self|self| |]; cbn [invoke].
    + apply reach_handle_vitals, IH.
    + apply reach_handle_alerts, IH.
    + apply reach_handle_vitals_monitoring, IH.
    + apply reach_handle_medication_review, IH.
    + unfold WorkflowCoordinator._monitor_messages.
      apply reach_bind; [intros w; apply rtc_once, message_counted | intros _].
      destruct (_ && _); apply reach_same; reflexivity.
    + unfold WorkflowCoordinator._track_decisions.
      apply reach_bind; [intros w; apply rtc_once, decision_counted | intros _].
      destruct (WorkflowCoordinator.is_high _); apply reach_same; reflexivity.
Qed.
End Footprint.

Lemma touches_mono (ts ts' : list string) (w w' : World Callback Program) :
  (forall t, t ∈ ts -> t ∈ ts') -> touches ts w w' -> touches ts' w w'.
Proof.
  intros Hsub H. destruct H; try (constructor; fail);
    [apply message_appended | apply subscribers_read]; apply Hsub; assumption.
Qed.

Lemma reach_mono (ts ts' : list string) (w w' : World Callback Program) :
  (forall t, t ∈ ts -> t ∈ ts') -> rtc (touches ts) w w' -> rtc (touches ts') w w'.
Proof.
  intros Hsub H. induction H as [|w1 w2 w3 H12 _ IH]; [apply rtc_refl|].
  eapply rtc_l; [eapply touches_mono; eassumption | exact IH].
Qed.

(** A run of publishes changes the store by such steps only, for the
    topics it publishes to and [agent_decisions]. *)
Lemma publish_all_reach (env : Env) (depth : nat) (script : list (string * PyObject)) :
  forall w : World Callback Program,
  rtc (touches (map fst script ++ ["agent_decisions"])) w
      (world (publish_all env (invoke env depth) script w)).
Proof.
  induction script as [|[t message] script IH]; intros w; [apply rtc_refl|].
  unfold publish_all in *. rewrite for_each_cons, bind_assoc.
  destruct (publish_result env (invoke env depth) t message w) as [b Hb].
  erewrite bind_run by (apply run_eta, Hb).
  erewrite bind_run by reflexivity.
  cbn [world map fst].
  apply rtc_trans with (world (publish env (invoke env depth) t message w)).
  - apply (reach_publish env (t :: map fst script ++ ["agent_decisions"]) (invoke env depth)).
    + intros c topic m. apply invoke_reach.
      apply elem_of_cons. right. apply elem_of_app. right.
      apply elem_of_cons. left. reflexivity.
    + apply elem_of_cons. left. reflexivity.
  - eapply reach_mono; [|apply IH].
    intros x Hx. apply elem_of_cons. right. exact Hx.
Qed.

(** An invariant of the elementary changes is an invariant of every run. *)
Lemma reach_invariant (ts : list string) (I : World Callback Program -> Prop) :
  (forall w w', touches ts w w' -> I w -> I w') ->
  forall w w', rtc (touches ts) w w' -> I w -> I w'.
Proof.
  intros Hstep w w' H. induction H as [|w1 w2 w3 H12 _ IH]; [tauto|].
  intros H1. apply IH. eapply Hstep; eassumption.
Qed.
(** ** Invariants of message handling *)

Lemma buffer_keep {Cb : Type} (t : string) (b : MockMessageBus Cb) (s : gmap string (list Cb)) :
  buffer t {| topics := topics b; subscribers := s |} = buffer t b.
Proof. reflexivity. Qed.

Lemma touches_bounded ts (w w' : World Callback Program) :
  touches ts w w' -> bounded w -> bounded w'.
Proof.
  intros H Hb. destruct H; try exact Hb; intros t.
  - cbn [message_bus set_bus]. rewrite buffer_insert.
    destruct (decide (topic = t)) as [->|_].
    + apply deque_append_bounded, Hb.
    + specialize (Hb t). destruct (message_bus w). exact Hb.
Qed.

(** X5.  No topic ever holds more than 1000 messages: starting from a
    bus whose buffers are within the bound (an empty bus, for one), after
    any run of publishes, with the subscribers of the program called and
    publishing decisions in their turn, every buffer is within the bound,
    and so is every count that [get_topic_stats] reports. *)
Theorem buffers_never_exceed_their_bound (env : Env) (depth : nat)
    (script : list (string * PyObject)) (w : World Callback Program)
    (Hw : bounded w) :
  let w' := world (publish_all env (invoke env depth) script w) in
  bounded w' /\
  forall stats : gmap string nat,
    result (get_topic_stats w') = inr stats ->
    forall t n, stats !! t = Some n -> n <= 1000.
Proof.
  cbv zeta.
  assert (Hb : bounded (world (publish_all env (invoke env depth) script w))).
  { eapply reach_invariant; [apply touches_bounded | apply publish_all_reach | exact Hw]. }
  split; [exact Hb|].
  intros stats Hstats t n Hn. injection Hstats as <-.
  rewrite lookup_fmap in Hn. specialize (Hb t). unfold buffer in Hb.
  destruct (topics _ !! t) as [q|]; [|discriminate].
  injection Hn as <-. exact Hb.
Qed.

Lemma buffers_never_exceed_their_bound_witness :
  let script := [("vitals", Mapping (vitals_reading "PATIENT_1" "heart_rate" (VInt 40)));
                 ("alerts", Scalar VNone)] in
  bounded (world (publish_all example_env (invoke example_env 3) script wired_world)).
Proof.
  apply (buffers_never_exceed_their_bound example_env 3).
  intros t. unfold buffer.
  destruct (topics (message_bus wired_world) !! t) as [q|] eqn:E; [|cbn; lia].
  vm_compute in E. discriminate.
Defined.

Lemma standing_alter (f : AgentState -> AgentState) self (m : gmap string AgentState) :
  (forall a, standing (f a) = standing a) ->
  standing <$> alter f self m = standing <$> m.
Proof.
  intros Hf. apply map_eq. intros id. rewrite !lookup_fmap.
  destruct (decide (self = id)) as [->|Hne].
  - rewrite lookup_alter_eq. destruct (m !! id); cbn; [rewrite Hf|]; reflexivity.
  - rewrite lookup_alter_ne by exact Hne. reflexivity.
Qed.

Lemma touches_standing ts (w w' : World Callback Program) :
  touches ts w w' ->
  standing <$> agent_objects (ext w') = standing <$> agent_objects (ext w).
Proof.
  intros H. destruct H; try reflexivity;
    cbn [ext set_agents set_ext agent_objects]; apply standing_alter; reflexivity.
Qed.

Lemma touches_setup ts (w w' : World Callback Program) :
  touches ts w w' ->
  setup (coordinator (ext w')) = setup (coordinator (ext w)) /\
  icu_unit (ext w') = icu_unit (ext w) /\
  files (ext w') = files (ext w).
Proof. intros H. destruct H; repeat split. Qed.

Lemma touches_subscribers ts (w w' : World Callback Program) :
  touches ts w w' -> same_subscribers w w'.
Proof.
  intros H. destruct H; try (intros topic'; reflexivity).
  intros topic'. cbn [message_bus set_bus]. rewrite subscribed_insert.
  destruct (decide (topic = topic')) as [->|_]; [reflexivity|].
  destruct (message_bus w). reflexivity.
Qed.

Lemma touches_other_buffers ts topic' (w w' : World Callback Program) :
  topic' ∉ ts -> touches ts w w' ->
  buffer topic' (message_bus w') = buffer topic' (message_bus w).
Proof.
  intros Ht H. destruct H; try reflexivity.
  cbn [message_bus set_bus]. rewrite buffer_insert.
  destruct (decide (topic = topic')) as [->|_]; [contradiction|].
  destruct (message_bus w). reflexivity.
Qed.

(** X6.  Handling messages changes no assignment and no flag: after any
    run of publishes, with the subscribers of the program called, every
    agent has the identity, the [is_active] flag and the assigned patients
    it had, no agent object has appeared or gone, the coordinator has the
    agents, patients, [is_running] flag, tasks and start time it had, the
    unit and the written files are as they were, every topic has the
    subscribers it had, and the buffers of the topics that were not
    published to (other than [agent_decisions]) are as they were. *)
Theorem message_handling_leaves_the_setup_alone (env : Env) (depth : nat)
    (script : list (string * PyObject)) (w : World Callback Program) :
  let w' := world (publish_all env (invoke env depth) script w) in
  standing <$> agent_objects (ext w') = standing <$> agent_objects (ext w) /\
  setup (coordinator (ext w')) = setup (coordinator (ext w)) /\
  icu_unit (ext w') = icu_unit (ext w) /\
  files (ext w') = files (ext w) /\
  same_subscribers w w' /\
  (forall t, t ∉ map fst script -> t <> "agent_decisions" ->
             buffer t (message_bus w') = buffer t (message_bus w)).
Proof.
  cbv zeta. pose proof (publish_all_reach env depth script w) as Hreach.
  set (w' := world (publish_all env (invoke env depth) script w)) in *.
  set (ts := map fst script ++ ["agent_decisions"]) in *.
  split; [|split; [|split; [|split; [|split]]]].
  - apply (reach_invariant ts
             (fun x => standing <$> agent_objects (ext x) = standing <$> agent_objects (ext w)))
      with (w := w); [|exact Hreach|reflexivity].
    intros w1 w2 H12 H1. rewrite <- H1. eapply touches_standing, H12.
  - apply (reach_invariant ts
             (fun x => setup (coordinator (ext x)) = setup (coordinator (ext w))))
      with (w := w); [|exact Hreach|reflexivity].
    intros w1 w2 H12 H1. rewrite <- H1. eapply touches_setup, H12.
  - apply (reach_invariant ts (fun x => icu_unit (ext x) = icu_unit (ext w)))
      with (w := w); [|exact Hreach|reflexivity].
    intros w1 w2 H12 H1. rewrite <- H1. eapply touches_setup, H12.
  - apply (reach_invariant ts (fun x => files (ext x) = files (ext w)))
      with (w := w); [|exact Hreach|reflexivity].
    intros w1 w2 H12 H1. rewrite <- H1. eapply touches_setup, H12.
  - apply (reach_invariant ts (fun x => same_subscribers w x))
      with (w := w); [|exact Hreach|apply same_subscribers_refl].
    intros w1 w2 H12 H1. eapply same_subscribers_trans; [exact H1|].
    eapply touches_subscribers, H12.
  - intros t Ht Hd.
    apply (reach_invariant ts (fun x => buffer t (message_bus x) = buffer t (message_bus w)))
      with (w := w); [|exact Hreach|reflexivity].
    intros w1 w2 H12 H1. rewrite <- H1. apply (touches_other_buffers ts); [|exact H12].
    subst ts. intros Hin. apply elem_of_app in Hin as [Hin|Hin]; [exact (Ht Hin)|].
    apply elem_of_cons in Hin as [Hin|Hin]; [exact (Hd Hin)|].
    apply elem_of_nil in Hin. exact Hin.
Qed.

Lemma counts_agree_alter (f : AgentState -> AgentState) self (w : World Callback Program) :
  (forall a, decision_count a = length (response_times a) ->
             decision_count (f a) = length (response_times (f a))) ->
  counts_agree w -> counts_agree (set_agents (alter f self) w).
Proof.
  intros Hf Hw id a'. rewrite agent_of_alter.
  destruct (decide (self = id)) as [->|_]; [|apply Hw].
  destruct (agent_of id w) as [a|] eqn:E; [|discriminate].
  cbn. intros H. injection H as <-. apply Hf, (Hw id a E).
Qed.

Lemma touches_counts_agree ts (w w' : World Callback Program) :
  touches ts w w' -> counts_agree w -> counts_agree w'.
Proof.
  intros H Hw. destruct H; try exact Hw;
    (apply counts_agree_alter; [|exact Hw]); intros a Ha; cbn; try exact Ha.
  rewrite length_app, Ha. reflexivity.
Qed.

Lemma average_zero float_sum float_div (xs : list Q) :
  average float_sum float_div xs = VInt 0 <-> length xs = 0.
Proof. destruct xs; cbn; split; intros H; try reflexivity; discriminate. Qed.

(** X7.  An agent has always counted as many decisions as it has recorded
    response times: the property holds for the agents as constructed and
    no run of publishes breaks it.  So the average response time that
    [get_status] reports is taken over [decision_count] samples, and it is
    the integer zero exactly when no decision was made. *)
Theorem decision_count_matches_response_times (env : Env) (float_sum : list Q -> Q)
    (float_div : Q -> nat -> Q) (depth : nat) (script : list (string * PyObject))
    (w : World Callback Program) (Hw : counts_agree w) :
  let w' := world (publish_all env (invoke env depth) script w) in
  counts_agree w' /\
  forall id status,
    result (get_status env float_sum float_div id w') = inr status ->
    (get "decision_count" status = VInt 0 <-> get "avg_response_time" status = VInt 0).
Proof.
  cbv zeta.
  assert (Hc : counts_agree (world (publish_all env (invoke env depth) script w))).
  { eapply reach_invariant; [apply touches_counts_agree | apply publish_all_reach | exact Hw]. }
  split; [exact Hc|].
  intros id status. unfold get_status, agent, bind.
  set (w' := world (publish_all env (invoke env depth) script w)) in *.
  destruct (agent_objects (ext w') !! id) as [a|] eqn:E; cbn; [|discriminate].
  intros [= <-]. unfold get. cbn.
  rewrite average_zero, <- (Hc id a E).
  split; [intros [= H]; lia | intros ->; reflexivity].
Qed.

Lemma decision_count_matches_response_times_witness :
  let script := [("vitals", Mapping (vitals_reading "PATIENT_1" "heart_rate" (VInt 40)))] in
  counts_agree wired_world /\
  counts_agree (world (publish_all example_env (invoke example_env 3) script wired_world)).
Proof.
  assert (H : counts_agree wired_world).
  { intros id a. unfold agent_of.
    apply (map_Forall_lookup_1
             (fun _ a => decision_count a = length (response_times a))).
    apply (bool_decide_unpack _). vm_compute. exact I. }
  split; [exact H|].
  apply (decision_count_matches_response_times example_env (fun _ => 0%Q) (fun q _ => q) 3 _ _ H).
Defined.
(** ** The buffer as a window on the topic *)

Lemma last_n_all {A} (n : nat) (l : list A) : length l <= n -> last_n n l = l.
Proof. intros H. unfold last_n. replace (length l - n) with 0 by lia. reflexivity. Qed.

Lemma last_n_length {A} (n : nat) (l : list A) : length (last_n n l) <= n.
Proof. unfold last_n. rewrite length_drop. lia. Qed.

Lemma last_n_app_last_n {A} (n : nat) (l r : list A) :
  last_n n (last_n n l ++ r) = last_n n (l ++ r).
Proof.
  destruct (Nat.le_gt_cases (length l) n) as [Hle|Hgt].
  - rewrite (last_n_all n l) by exact Hle. reflexivity.
  - unfold last_n. rewrite !length_app, length_drop.
    replace (length l - (length l - n) + length r - n) with (length r) by lia.
    replace (length l + length r - n) with ((length l - n) + length r) by lia.
    rewrite <- drop_drop. f_equal.
    rewrite drop_app_le by lia. reflexivity.
Qed.

Lemma deque_append_last_n (q : list Dict) (m : Dict) :
  length q <= maxlen -> deque_append q m = last_n maxlen (q ++ [m]).
Proof.
  intros Hq. unfold deque_append, last_n. rewrite length_app. cbn [length].
  destruct (length q <? maxlen) eqn:E.
  - apply Nat.ltb_lt in E. replace (length q + 1 - maxlen) with 0 by lia. reflexivity.
  - apply Nat.ltb_ge in E. replace (length q + 1 - maxlen) with 1 by lia.
    rewrite drop_app_le by (unfold maxlen in *; lia). reflexivity.
Qed.

Section Window.
Context {Cb Ext : Type}.
Variable env : Env.
Variable call : Cb -> string -> Dict -> M Cb Ext unit.
Variable topic : string.
Hypothesis call_keeps_buffer :
  forall c t m, preserves (same_buffer topic) (call c t m).

Lemma publish_buffer t message (w : World Cb Ext) :
  let o := publish env call t message w in
  buffer topic (message_bus (world o))
  = fold_left deque_append (appended_to topic (events o)) (buffer topic (message_bus w)).
Proof.
  cbv zeta. destruct message as [d|v]; [|rewrite publish_scalar; reflexivity].
  rewrite appended_to_publish. rewrite publish_mapping. cbn [world].
  transitivity (buffer topic (message_bus (loop_entry t (enriched_by env t d w) w))).
  - apply (preserves_for_each (same_buffer topic)).
    + intros w'. reflexivity.
    + intros w1 w2 w3 H12 H23. unfold same_buffer in *. congruence.
    + intros c w'. unfold same_buffer. rewrite notify_world. apply call_keeps_buffer.
  - unfold loop_entry. cbn [message_bus]. rewrite buffer_insert.
    destruct (decide (t = topic)) as [->|Hne].
    + rewrite String.eqb_refl. reflexivity.
    + rewrite (proj2 (String.eqb_neq t topic)) by exact Hne.
      cbn [fold_left]. destruct (message_bus w). reflexivity.
Qed.

Lemma publish_all_buffer script : forall w : World Cb Ext,
  length (buffer topic (message_bus w)) <= maxlen ->
  let o := publish_all env call script w in
  buffer topic (message_bus (world o))
  = last_n maxlen (buffer topic (message_bus w) ++ appended_to topic (events o)).
Proof.
  induction script as [|[t message] script IH]; intros w Hw; cbv zeta.
  - cbn [publish_all for_each ret world events appended_to flat_map].
    rewrite app_nil_r. rewrite last_n_all by exact Hw. reflexivity.
  - unfold publish_all in *. rewrite for_each_cons, bind_assoc.
    destruct (publish_result env call t message w) as [b Hb].
    erewrite bind_run by (apply run_eta, Hb).
    erewrite bind_run by reflexivity.
    cbn [world events fst snd app].
    pose proof (publish_buffer t message w) as Hp. cbv zeta in Hp.
    set (o := publish env call t message w) in *.
    assert (Hone : buffer topic (message_bus (world o))
                   = last_n maxlen (buffer topic (message_bus w) ++ appended_to topic (events o))).
    { rewrite Hp. destruct message as [d|v].
      - subst o. rewrite appended_to_publish.
        destruct (String.eqb t topic); cbn [fold_left].
        + apply deque_append_last_n, Hw.
        + rewrite app_nil_r. rewrite last_n_all by exact Hw. reflexivity.
      - subst o. rewrite publish_scalar. cbn [events appended_to flat_map fold_left app].
        rewrite app_nil_r. rewrite last_n_all by exact Hw. reflexivity. }
    rewrite IH by (rewrite Hone; apply last_n_length).
    rewrite appended_to_app, Hone, app_assoc. apply last_n_app_last_n.
Qed.
End Window.

(** X8.  The buffer of a topic is a window on what was published to it:
    as long as no subscriber callback touches the buffer of the topic
    itself, after any run of publishes the buffer holds the last 1000 of
    the messages it held before followed by the messages published to the
    topic since, in publish order: the oldest messages are the ones
    dropped, and nothing is reordered or lost within the window. *)
Theorem buffer_holds_the_most_recent_messages {Cb Ext : Type} (env : Env)
    (call : Cb -> string -> Dict -> M Cb Ext unit) (topic : string)
    (call_keeps_buffer : forall c t m, preserves (same_buffer topic) (call c t m))
    (script : list (string * PyObject)) (w : World Cb Ext)
    (Hw : length (buffer topic (message_bus w)) <= maxlen) :
  let o := publish_all env call script w in
  buffer topic (message_bus (world o))
  = last_n maxlen (buffer topic (message_bus w) ++ appended_to topic (events o)) /\
  length (buffer topic (message_bus (world o))) <= maxlen.
Proof.
  cbv zeta. rewrite (publish_all_buffer env call topic call_keeps_buffer script w Hw).
  split; [reflexivity | apply last_n_length].
Qed.

(** The callbacks of the program store messages on [agent_decisions]
    only. *)
Lemma invoke_keeps_other_buffers (env : Env) (depth : nat) (topic : string) :
  topic <> "agent_decisions" ->
  forall c t m, preserves (same_buffer topic) (invoke env depth c t m).
Proof.
  intros Hne c t m w. unfold same_buffer.
  apply (reach_invariant ["agent_decisions"]
           (fun x => buffer topic (message_bus x) = buffer topic (message_bus w)))
    with (w := w); [| |reflexivity].
  - intros w1 w2 H12 H1. rewrite <- H1.
    apply (touches_other_buffers ["agent_decisions"]); [|exact H12].
    intros Hin. apply elem_of_cons in Hin as [Hin|Hin]; [exact (Hne Hin)|].
    apply elem_of_nil in Hin. exact Hin.
  - apply invoke_reach. apply elem_of_cons. left. reflexivity.
Qed.

Lemma buffer_holds_the_most_recent_messages_witness :
  let script := [("vitals", Mapping (vitals_reading "PATIENT_1" "heart_rate" (VInt 40)));
                 ("alerts", Mapping [("patient_id", VStr "PATIENT_1"); ("severity", VStr "low")]);
                 ("vitals", Mapping (vitals_reading "PATIENT_1" "spo2" (VInt 97)))] in
  let o := publish_all example_env (invoke example_env 3) script wired_world in
  buffer "vitals" (message_bus (world o))
  = last_n maxlen (buffer "vitals" (message_bus wired_world) ++ appended_to "vitals" (events o)) /\
  length (appended_to "vitals" (events o)) = 2.
Proof.
  split; [|vm_compute; reflexivity].
  apply (buffer_holds_the_most_recent_messages example_env (invoke example_env 3) "vitals").
  - apply invoke_keeps_other_buffers. discriminate.
  - vm_compute. lia.
Defined.
(** ** The other handlers *)

Lemma assigned_patient_none (v : Value) (a : AgentState) :
  (forall p, v = VStr p -> p ∉ patients_assigned a) -> assigned_patient v a = None.
Proof.
  intros H. destruct v as [|b|z|q|p]; try reflexivity.
  unfold assigned_patient. rewrite bool_decide_eq_false_2; [reflexivity|].
  apply H. reflexivity.
Qed.

Lemma severe_spec (message : Dict) :
  PhysicianAgent.severe message = true
  <-> get "severity" message = VStr "high" \/ get "severity" message = VStr "critical".
Proof.
  unfold PhysicianAgent.severe. destruct (get "severity" message) as [|b|z|q|s];
    try (split; [discriminate | intros [H|H]; discriminate]).
  rewrite orb_true_iff, !String.eqb_eq.
  split; (intros [H|H]; [left|right]); congruence.
Qed.

Section OtherHandlers.
Variable env : Env.
Variable call : Callback -> string -> Dict -> Prog unit.
Implicit Types w : World Callback Program.

Lemma handle_alerts_run self a topic message w patient_id :
  agent_of self w = Some a ->
  assigned_patient (get "patient_id" message) a = Some patient_id ->
  PhysicianAgent._handle_alerts env call self topic message w
  = if PhysicianAgent.severe message then
      bind (make_decision env call Physician self patient_id
              (urgent_decision env patient_id
                 [("trigger", VStr "clinical_alert"); ("alert_type", get "alert_type" message)]))
           (fun _ => ret tt) w
    else ret tt w.
Proof.
  intros Ha Hp. unfold PhysicianAgent._handle_alerts.
  pure_step. rewrite Hp. cbv iota.
  destruct (PhysicianAgent.severe message); reflexivity.
Qed.

Lemma handle_medication_review_run self a topic message w patient_id :
  agent_of self w = Some a ->
  assigned_patient (get "patient_id" message) a = Some patient_id ->
  PharmacistAgent._handle_medication_review env call self topic message w
  = match PharmacistAgent.drug_name_lower message with
    | inl e => raise e w
    | inr drug_name =>
        if existsb (fun kv => String.eqb (fst kv) drug_name) PharmacistAgent.drug_interactions then
          bind (make_decision env call Pharmacist self patient_id
                  [("patient_id", VStr patient_id);
                   ("recommendation_type", VStr "drug_interaction_alert");
                   ("medication", get "drug_name" message);
                   ("alert", VStr "Potential drug interaction detected");
                   ("confidence_score", VFloat (95 # 100));
                   ("reasoning", VStr "Drug interaction database match")])
               (fun _ => ret tt) w
        else ret tt w
    end.
Proof.
  intros Ha Hp. unfold PharmacistAgent._handle_medication_review.
  pure_step. rewrite Hp. cbv iota.
  destruct (PharmacistAgent.drug_name_lower message) as [e|drug_name].
  - reflexivity.
  - pure_step. destruct (existsb _ _); reflexivity.
Qed.
End OtherHandlers.

(** X9.  A message about a patient the agent is not assigned to is
    ignored by each of the four agent callbacks: when the message has no
    [patient_id], or one that is not a string, or one that is not in the
    agent's list, the callback returns at once, publishes nothing and
    changes nothing. *)
Theorem unassigned_patient_is_ignored (env : Env) (depth : nat) (self : string)
    (a : AgentState) (c : Callback) (topic : string) (message : Dict)
    (w : World Callback Program)
    (Hc : c ∈ [PhysicianAgent_handle_vitals self; PhysicianAgent_handle_alerts self;
               NurseAgent_handle_vitals_monitoring self;
               PharmacistAgent_handle_medication_review self])
    (Hself : agent_of self w = Some a)
    (Hunassigned : forall p, get "patient_id" message = VStr p -> p ∉ patients_assigned a) :
  invoke env (S depth) c topic message w = {| world := w; events := []; result := inr tt |}.
Proof.
  apply assigned_patient_none in Hunassigned.
  repeat (apply elem_of_cons in Hc as [->|Hc]); [| | | |apply elem_of_nil in Hc; contradiction];
    cbn [invoke];
    [unfold PhysicianAgent._handle_vitals | unfold PhysicianAgent._handle_alerts
     | unfold NurseAgent._handle_vitals_monitoring
     | unfold PharmacistAgent._handle_medication_review];
    pure_step; rewrite Hunassigned; reflexivity.
Qed.

Lemma unassigned_patient_is_ignored_witness :
  let message := vitals_reading "PATIENT_2" "heart_rate" (VInt 40) in
  let o := invoke example_env 3 (PhysicianAgent_handle_vitals "PHYSICIAN_001") "vitals" message
             wired_world in
  events o = [] /\ world o = wired_world.
Proof.
  cbv zeta.
  rewrite (unassigned_patient_is_ignored example_env 2 "PHYSICIAN_001"
             (BaseAgent.append_patient "PATIENT_1"
                (BaseAgent.set_is_active true (PhysicianAgent.init "PHYSICIAN_001")))
             (PhysicianAgent_handle_vitals "PHYSICIAN_001") "vitals"
             (vitals_reading "PATIENT_2" "heart_rate" (VInt 40)) wired_world).
  - split; reflexivity.
  - apply elem_of_cons. left. reflexivity.
  - vm_compute. reflexivity.
  - intros p [= <-]. vm_compute. intros H.
    apply elem_of_cons in H as [H|H]; [discriminate | apply elem_of_nil in H; contradiction].
Defined.

(** X10.  A reading whose value is not a number stops the handler with a
    [TypeError]: for an assigned patient, the physician's callback raises
    on a parameter of its threshold table and the nurse's callback on a
    temperature, when the value is missing, [None] or a string.  Nothing
    is published and nothing changes; the exception is left to the caller,
    which for a subscriber is the bus. *)
Theorem reading_without_a_number_raises (env : Env)
    (call : Callback -> string -> Dict -> Prog unit) (self : string) (a : AgentState)
    (topic : string) (message : Dict) (w : World Callback Program) (patient_id : string)
    (Hself : agent_of self w = Some a)
    (Hassigned : assigned_patient (get "patient_id" message) a = Some patient_id)
    (Hvalue : as_number (get "value" message) = None) :
  (forall low high,
     PhysicianAgent.thresholds_of (get "parameter" message) = Some (low, high) ->
     PhysicianAgent._handle_vitals env call self topic message w
     = {| world := w; events := [];
          result := inl (TypeError ("'<' not supported between instances of '"
                                    +:+ type_name (get "value" message) +:+ "' and 'int'")) |}) /\
  (NurseAgent.is_temperature (get "parameter" message) = true ->
   NurseAgent._handle_vitals_monitoring env call self topic message w
   = {| world := w; events := [];
        result := inl (TypeError ("'>' not supported between instances of '"
                                  +:+ type_name (get "value" message) +:+ "' and 'float'")) |}).
Proof.
  split.
  - intros low high Ht. unfold PhysicianAgent._handle_vitals.
    pure_step. rewrite Hassigned, Ht. cbv iota.
    unfold py_lt. rewrite Hvalue. reflexivity.
  - intros Ht. unfold NurseAgent._handle_vitals_monitoring.
    pure_step. rewrite Hassigned, Ht. cbv iota.
    unfold py_gt. rewrite Hvalue. reflexivity.
Qed.

Lemma reading_without_a_number_raises_witness :
  let message := [("patient_id", VStr "PATIENT_1"); ("parameter", VStr "spo2")] in
  result (PhysicianAgent._handle_vitals example_env (invoke example_env 2) "PHYSICIAN_001"
            "vitals" message wired_world)
  = inl (TypeError "'<' not supported between instances of 'NoneType' and 'int'").
Proof.
  cbv zeta.
  rewrite (proj1 (reading_without_a_number_raises example_env (invoke example_env 2)
                    "PHYSICIAN_001"
                    (BaseAgent.append_patient "PATIENT_1"
                       (BaseAgent.set_is_active true (PhysicianAgent.init "PHYSICIAN_001")))
                    "vitals" [("patient_id", VStr "PATIENT_1"); ("parameter", VStr "spo2")]
                    wired_world "PATIENT_1"
                    ltac:(vm_compute; reflexivity) ltac:(vm_compute; reflexivity)
                    ltac:(vm_compute; reflexivity)) 92%Z 100%Z ltac:(vm_compute; reflexivity)).
  reflexivity.
Defined.

(** X11.  Alerts, as the code behaves.  For an alert about an assigned
    patient the physician publishes exactly one decision when the severity
    is [high] or [critical], and nothing otherwise (a missing severity
    included).  As for vitals, the published decision is the one
    [process_patient_data] builds: a [clinical_assessment] of low urgency
    that carries neither the trigger nor the alert type. *)
Theorem physician_alert_decision (env : Env) (depth : nat) (self : string) (a : AgentState)
    (topic : string) (message : Dict) (w : World Callback Program) (patient_id : string)
    (Hself : agent_of self w = Some a)
    (Hassigned : assigned_patient (get "patient_id" message) a = Some patient_id) :
  let o := PhysicianAgent._handle_alerts env (invoke env depth) self topic message w in
  (get "severity" message = VStr "high" \/ get "severity" message = VStr "critical" ->
   result o = inr tt /\
   exists d,
     stored_on "agent_decisions" (events o) = [d] /\
     get "patient_id" d = VStr patient_id /\
     get "recommendation_type" d = VStr "clinical_assessment" /\
     get "urgency" d = VStr "low" /\
     dict_get "trigger" d = None /\
     dict_get "alert_type" d = None) /\
  (get "severity" message <> VStr "high" /\ get "severity" message <> VStr "critical" ->
   o = {| world := w; events := []; result := inr tt |}).
Proof.
  cbv zeta.
  rewrite (handle_alerts_run env (invoke env depth) self a topic message w patient_id)
    by assumption.
  split.
  - intros Hsevere. apply severe_spec in Hsevere. rewrite Hsevere.
    destruct (make_decision_success env depth Physician self a patient_id
                (urgent_decision env patient_id
                   [("trigger", VStr "clinical_alert"); ("alert_type", get "alert_type" message)])
                w Hself)
      as (Hres & _ & _ & _ & _ & Hstored).
    split; [rewrite (bind_inr _ _ _ _ Hres); reflexivity|].
    destruct (then_ret_events _ w _ Hres) as [-> _].
    rewrite Hstored. cbn [String.eqb Ascii.eqb Bool.eqb].
    eexists. split; [reflexivity|]. repeat split.
  - intros [Hhigh Hcritical].
    destruct (PhysicianAgent.severe message) eqn:E; [|reflexivity].
    apply severe_spec in E. tauto.
Qed.

Lemma physician_alert_decision_witness :
  let message := [("patient_id", VStr "PATIENT_1"); ("severity", VStr "critical");
                  ("alert_type", VStr "sepsis")] in
  let o := PhysicianAgent._handle_alerts example_env (invoke example_env 2) "PHYSICIAN_001"
             "alerts" message wired_world in
  exists d,
    stored_on "agent_decisions" (events o) = [d] /\
    get "recommendation_type" d = VStr "clinical_assessment" /\
    dict_get "alert_type" d = None.
Proof.
  destruct (proj1 (physician_alert_decision example_env 2 "PHYSICIAN_001"
                     (BaseAgent.append_patient "PATIENT_1"
                        (BaseAgent.set_is_active true (PhysicianAgent.init "PHYSICIAN_001")))
                     "alerts"
                     [("patient_id", VStr "PATIENT_1"); ("severity", VStr "critical");
                      ("alert_type", VStr "sepsis")]
                     wired_world "PATIENT_1"
                     ltac:(vm_compute; reflexivity) ltac:(vm_compute; reflexivity))
              (or_intror eq_refl))
    as (_ & d & Hd & _ & Htype & _ & _ & Halert).
  exists d. repeat split; assumption.
Defined.

(** X12.  Medication orders, as the code behaves.  For an order about an
    assigned patient the pharmacist publishes exactly one decision when the
    drug name, lower-cased, is [warfarin] or [digoxin], and nothing for any
    other name or when the order names no drug; a drug name that is not a
    string stops the handler with an [AttributeError].  The published
    decision is the [pharmaceutical_care] review that
    [process_patient_data] builds: it names neither the medication nor the
    interaction alert. *)
Theorem pharmacist_medication_decision (env : Env) (depth : nat) (self : string)
    (a : AgentState) (topic : string) (message : Dict) (w : World Callback Program)
    (patient_id : string)
    (Hself : agent_of self w = Some a)
    (Hassigned : assigned_patient (get "patient_id" message) a = Some patient_id) :
  let o := PharmacistAgent._handle_medication_review env (invoke env depth) self topic message w in
  (forall s, dict_get "drug_name" message = Some (VStr s) ->
             lower s = "warfarin" \/ lower s = "digoxin" ->
     result o = inr tt /\
     exists d,
       stored_on "agent_decisions" (events o) = [d] /\
       get "patient_id" d = VStr patient_id /\
       get "recommendation_type" d = VStr "pharmaceutical_care" /\
       dict_get "medication" d = None /\
       dict_get "alert" d = None) /\
  (forall s, dict_get "drug_name" message = Some (VStr s) ->
             lower s <> "warfarin" -> lower s <> "digoxin" ->
     o = {| world := w; events := []; result := inr tt |}) /\
  (dict_get "drug_name" message = None ->
   o = {| world := w; events := []; result := inr tt |}) /\
  (forall v, dict_get "drug_name" message = Some v -> (forall s, v <> VStr s) ->
     o = {| world := w; events := [];
            result := inl (AttributeError ("'" +:+ type_name v
                                           +:+ "' object has no attribute 'lower'")) |}).
Proof.
  cbv zeta.
  rewrite (handle_medication_review_run env (invoke env depth) self a topic message w patient_id)
    by assumption.
  unfold PharmacistAgent.drug_name_lower.
  split; [|split; [|split]].
  - intros s Hs Hname. rewrite Hs.
    assert (Hin : existsb (fun kv => String.eqb (fst kv) (lower s))
                    PharmacistAgent.drug_interactions = true).
    { destruct Hname as [-> | ->]; reflexivity. }
    rewrite Hin.
    match goal with
    | |- context [make_decision env ?call Pharmacist self patient_id ?data] =>
        destruct (make_decision_success env depth Pharmacist self a patient_id data w Hself)
          as (Hres & _ & _ & _ & _ & Hstored)
    end.
    split; [rewrite (bind_inr _ _ _ _ Hres); reflexivity|].
    destruct (then_ret_events _ w _ Hres) as [-> _].
    rewrite Hstored. cbn [String.eqb Ascii.eqb Bool.eqb].
    eexists. split; [reflexivity|]. repeat split.
  - intros s Hs H1 H2. rewrite Hs.
    assert (Hout : existsb (fun kv => String.eqb (fst kv) (lower s))
                     PharmacistAgent.drug_interactions = false).
    { cbn [existsb PharmacistAgent.drug_interactions fst].
      rewrite (proj2 (String.eqb_neq _ _)) by congruence.
      rewrite (proj2 (String.eqb_neq _ _)) by congruence. reflexivity. }
    rewrite Hout. reflexivity.
  - intros Hnone. rewrite Hnone. reflexivity.
  - intros v Hv Hns. rewrite Hv.
    destruct v as [|b|z|q|s]; try reflexivity. exfalso. exact (Hns s eq_refl).
Qed.

Lemma pharmacist_medication_decision_witness :
  let message := [("patient_id", VStr "PATIENT_1"); ("drug_name", VStr "Warfarin")] in
  let o := PharmacistAgent._handle_medication_review example_env (invoke example_env 2)
             "PHARMACIST_001" "medications" message wired_world in
  exists d,
    stored_on "agent_decisions" (events o) = [d] /\
    get "recommendation_type" d = VStr "pharmaceutical_care" /\
    dict_get "medication" d = None.
Proof.
  destruct (proj1 (pharmacist_medication_decision example_env 2 "PHARMACIST_001"
                     (BaseAgent.append_patient "PATIENT_1"
                        (BaseAgent.set_is_active true (PharmacistAgent.init "PHARMACIST_001")))
                     "medications"
                     [("patient_id", VStr "PATIENT_1"); ("drug_name", VStr "Warfarin")]
                     wired_world "PATIENT_1"
                     ltac:(vm_compute; reflexivity) ltac:(vm_compute; reflexivity))
              "Warfarin" eq_refl (or_introl eq_refl))
    as (_ & d & Hd & _ & Htype & Hmed & _).
  exists d. repeat split; assumption.
Defined.
(** ** Decisions and the coordinator *)

Section DecisionAccounting.
Variable env : Env.
Implicit Types w : World Callback Program.

Lemma invoke_inert_coordinator depth c topic m w :
  inert m ->
  coordinator (ext (world (invoke env (S depth) c topic m w))) = counted c (coordinator (ext w)).
Proof.
  intros (Hparam & Hsev & Hdrug).
  destruct c as [self|self|self|self| |]; cbn [invoke counted].
  - unfold PhysicianAgent._handle_vitals.
    destruct (agent_of self w) as [a|] eqn:Ha.
    + erewrite bind_run by (apply agent_run, Ha). cbn [world events result app].
      rewrite (get_absent "parameter") by exact Hparam.
      destruct (assigned_patient _ a); reflexivity.
    + erewrite bind_fail by (apply agent_fail, Ha). reflexivity.
  - unfold PhysicianAgent._handle_alerts.
    destruct (agent_of self w) as [a|] eqn:Ha.
    + erewrite bind_run by (apply agent_run, Ha). cbn [world events result app].
      unfold PhysicianAgent.severe. rewrite (get_absent "severity") by exact Hsev.
      destruct (assigned_patient _ a); reflexivity.
    + erewrite bind_fail by (apply agent_fail, Ha). reflexivity.
  - unfold NurseAgent._handle_vitals_monitoring.
    destruct (agent_of self w) as [a|] eqn:Ha.
    + erewrite bind_run by (apply agent_run, Ha). cbn [world events result app].
      rewrite (get_absent "parameter") by exact Hparam.
      destruct (assigned_patient _ a); reflexivity.
    + erewrite bind_fail by (apply agent_fail, Ha). reflexivity.
  - unfold PharmacistAgent._handle_medication_review.
    destruct (agent_of self w) as [a|] eqn:Ha.
    + erewrite bind_run by (apply agent_run, Ha). cbn [world events result app].
      unfold PharmacistAgent.drug_name_lower. rewrite Hdrug.
      destruct (assigned_patient _ a); reflexivity.
    + erewrite bind_fail by (apply agent_fail, Ha). reflexivity.
  - unfold WorkflowCoordinator._monitor_messages. run.
    destruct (_ && _); reflexivity.
  - unfold WorkflowCoordinator._track_decisions. run.
    destruct (WorkflowCoordinator.is_high _); reflexivity.
Qed.

Lemma loop_inert_coordinator depth topic m subs :
  inert m -> forall w,
  coordinator (ext (world (for_each subs (notify (invoke env (S depth)) topic m) w)))
  = fold_left (fun k c => counted c k) subs (coordinator (ext w)).
Proof.
  intros Hm. induction subs as [|c subs IH]; intros w; [reflexivity|].
  rewrite for_each_cons.
  erewrite bind_run by (apply run_eta, notify_result).
  cbn [world fold_left]. rewrite IH, notify_world, invoke_inert_coordinator by exact Hm.
  reflexivity.
Qed.

Lemma counted_totals (subs : list Callback) : forall k,
  total_decisions (fold_left (fun k c => counted c k) subs k)
  = total_decisions k + occurrences WorkflowCoordinator_track_decisions subs /\
  total_messages (fold_left (fun k c => counted c k) subs k)
  = total_messages k + occurrences WorkflowCoordinator_monitor_messages subs /\
  setup (fold_left (fun k c => counted c k) subs k) = setup k.
Proof.
  induction subs as [|c subs IH]; intros k; cbn [fold_left].
  - unfold occurrences. cbn. repeat split; lia || reflexivity.
  - destruct (IH (counted c k)) as (Hd & Hm & Hs). rewrite Hd, Hm, Hs.
    change (c :: subs) with ([c] ++ subs). rewrite !occurrences_app.
    assert (Ht : occurrences WorkflowCoordinator_track_decisions [c]
                 = match c with WorkflowCoordinator_track_decisions => 1 | _ => 0 end)
      by (destruct c; vm_compute; reflexivity).
    assert (Hn : occurrences WorkflowCoordinator_monitor_messages [c]
                 = match c with WorkflowCoordinator_monitor_messages => 1 | _ => 0 end)
      by (destruct c; vm_compute; reflexivity).
    rewrite Ht, Hn.
    destruct c; cbn [counted WorkflowCoordinator.count_message WorkflowCoordinator.count_decision
                     total_decisions total_messages];
      repeat split; lia || reflexivity.
Qed.
End DecisionAccounting.

(** X13.  Every decision is counted once for each time the coordinator's
    callbacks are registered on [agent_decisions]: a successful
    [make_decision] raises [total_decisions] by the number of registrations
    of [_track_decisions] on the topic and [total_messages] by the number
    of registrations of [_monitor_messages], and changes nothing else in
    the coordinator.  With the one registration of each that
    [_initialize_agents] and [_setup_monitoring] make, both counters go up
    by one. *)
Theorem decisions_are_counted_once_per_registration (env : Env) (depth : nat)
    (cls : AgentClass) (self : string) (a : AgentState) (patient_id : string)
    (context : Dict) (w : World Callback Program)
    (Hself : agent_of self w = Some a) :
  let subs := subscribed "agent_decisions" (message_bus w) in
  let o := make_decision env (invoke env (S depth)) cls self patient_id context w in
  total_decisions (coordinator (ext (world o)))
  = total_decisions (coordinator (ext w)) + occurrences WorkflowCoordinator_track_decisions subs /\
  total_messages (coordinator (ext (world o)))
  = total_messages (coordinator (ext w)) + occurrences WorkflowCoordinator_monitor_messages subs /\
  setup (coordinator (ext (world o))) = setup (coordinator (ext w)).
Proof.
  cbv zeta.
  rewrite (make_decision_run env (S depth) cls self a) by exact Hself.
  cbn [world]. rewrite publish_mapping. cbn [world].
  rewrite loop_inert_coordinator by apply completed_decision_inert.
  apply counted_totals.
Qed.

Lemma decisions_are_counted_once_per_registration_witness :
  let o := make_decision example_env (invoke example_env 2) Nurse "NURSE_001" "PATIENT_1"
             example_context wired_world in
  total_decisions (coordinator (ext (world o))) = 1 /\
  total_messages (coordinator (ext (world o))) = 1.
Proof.
  cbv zeta.
  destruct (decisions_are_counted_once_per_registration example_env 1 Nurse "NURSE_001"
              (BaseAgent.append_patient "PATIENT_1"
                 (BaseAgent.set_is_active true (NurseAgent.init "NURSE_001")))
              "PATIENT_1" example_context wired_world ltac:(vm_compute; reflexivity))
    as (Hd & Hm & _).
  rewrite Hd, Hm. split; vm_compute; reflexivity.
Defined.

(** X14.  No decision that an agent publishes is ever logged as urgent:
    the message [make_decision] stores on [agent_decisions] has urgency
    [low] (physician) or none at all (nurse, pharmacist), whatever context
    the handler passed in, so [_track_decisions] counts it and prints
    nothing.  The [High urgency decision] line of the coordinator is never
    printed for a decision made through [make_decision]. *)
Theorem agent_decisions_are_never_logged_as_urgent (env : Env) (depth : nat)
    (cls : AgentClass) (self : string) (a : AgentState) (patient_id : string)
    (context : Dict) (w : World Callback Program)
    (Hself : agent_of self w = Some a) :
  let o := make_decision env (invoke env depth) cls self patient_id context w in
  exists d,
    stored_on "agent_decisions" (events o) = [d] /\
    get "urgency" d <> VStr "high" /\
    forall topic w',
      WorkflowCoordinator._track_decisions env topic d w'
      = {| world := set_coordinator WorkflowCoordinator.count_decision w';
           events := []; result := inr tt |}.
Proof.
  cbv zeta.
  destruct (make_decision_success env depth cls self a patient_id context w Hself)
    as (_ & _ & _ & _ & _ & Hstored).
  rewrite Hstored. cbn [String.eqb Ascii.eqb Bool.eqb].
  eexists. split; [reflexivity|].
  assert (Hlow : WorkflowCoordinator.is_high
                   (get "urgency"
                      (dict_update (completed_decision env cls a patient_id context w)
                         (metadata env "agent_decisions" (S (S (S (S (clock_reads w)))))
                            (length (buffer "agent_decisions" (message_bus w)))))) = false).
  { destruct cls; reflexivity. }
  split.
  - intros Hhigh. rewrite Hhigh in Hlow. discriminate.
  - intros topic w'. unfold WorkflowCoordinator._track_decisions.
    rewrite Hlow. reflexivity.
Qed.

Lemma agent_decisions_are_never_logged_as_urgent_witness :
  let o := make_decision example_env (invoke example_env 2) Physician "PHYSICIAN_001" "PATIENT_1"
             (urgent_decision example_env "PATIENT_1"
                (critical_vital (vitals_reading "PATIENT_1" "heart_rate" (VInt 160))))
             wired_world in
  exists d, stored_on "agent_decisions" (events o) = [d] /\ get "urgency" d <> VStr "high".
Proof.
  cbv zeta.
  destruct (agent_decisions_are_never_logged_as_urgent example_env 2 Physician "PHYSICIAN_001"
              (BaseAgent.append_patient "PATIENT_1"
                 (BaseAgent.set_is_active true (PhysicianAgent.init "PHYSICIAN_001")))
              "PATIENT_1"
              (urgent_decision example_env "PATIENT_1"
                 (critical_vital (vitals_reading "PATIENT_1" "heart_rate" (VInt 160))))
              wired_world ltac:(vm_compute; reflexivity))
    as (d & Hd & Hu & _).
  exists d. split; assumption.
Defined.

(** X15.  Shutting an agent down does not stop it from deciding:
    [shutdown] clears [is_active] and leaves every subscription in place,
    and no handler reads the flag.  A shut-down physician that is handed a
    critical reading of an assigned patient still publishes a decision
    under its own id, and is still inactive afterwards. *)
Theorem shut_down_agent_still_decides (env : Env) (depth : nat) (self : string)
    (a : AgentState) (topic : string) (message : Dict) (w : World Callback Program)
    (patient_id : string) (low high : Z) (q : Q)
    (Hself : agent_of self w = Some a)
    (Hassigned : assigned_patient (get "patient_id" message) a = Some patient_id)
    (Hparameter : PhysicianAgent.thresholds_of (get "parameter" message) = Some (low, high))
    (Hvalue : as_number (get "value" message) = Some q)
    (Hcritical : (q < inject_Z low \/ inject_Z high < q)%Q) :
  let stopped := world (BaseAgent.shutdown self w) in
  let o := PhysicianAgent._handle_vitals env (invoke env depth) self topic message stopped in
  active self stopped = Some false /\
  message_bus stopped = message_bus w /\
  (exists d, stored_on "agent_decisions" (events o) = [d] /\
             get "agent_id" d = VStr (agent_id a)) /\
  active self (world o) = Some false.
Proof.
  cbv zeta. rewrite (shutdown_run self a w Hself). cbn [world].
  set (stopped := set_agents (alter (BaseAgent.set_is_active false) self) w).
  assert (Hstopped : agent_of self stopped = Some (BaseAgent.set_is_active false a)).
  { unfold stopped. rewrite agent_of_alter, decide_True by reflexivity.
    rewrite Hself. reflexivity. }
  split; [unfold active; rewrite Hstopped; reflexivity|].
  split; [reflexivity|].
  rewrite (handle_vitals_run env (invoke env depth) self (BaseAgent.set_is_active false a)
             topic message stopped patient_id low high q Hstopped Hassigned Hparameter Hvalue).
  assert (Hc : Qltb q (inject_Z low) || Qltb (inject_Z high) q = true).
  { apply orb_true_iff. destruct Hcritical as [H|H]; [left|right]; apply Qltb_lt, H. }
  rewrite Hc.
  destruct (make_decision_success env depth Physician self (BaseAgent.set_is_active false a)
              patient_id (urgent_decision env patient_id (critical_vital message))
              stopped Hstopped)
    as (Hres & Hagents & _ & _ & _ & Hstored).
  destruct (then_ret_events _ stopped _ Hres) as [-> ->].
  split.
  - rewrite Hstored. cbn [String.eqb Ascii.eqb Bool.eqb].
    eexists. split; reflexivity.
  - unfold active, agent_of. rewrite Hagents, lookup_insert_eq. reflexivity.
Qed.

Lemma shut_down_agent_still_decides_witness :
  let stopped := world (BaseAgent.shutdown "PHYSICIAN_001" wired_world) in
  let o := PhysicianAgent._handle_vitals example_env (invoke example_env 2) "PHYSICIAN_001"
             "vitals" (vitals_reading "PATIENT_1" "heart_rate" (VInt 160)) stopped in
  active "PHYSICIAN_001" stopped = Some false /\
  exists d, stored_on "agent_decisions" (events o) = [d].
Proof.
  cbv zeta.
  destruct (shut_down_agent_still_decides example_env 2 "PHYSICIAN_001"
              (BaseAgent.append_patient "PATIENT_1"
                 (BaseAgent.set_is_active true (PhysicianAgent.init "PHYSICIAN_001")))
              "vitals" (vitals_reading "PATIENT_1" "heart_rate" (VInt 160)) wired_world
              "PATIENT_1" 50 120 160
              ltac:(vm_compute; reflexivity) ltac:(vm_compute; reflexivity)
              ltac:(vm_compute; reflexivity) ltac:(vm_compute; reflexivity)
              (or_intror eq_refl))
    as (Hactive & _ & (d & Hd & _) & _).
  split; [exact Hactive|]. exists d. exact Hd.
Defined.
(** ** The unit and the assignment of patients *)

Lemma add_patient_run (patient_id : string) (w : World Callback Program) :
  MockICUUnit.add_patient patient_id w
  = {| world := if bool_decide (patient_id ∈ unit_patients (icu_unit (ext w))) then w
                else set_icu_unit (fun u =>
                       {| unit_id := unit_id u;
                          devices := devices u ++ [monitor_of patient_id];
                          unit_patients := unit_patients u ++ [patient_id] |}) w;
       events := [];
       result := inr tt |}.
Proof.
  unfold MockICUUnit.add_patient.
  etransitivity; [apply bind_pure; reflexivity|]. cbv beta.
  destruct (bool_decide _); reflexivity.
Qed.

Lemma add_patient_consistent (patient_id : string) (w : World Callback Program) :
  let u := icu_unit (ext w) in
  let u' := icu_unit (ext (world (MockICUUnit.add_patient patient_id w))) in
  unit_consistent u ->
  unit_consistent u' /\
  (forall p, p ∈ unit_patients u' <-> p ∈ unit_patients u \/ p = patient_id) /\
  unit_id u' = unit_id u.
Proof.
  cbv zeta. intros [Hnodup Hdevices]. rewrite add_patient_run. cbn [world].
  destruct (bool_decide (patient_id ∈ unit_patients (icu_unit (ext w)))) eqn:E.
  - apply bool_decide_eq_true_1 in E.
    split; [split; assumption|]. split; [|reflexivity].
    intros p. split; [tauto|]. intros [H| ->]; assumption.
  - apply bool_decide_eq_false_1 in E. unfold unit_consistent.
    cbn [ext set_icu_unit set_ext icu_unit unit_patients devices unit_id].
    split; [split|split; [|reflexivity]].
    + apply NoDup_app. split; [exact Hnodup|]. split; [|apply NoDup_singleton].
      intros p Hp Hp'. apply elem_of_cons in Hp' as [->|Hp']; [exact (E Hp)|].
      apply elem_of_nil in Hp'. contradiction.
    + rewrite !map_app, Hdevices. reflexivity.
    + intros p. rewrite elem_of_app, elem_of_cons. split; [|tauto].
      intros [H|[H|H]]; [tauto | tauto | apply elem_of_nil in H; contradiction].
Qed.

(** X16.  The unit has one monitor per patient: [add_patient] adds a
    patient that is new to the unit together with its monitor
    [<patient_id>_MONITOR], and does nothing for a patient the unit already
    has.  So, starting from a unit that lists no patient twice and has one
    monitor for each, after any sequence of [add_patient] calls the unit
    still does, its patients are those it had and those that were added,
    and [get_unit_status] reports as many devices as patients. *)
Theorem add_patient_keeps_one_monitor_per_patient (patient_ids : list string)
    (w : World Callback Program)
    (Hu : unit_consistent (icu_unit (ext w))) :
  let o := for_each patient_ids MockICUUnit.add_patient w in
  let u' := icu_unit (ext (world o)) in
  result o = inr tt /\
  events o = [] /\
  unit_consistent u' /\
  (forall p, p ∈ unit_patients u' <-> p ∈ unit_patients (icu_unit (ext w)) \/ p ∈ patient_ids) /\
  exists status,
    result (get_unit_status (world o)) = inr status /\
    device_count status = patient_count status /\
    status_patients status = unit_patients u'.
Proof.
  cbv zeta. revert w Hu.
  induction patient_ids as [|x ps IH]; intros w Hu.
  - cbn [for_each ret world result events].
    split; [reflexivity|]. split; [reflexivity|]. split; [exact Hu|].
    split.
    + intros p. split; [tauto|]. intros [H|H]; [exact H|]. apply elem_of_nil in H. contradiction.
    + eexists. split; [reflexivity|]. cbn [device_count patient_count status_patients].
      split; [|reflexivity].
      destruct Hu as [_ Hd]. apply (f_equal length) in Hd. rewrite !length_map in Hd. exact Hd.
  - rewrite for_each_cons.
    pose proof (add_patient_consistent x w Hu) as Hstep. cbv zeta in Hstep.
    destruct Hstep as (Hu1 & Hin1 & _).
    erewrite bind_run by (rewrite add_patient_run; reflexivity).
    rewrite add_patient_run in Hu1, Hin1. cbn [world] in Hu1, Hin1.
    cbn [world events result app].
    destruct (IH _ Hu1) as (Hres & Hevs & Hu' & Hin' & Hstatus).
    split; [exact Hres|]. split; [exact Hevs|]. split; [exact Hu'|].
    split; [|exact Hstatus].
    intros p. rewrite Hin', Hin1, elem_of_cons. tauto.
Qed.

Lemma add_patient_keeps_one_monitor_per_patient_witness :
  let o := for_each ["PATIENT_1"; "PATIENT_2"; "PATIENT_1"] MockICUUnit.add_patient
             initial_world in
  unit_consistent (icu_unit (ext initial_world)) /\
  unit_consistent (icu_unit (ext (world o))) /\
  unit_patients (icu_unit (ext (world o))) = ["PATIENT_1"; "PATIENT_2"].
Proof.
  cbv zeta.
  assert (H : unit_consistent (icu_unit (ext initial_world))).
  { split; [apply NoDup_nil_2 | reflexivity]. }
  split; [exact H|]. split; [|vm_compute; reflexivity].
  apply (add_patient_keeps_one_monitor_per_patient ["PATIENT_1"; "PATIENT_2"; "PATIENT_1"]
           initial_world H).
Defined.

Lemma assign_all_elem (ps : list string) : forall assigned p,
  p ∈ assign_all ps assigned <-> p ∈ assigned \/ p ∈ ps.
Proof.
  induction ps as [|x ps IH]; intros assigned p; cbn [assign_all].
  - split; [tauto|]. intros [H|H]; [exact H|]. apply elem_of_nil in H. contradiction.
  - rewrite IH, elem_of_cons. destruct (bool_decide (x ∈ assigned)) eqn:E.
    + apply bool_decide_eq_true_1 in E. split; [tauto|].
      intros [H|[->|H]]; tauto.
    + rewrite elem_of_app, elem_of_cons. split; [|tauto].
      intros [[H|[H|H]]|H]; try tauto. apply elem_of_nil in H. contradiction.
Qed.

Lemma assign_all_prefix (ps : list string) : forall assigned,
  assigned `prefix_of` assign_all ps assigned.
Proof.
  induction ps as [|x ps IH]; intros assigned; cbn [assign_all]; [reflexivity|].
  destruct (bool_decide (x ∈ assigned)); [apply IH|].
  etransitivity; [|apply IH]. apply prefix_app_r. reflexivity.
Qed.

Lemma assign_all_NoDup (ps : list string) : forall assigned,
  NoDup assigned -> NoDup (assign_all ps assigned).
Proof.
  induction ps as [|x ps IH]; intros assigned Hn; cbn [assign_all]; [exact Hn|].
  destruct (bool_decide (x ∈ assigned)) eqn:E; [apply IH, Hn|].
  apply bool_decide_eq_false_1 in E. apply IH, NoDup_app.
  split; [exact Hn|]. split; [|apply NoDup_singleton].
  intros p Hp Hp'. apply elem_of_cons in Hp' as [->|Hp']; [exact (E Hp)|].
  apply elem_of_nil in Hp'. contradiction.
Qed.

Lemma assign_all_fresh (ps : list string) : forall assigned,
  NoDup ps -> (forall p, p ∈ ps -> p ∉ assigned) -> assign_all ps assigned = assigned ++ ps.
Proof.
  induction ps as [|x ps IH]; intros assigned Hn Hfresh; cbn [assign_all].
  - rewrite app_nil_r. reflexivity.
  - apply NoDup_cons in Hn as [Hx Hn].
    rewrite bool_decide_eq_false_2 by (apply Hfresh; left).
    rewrite IH, <- app_assoc; [reflexivity | exact Hn |].
    intros p Hp Hin. apply elem_of_app in Hin as [Hin|Hin].
    + apply (Hfresh p); [right; exact Hp | exact Hin].
    + apply elem_of_cons in Hin as [->|Hin]; [exact (Hx Hp)|].
      apply elem_of_nil in Hin. contradiction.
Qed.

Lemma assign_all_id (ps : list string) : forall assigned,
  (forall p, p ∈ ps -> p ∈ assigned) -> assign_all ps assigned = assigned.
Proof.
  induction ps as [|x ps IH]; intros assigned Hall; cbn [assign_all]; [reflexivity|].
  rewrite bool_decide_eq_true_2 by (apply Hall; left).
  apply IH. intros p Hp. apply Hall. right. exact Hp.
Qed.

Lemma with_patients_twice (ps : list string) (a : AgentState) :
  with_patients ps (with_patients ps a) = with_patients ps a.
Proof.
  unfold with_patients. cbn. f_equal. apply assign_all_id.
  intros p Hp. apply assign_all_elem. right. exact Hp.
Qed.

Lemma only_agents_differ_refl (w : World Callback Program) : only_agents_differ w w.
Proof. repeat split. Qed.

Lemma only_agents_differ_trans (w1 w2 w3 : World Callback Program) :
  only_agents_differ w1 w2 -> only_agents_differ w2 w3 -> only_agents_differ w1 w3.
Proof.
  intros (A1 & B1 & C1 & D1) (A2 & B2 & C2 & D2). repeat split; congruence.
Qed.

Lemma assign_patient_run self a patient_id (w : World Callback Program) :
  agent_of self w = Some a ->
  BaseAgent.assign_patient self patient_id w
  = if bool_decide (patient_id ∈ patients_assigned a) then
      {| world := w; events := []; result := inr tt |}
    else
      {| world := set_agents (alter (BaseAgent.append_patient patient_id) self) w;
         events := [Console ("Assigned patient " +:+ patient_id +:+ " to " +:+ agent_type a)];
         result := inr tt |}.
Proof.
  intros Ha. unfold BaseAgent.assign_patient. pure_step.
  destruct (bool_decide _); reflexivity.
Qed.

Lemma insert_alter_same (f : AgentState -> AgentState) self a' (m : gmap string AgentState) :
  <[self := a']> (alter f self m) = <[self := a']> m.
Proof.
  apply map_eq. intros k. destruct (decide (self = k)) as [->|Hne].
  - rewrite !lookup_insert_eq. reflexivity.
  - rewrite !lookup_insert_ne, lookup_alter_ne by exact Hne. reflexivity.
Qed.

(** The inner loop of [_assign_patients_to_agents], for one agent. *)
Lemma assign_loop self (ps : list string) : forall a (w : World Callback Program),
  agent_of self w = Some a ->
  let o := for_each ps (BaseAgent.assign_patient self) w in
  result o = inr tt /\
  agent_objects (ext (world o)) = <[self := with_patients ps a]> (agent_objects (ext w)) /\
  only_agents_differ w (world o).
Proof.
  induction ps as [|p ps IH]; intros a w Ha; cbv zeta.
  - cbn [for_each ret world result]. split; [reflexivity|].
    split; [|apply only_agents_differ_refl].
    symmetry. unfold with_patients. cbn [assign_all].
    apply insert_id. destruct a. exact Ha.
  - rewrite for_each_cons.
    pose proof (assign_patient_run self a p w Ha) as Hrun.
    destruct (bool_decide (p ∈ patients_assigned a)) eqn:E.
    + erewrite bind_run by exact Hrun. cbn [world result].
      destruct (IH a w Ha) as (Hres & Hagents & Hrest).
      split; [exact Hres|]. split; [|exact Hrest].
      rewrite Hagents. unfold with_patients. cbn [assign_all]. rewrite E. reflexivity.
    + erewrite bind_run by exact Hrun. cbn [world result].
      set (w1 := set_agents (alter (BaseAgent.append_patient p) self) w).
      assert (Ha1 : agent_of self w1 = Some (BaseAgent.append_patient p a)).
      { unfold w1. rewrite agent_of_alter, decide_True by reflexivity. rewrite Ha. reflexivity. }
      destruct (IH _ w1 Ha1) as (Hres & Hagents & Hrest).
      split; [exact Hres|]. split.
      * rewrite Hagents. unfold w1. cbn [ext set_agents set_ext agent_objects].
        rewrite insert_alter_same. unfold with_patients. cbn [assign_all]. rewrite E.
        reflexivity.
      * eapply only_agents_differ_trans; [|exact Hrest]. unfold w1. repeat split.
Qed.

(** The outer loop, over agents that all exist. *)
Lemma assign_loops (ps : list string) (ids : list string) : forall w : World Callback Program,
  (forall id, id ∈ ids -> agent_of id w <> None) ->
  let o := for_each ids (fun agent_id =>
             for_each ps (fun patient_id => BaseAgent.assign_patient agent_id patient_id)) w in
  result o = inr tt /\
  (forall id, agent_of id (world o)
              = if bool_decide (id ∈ ids) then with_patients ps <$> agent_of id w
                else agent_of id w) /\
  only_agents_differ w (world o).
Proof.
  induction ids as [|x ids IH]; intros w Hall; cbv zeta.
  - cbn [for_each ret world result]. repeat split.
  - destruct (agent_of x w) as [a|] eqn:Ha; [|exfalso; apply (Hall x); [left | exact Ha]].
    rewrite for_each_cons.
    destruct (assign_loop x ps a w Ha) as (Hres1 & Hagents1 & Hrest1).
    rewrite (bind_inr _ _ _ tt) by exact Hres1. cbn [world result].
    set (w1 := world (for_each ps (fun patient_id => BaseAgent.assign_patient x patient_id) w)) in *.
    assert (Hlook : forall id, agent_of id w1
                               = if decide (x = id) then Some (with_patients ps a)
                                 else agent_of id w).
    { intros id. unfold agent_of. rewrite Hagents1.
      destruct (decide (x = id)) as [->|Hne];
        [apply lookup_insert_eq | apply lookup_insert_ne, Hne]. }
    destruct (IH w1) as (Hres & Hagents & Hrest).
    { intros id Hid. rewrite Hlook. destruct (decide (x = id)); [discriminate|].
      apply Hall. right. exact Hid. }
    split; [exact Hres|]. split; [|eapply only_agents_differ_trans; eassumption].
    intros id. rewrite Hagents, Hlook.
    destruct (decide (x = id)) as [<-|Hne].
    + rewrite (bool_decide_eq_true_2 (x ∈ x :: ids)) by left. rewrite Ha.
      destruct (bool_decide (x ∈ ids)); cbn; [rewrite with_patients_twice|]; reflexivity.
    + destruct (bool_decide (id ∈ ids)) eqn:E.
      * apply bool_decide_eq_true_1 in E.
        rewrite bool_decide_eq_true_2 by (right; exact E). reflexivity.
      * apply bool_decide_eq_false_1 in E.
        rewrite bool_decide_eq_false_2; [reflexivity|].
        intros Hin. apply elem_of_cons in Hin as [->|Hin]; [congruence | exact (E Hin)].
Qed.

(** X17.  [_assign_patients_to_agents] gives every registered agent every
    patient of the coordinator, once: afterwards the list of an agent
    starts with the patients it had, in their order, contains exactly those
    and the coordinator's patients, and has no duplicate if it had none;
    for an agent that had no patient it is the coordinator's list itself
    (whose entries, being dict keys, are distinct).  Nothing else about the
    agent changes, agents that are not registered are left alone, and so
    are the bus, the coordinator, the unit and the files. *)
Theorem assignment_gives_every_agent_every_patient (w : World Callback Program)
    (Hagents : forall id, id ∈ agents (coordinator (ext w)) -> agent_of id w <> None) :
  let c := coordinator (ext w) in
  let o := WorkflowCoordinator._assign_patients_to_agents w in
  result o = inr tt /\
  (forall id a, id ∈ agents c -> agent_of id w = Some a ->
     exists a',
       agent_of id (world o) = Some a' /\
       patients_assigned a `prefix_of` patients_assigned a' /\
       (forall p, p ∈ patients_assigned a' <-> p ∈ patients_assigned a \/ p ∈ patients c) /\
       (NoDup (patients_assigned a) -> NoDup (patients_assigned a')) /\
       (patients_assigned a = [] -> NoDup (patients c) -> patients_assigned a' = patients c) /\
       (agent_id a', agent_type a', specialization a', is_active a',
        last_decision_time a', decision_count a', response_times a', confidence_scores a')
       = (agent_id a, agent_type a, specialization a, is_active a,
          last_decision_time a, decision_count a, response_times a, confidence_scores a)) /\
  (forall id, id ∉ agents c -> agent_of id (world o) = agent_of id w) /\
  only_agents_differ w (world o).
Proof.
  cbv zeta. unfold WorkflowCoordinator._assign_patients_to_agents, WorkflowCoordinator.self.
  set (c := coordinator (ext w)).
  destruct (assign_loops (patients c) (agents c) w Hagents) as (Hres & Hlook & Hrest).
  assert (Hrun : exists evs,
            (c <- read (fun w => coordinator (ext w)) ;;
             for_each (agents c) (fun agent_id =>
               for_each (patients c) (fun patient_id =>
                 BaseAgent.assign_patient agent_id patient_id)) ;;
             print ("✅ Assigned " +:+ pretty (length (patients c)) +:+ " patients to agents")) w
            = {| world := world (for_each (agents c) (fun agent_id =>
                                   for_each (patients c) (fun patient_id =>
                                     BaseAgent.assign_patient agent_id patient_id)) w);
                 events := evs; result := inr tt |}).
  { eexists. etransitivity; [apply bind_pure; reflexivity|]. cbv beta.
    eapply bind_then; [apply run_eta, Hres | cbv beta; reflexivity]. }
  destruct Hrun as (evs & ->). cbn [world result].
  split; [reflexivity|]. split; [|split; [|exact Hrest]].
  - intros id a Hid Ha. exists (with_patients (patients c) a).
    rewrite Hlook, bool_decide_eq_true_2, Ha by exact Hid.
    split; [reflexivity|]. cbn [with_patients patients_assigned].
    split; [apply assign_all_prefix|].
    split; [intros p; apply assign_all_elem|].
    split; [apply assign_all_NoDup|].
    split; [|reflexivity].
    intros Hnil Hn. rewrite Hnil. apply assign_all_fresh; [exact Hn|].
    intros p _ H. apply elem_of_nil in H. contradiction.
  - intros id Hid. rewrite Hlook, bool_decide_eq_false_2 by exact Hid. reflexivity.
Qed.

Lemma assignment_gives_every_agent_every_patient_witness :
  let w := world ((modify (set_coordinator (set_patients ["PATIENT_1"; "PATIENT_2"])) ;;
                   modify (set_coordinator (WorkflowCoordinator.register_agent "AGENT_X")))
                  created_world) in
  let o := WorkflowCoordinator._assign_patients_to_agents w in
  exists a',
    agent_of "AGENT_X" (world o) = Some a' /\
    patients_assigned a' = ["PATIENT_1"; "PATIENT_2"].
Proof.
  cbv zeta.
  match goal with
  | |- context [WorkflowCoordinator._assign_patients_to_agents ?w] =>
      destruct (assignment_gives_every_agent_every_patient w) as (_ & H & _)
  end.
  - intros id Hid. vm_compute in Hid.
    apply elem_of_cons in Hid as [->|Hid]; [vm_compute; discriminate|].
    apply elem_of_nil in Hid. contradiction.
  - destruct (H "AGENT_X" (BaseAgent.init "AGENT_X" "observer" None))
      as (a' & Ha' & _ & _ & _ & Hps & _).
    + vm_compute. apply elem_of_cons. left. reflexivity.
    + vm_compute. reflexivity.
    + exists a'. split; [exact Ha'|]. apply Hps; [reflexivity|].
      vm_compute. apply (NoDup_cons_2 _ _); [|apply NoDup_singleton].
      intros Hin. apply elem_of_cons in Hin as [Hin|Hin]; [discriminate|].
      apply elem_of_nil in Hin. contradiction.
Defined.
(** ** Reports and status *)

Section Reports.
Variable env : Env.
Variable data_path : string.
Variable format_1f : Q -> string.
Implicit Types w : World Callback Program.

Lemma collect_agents (P : AgentState -> Prop) (ids : list string) w :
  (forall id, id ∈ ids -> exists a, agent_of id w = Some a /\ P a) ->
  exists values,
    collect ids agent w = {| world := w; events := []; result := inr values |} /\
    Forall P values /\ length values = length ids.
Proof.
  induction ids as [|x ids IH]; intros Hall.
  - exists []. repeat split. apply Forall_nil_2.
  - destruct (Hall x) as (a & Ha & HP); [left|].
    destruct IH as (values & Hrun & HF & Hlen); [intros id Hid; apply Hall; right; exact Hid|].
    exists (a :: values). split; [|split; [apply Forall_cons_2; assumption | cbn; lia]].
    cbn [collect]. pure_step.
    etransitivity; [apply bind_pure; exact Hrun|]. reflexivity.
Qed.

Lemma stop_simulation_coordinator w :
  (forall id, id ∈ agents (coordinator (ext w)) -> agent_of id w <> None) ->
  coordinator (ext (world (WorkflowCoordinator.stop_simulation env data_path format_1f w)))
  = coordinator (ext (stopping w)).
Proof.
  intros Hall. destruct (stop_simulation_run env data_path format_1f w Hall) as (evs & ->).
  cbn [world].
  destruct (shutdown_all (agents (coordinator (ext w))) (stopping w) Hall)
    as (_ & _ & _ & Hcoord & _).
  destruct (final_report_run env data_path format_1f
              (world (for_each (agents (coordinator (ext w))) BaseAgent.shutdown (stopping w))))
    as (_ & _ & _ & Hcoord' & _).
  rewrite Hcoord', Hcoord. reflexivity.
Qed.

Lemma api_stop_run w :
  is_running (coordinator (ext w)) = true ->
  result (WorkflowCoordinator.stop_simulation env data_path format_1f w) = inr tt ->
  let stop := WorkflowCoordinator.stop_simulation env data_path format_1f w in
  Api.stop_simulation env data_path format_1f w
  = {| world := started (world stop);
       events := events stop ++ [];
       result := inr [("message", VStr "Simulation stopped");
                      ("timestamp",
                       VStr (isoformat env (clock env (clock_reads (world stop)))))] |}.
Proof.
  intros Hrun Hres. cbv zeta. unfold Api.stop_simulation, WorkflowCoordinator.self.
  etransitivity; [apply bind_pure; reflexivity|]. cbv beta. rewrite Hrun. cbn [negb].
  eapply bind_then; [apply run_eta, Hres | cbv beta].
  reflexivity.
Qed.
End Reports.

(** X19.  The stop endpoint carries the guard that [stop_simulation]
    lacks.  While the simulation is not running, [POST /simulation/stop]
    answers [Simulation not running] and touches nothing: no agent is shut
    down and no report is written.  While it is running, the endpoint
    stops it and answers [Simulation stopped]; afterwards the running flag
    is clear, every registered agent is inactive, the final report exists,
    and [get_system_status] reports a stopped system with no active
    agent. *)
Theorem stop_endpoint_guards_the_stop (env : Env) (data_path : string)
    (format_1f : Q -> string) (w : World Callback Program) :
  let o := Api.stop_simulation env data_path format_1f w in
  (is_running (coordinator (ext w)) = false ->
   o = {| world := w; events := [];
          result := inr [("message", VStr "Simulation not running")] |}) /\
  (is_running (coordinator (ext w)) = true ->
   (forall id, id ∈ agents (coordinator (ext w)) -> agent_of id w <> None) ->
   (exists response,
      result o = inr response /\ get "message" response = VStr "Simulation stopped") /\
   is_running (coordinator (ext (world o))) = false /\
   (forall id, id ∈ agents (coordinator (ext w)) -> active id (world o) = Some false) /\
   files (ext (world o)) !! (data_path +:+ "/final_report.json") <> None /\
   exists status,
     result (get_system_status env (world o)) = inr status /\
     get "is_running" status = VBool false /\
     get "active_agents" status = VInt 0).
Proof.
  cbv zeta. split.
  - intros Hrun. unfold Api.stop_simulation, WorkflowCoordinator.self.
    etransitivity; [apply bind_pure; reflexivity|]. cbv beta. rewrite Hrun. reflexivity.
  - intros Hrun Hall.
    destruct (stop_simulation_effects env data_path format_1f w Hall)
      as (Hres & Hflag & Hactive & _ & _ & Hfile).
    pose proof (stop_simulation_coordinator env data_path format_1f w Hall) as Hcoord.
    rewrite (api_stop_run env data_path format_1f w Hrun Hres).
    set (stop := WorkflowCoordinator.stop_simulation env data_path format_1f w) in *.
    cbn [world result].
    split; [eexists; split; reflexivity|].
    split; [exact Hflag|]. split; [exact Hactive|]. split; [exact Hfile|].
    assert (Hids : agents (coordinator (ext (started (world stop))))
                   = agents (coordinator (ext w))).
    { cbn [started ext]. rewrite Hcoord. reflexivity. }
    destruct (collect_agents (fun a => is_active a = false)
                (agents (coordinator (ext (started (world stop)))))
                (started (world stop)))
      as (values & Hvalues & Hinactive & _).
    { intros id Hid. rewrite Hids in Hid. specialize (Hactive id Hid).
      unfold active in Hactive. change (agent_of id (started (world stop)))
        with (agent_of id (world stop)).
      destruct (agent_of id (world stop)) as [a|]; [|discriminate].
      exists a. split; [reflexivity|]. cbn in Hactive. congruence. }
    assert (Hnone : List.filter is_active values = []).
    { clear Hvalues. induction Hinactive as [|a values Ha _ IH]; [reflexivity|].
      cbn [List.filter]. rewrite Ha. exact IH. }
    assert (Hstatus : exists status,
              get_system_status env (started (world stop))
              = {| world := started (world stop); events := []; result := inr status |} /\
              get "is_running" status
              = VBool (is_running (coordinator (ext (started (world stop))))) /\
              get "active_agents" status
              = VInt (Z.of_nat (length (List.filter is_active values)))).
    { eexists. split.
      - unfold get_system_status, WorkflowCoordinator.self.
        etransitivity; [apply bind_pure; reflexivity|]. cbv beta.
        etransitivity; [apply bind_pure; exact Hvalues|]. reflexivity.
      - split; reflexivity. }
    destruct Hstatus as (status & -> & Hrunning & Hcount).
    exists status. split; [reflexivity|]. rewrite Hrunning, Hcount. split.
    + change (coordinator (ext (started (world stop)))) with (coordinator (ext (world stop))).
      rewrite Hflag. reflexivity.
    + rewrite Hnone. reflexivity.
Qed.
(** ** Wiring the agents *)

Lemma subscribe_each {Cb Ext : Type} (c : Cb) (topics_ : list string) : forall w : World Cb Ext,
  let o := for_each topics_ (fun topic => subscribe topic c) w in
  result o = inr tt /\
  events o = [] /\
  ext (world o) = ext w /\
  (forall t, buffer t (message_bus (world o)) = buffer t (message_bus w)) /\
  (forall t, subscribed t (message_bus (world o))
             = subscribed t (message_bus w)
               ++ replicate (length (List.filter (String.eqb t) topics_)) c).
Proof.
  induction topics_ as [|x xs IH]; intros w; cbv zeta.
  - cbn [for_each ret world result events List.filter length replicate].
    repeat split. intros t. rewrite app_nil_r. reflexivity.
  - rewrite for_each_cons.
    erewrite bind_run by apply subscribe_run. cbn [world events result app].
    destruct (IH (set_bus {| topics := topics (message_bus w);
                             subscribers := <[x := subscribed x (message_bus w) ++ [c]]>
                                              (subscribers (message_bus w)) |} w))
      as (Hres & Hevs & Hext & Hbuf & Hsubs).
    split; [exact Hres|]. split; [exact Hevs|]. split; [exact Hext|].
    split.
    + intros t. rewrite Hbuf. reflexivity.
    + intros t. rewrite Hsubs. cbn [message_bus set_bus]. rewrite subscribed_insert.
      cbn [List.filter].
      destruct (decide (x = t)) as [->|Hne].
      * rewrite String.eqb_refl. cbn [length replicate]. rewrite <- app_assoc. reflexivity.
      * rewrite (proj2 (String.eqb_neq t x)) by congruence.
        destruct (message_bus w). reflexivity.
Qed.

Lemma assign_patients_run (w : World Callback Program) :
  (forall id, id ∈ agents (coordinator (ext w)) -> agent_of id w <> None) ->
  let c := coordinator (ext w) in
  let loop := for_each (agents c) (fun agent_id =>
                for_each (patients c) (fun patient_id =>
                  BaseAgent.assign_patient agent_id patient_id)) w in
  exists evs,
    WorkflowCoordinator._assign_patients_to_agents w
    = {| world := world loop; events := evs; result := inr tt |}.
Proof.
  intros Hall. cbv zeta.
  destruct (assign_loops (patients (coordinator (ext w))) (agents (coordinator (ext w))) w Hall)
    as (Hres & _).
  unfold WorkflowCoordinator._assign_patients_to_agents, WorkflowCoordinator.self.
  eexists. etransitivity; [apply bind_pure; reflexivity|]. cbv beta.
  eapply bind_then; [apply run_eta, Hres | cbv beta; reflexivity].
Qed.

(** The loop of [_initialize_agents] that constructs, initialises and
    registers the three agents. *)
Lemma creation_run (ps : list string) (u : UnitState) :
  let w := loaded ps u in
  let o := for_each [("PHYSICIAN_001", (PhysicianAgent.init, PhysicianAgent.initialize));
                     ("NURSE_001", (NurseAgent.init, NurseAgent.initialize));
                     ("PHARMACIST_001", (PharmacistAgent.init, PharmacistAgent.initialize))]
             (fun entry =>
                let agent_id := fst entry in
                modify (set_agents (insert agent_id (fst (snd entry) agent_id))) ;;
                snd (snd entry) agent_id ;;
                modify (set_coordinator (WorkflowCoordinator.register_agent agent_id))) w in
  result o = inr tt /\
  agents (coordinator (ext (world o))) = ["PHYSICIAN_001"; "NURSE_001"; "PHARMACIST_001"] /\
  patients (coordinator (ext (world o))) = ps /\
  is_running (coordinator (ext (world o))) = false /\
  agent_of "PHYSICIAN_001" (world o)
  = Some (BaseAgent.set_is_active true (PhysicianAgent.init "PHYSICIAN_001")) /\
  agent_of "NURSE_001" (world o)
  = Some (BaseAgent.set_is_active true (NurseAgent.init "NURSE_001")) /\
  agent_of "PHARMACIST_001" (world o)
  = Some (BaseAgent.set_is_active true (PharmacistAgent.init "PHARMACIST_001")) /\
  subscribed "vitals" (message_bus (world o))
  = [PhysicianAgent_handle_vitals "PHYSICIAN_001";
     NurseAgent_handle_vitals_monitoring "NURSE_001"] /\
  subscribed "alerts" (message_bus (world o)) = [PhysicianAgent_handle_alerts "PHYSICIAN_001"] /\
  subscribed "medications" (message_bus (world o))
  = [PharmacistAgent_handle_medication_review "PHARMACIST_001"] /\
  subscribed "labs" (message_bus (world o)) = [] /\
  subscribed "agent_decisions" (message_bus (world o)) = [].
Proof. vm_compute. repeat split. Qed.

Lemma system_status_run (env : Env) (w : World Callback Program) (values : list AgentState) :
  collect (agents (coordinator (ext w))) agent w
  = {| world := w; events := []; result := inr values |} ->
  let c := coordinator (ext w) in
  get_system_status env w
  = {| world := w; events := [];
       result := inr [("is_running", VBool (is_running c));
                      ("start_time", match start_time c with
                                     | Some t => VStr (isoformat env t)
                                     | None => VNone
                                     end);
                      ("active_patients", VInt (Z.of_nat (length (patients c))));
                      ("active_agents", VInt (Z.of_nat (length (List.filter is_active values))));
                      ("total_decisions", VInt (Z.of_nat (total_decisions c)));
                      ("total_messages", VInt (Z.of_nat (total_messages c)))] |}.
Proof.
  intros Hvalues. cbv zeta. unfold get_system_status, WorkflowCoordinator.self.
  etransitivity; [apply bind_pure; reflexivity|]. cbv beta.
  etransitivity; [apply bind_pure; exact Hvalues|]. reflexivity.
Qed.

(** X20.  Initialisation wires the three agents as follows.  In a freshly
    imported program whose coordinator has the (distinct) patients [ps],
    [_initialize_agents] followed by [_setup_monitoring] returns, registers
    PHYSICIAN_001, NURSE_001 and PHARMACIST_001 in that order, and leaves
    each of them active, with every patient assigned in the coordinator's
    order and no decision made.  Vitals go to the physician, the nurse and
    the monitor, in that order; alerts to the physician and the monitor;
    medications to the pharmacist and the monitor; labs to the monitor
    alone; decisions to the tracker and the monitor.  [get_system_status]
    then reports three active agents and a system that is not running. *)
Theorem initialization_wires_the_agents (env : Env) (ps : list string) (u : UnitState)
    (Hps : NoDup ps) :
  let o := (WorkflowCoordinator._initialize_agents ;;
            WorkflowCoordinator._setup_monitoring) (loaded ps u) in
  let w' := world o in
  result o = inr tt /\
  agents (coordinator (ext w')) = ["PHYSICIAN_001"; "NURSE_001"; "PHARMACIST_001"] /\
  (forall id, id ∈ ["PHYSICIAN_001"; "NURSE_001"; "PHARMACIST_001"] ->
     exists a,
       agent_of id w' = Some a /\
       agent_id a = id /\ is_active a = true /\
       patients_assigned a = ps /\ decision_count a = 0) /\
  subscribed "vitals" (message_bus w')
  = [PhysicianAgent_handle_vitals "PHYSICIAN_001";
     NurseAgent_handle_vitals_monitoring "NURSE_001";
     WorkflowCoordinator_monitor_messages] /\
  subscribed "alerts" (message_bus w')
  = [PhysicianAgent_handle_alerts "PHYSICIAN_001"; WorkflowCoordinator_monitor_messages] /\
  subscribed "medications" (message_bus w')
  = [PharmacistAgent_handle_medication_review "PHARMACIST_001";
     WorkflowCoordinator_monitor_messages] /\
  subscribed "labs" (message_bus w') = [WorkflowCoordinator_monitor_messages] /\
  subscribed "agent_decisions" (message_bus w')
  = [WorkflowCoordinator_track_decisions; WorkflowCoordinator_monitor_messages] /\
  exists status,
    result (get_system_status env w') = inr status /\
    get "is_running" status = VBool false /\
    get "active_agents" status = VInt 3 /\
    get "active_patients" status = VInt (Z.of_nat (length ps)).
Proof.
  cbv zeta.
  pose proof (creation_run ps u) as Hcreate. cbv zeta in Hcreate.
  set (w := loaded ps u) in *.
  set (creation := for_each _ _ w) in Hcreate.
  destruct Hcreate as (Hres1 & Hids & Hpatients & Hflag & Hphys & Hnurse & Hpharm
                       & Hvitals & Halerts & Hmeds & Hlabs & Hdecisions).
  set (w1 := world creation) in *.
  assert (Hall : forall id, id ∈ agents (coordinator (ext w1)) -> agent_of id w1 <> None).
  { intros id Hid. rewrite Hids in Hid.
    repeat (apply elem_of_cons in Hid as [->|Hid]); try congruence.
    apply elem_of_nil in Hid. contradiction. }
  destruct (assign_patients_run w1 Hall) as (evs2 & Hassign).
  destruct (assign_loops (patients (coordinator (ext w1))) (agents (coordinator (ext w1))) w1 Hall)
    as (_ & Hlook & Hbus2 & Hcoord2 & _).
  set (w2 := world (for_each (agents (coordinator (ext w1))) _ w1)) in *.
  set (w3 := set_bus {| topics := topics (message_bus w2);
                        subscribers :=
                          <["agent_decisions" := subscribed "agent_decisions" (message_bus w2)
                                                 ++ [WorkflowCoordinator_track_decisions]]>
                            (subscribers (message_bus w2)) |} w2).
  pose proof (subscribe_each WorkflowCoordinator_monitor_messages
                ["vitals"; "labs"; "medications"; "alerts"; "agent_decisions"] w3) as Hmon.
  cbv zeta in Hmon.
  fold WorkflowCoordinator._setup_monitoring in Hmon.
  destruct Hmon as (Hres4 & _ & Hext4 & _ & Hsubs4).
  assert (Hrun : exists evs,
            (WorkflowCoordinator._initialize_agents ;; WorkflowCoordinator._setup_monitoring) w
            = {| world := world (WorkflowCoordinator._setup_monitoring w3);
                 events := evs; result := inr tt |}).
  { eexists. unfold WorkflowCoordinator._initialize_agents at 1, WorkflowCoordinator.self.
    rewrite !bind_assoc.
    eapply bind_then; [reflexivity | cbv beta].
    rewrite !bind_assoc.
    eapply bind_then; [apply run_eta; exact Hres1 | cbv beta].
    rewrite !bind_assoc.
    eapply bind_then; [exact Hassign | cbv beta].
    rewrite !bind_assoc.
    eapply bind_then; [apply subscribe_run | cbv beta].
    rewrite !bind_assoc.
    eapply bind_then; [reflexivity | cbv beta].
    eapply bind_then; [reflexivity | cbv beta].
    apply run_eta. exact Hres4. }
  destruct Hrun as (evs & Hrun).
  set (w' := world (WorkflowCoordinator._setup_monitoring w3)) in *.
  assert (Hworld : world ((WorkflowCoordinator._initialize_agents ;;
                           WorkflowCoordinator._setup_monitoring) w) = w')
    by (rewrite Hrun; reflexivity).
  assert (Hresult : result ((WorkflowCoordinator._initialize_agents ;;
                             WorkflowCoordinator._setup_monitoring) w) = inr tt)
    by (rewrite Hrun; reflexivity).
  rewrite Hworld, Hresult. clear Hrun Hworld Hresult.
  assert (Hcoord' : coordinator (ext w') = coordinator (ext w1)).
  { rewrite Hext4. unfold w3. cbn [ext set_bus]. exact Hcoord2. }
  assert (Hagent' : forall id, id ∈ ["PHYSICIAN_001"; "NURSE_001"; "PHARMACIST_001"] ->
                    agent_of id w' = with_patients ps <$> agent_of id w1).
  { intros id Hid. pose proof (Hlook id) as Hl.
    rewrite Hids, bool_decide_eq_true_2, Hpatients in Hl by exact Hid.
    rewrite <- Hl. unfold agent_of. rewrite Hext4. reflexivity. }
  assert (Hsub' : forall t, subscribed t (message_bus w')
                  = (subscribed t (message_bus w1)
                     ++ if String.eqb t "agent_decisions"
                        then [WorkflowCoordinator_track_decisions] else [])
                    ++ replicate (length (List.filter (String.eqb t)
                                            ["vitals"; "labs"; "medications"; "alerts";
                                             "agent_decisions"]))
                         WorkflowCoordinator_monitor_messages).
  { intros t. rewrite Hsubs4. f_equal. unfold w3. cbn [message_bus set_bus].
    rewrite subscribed_insert, Hbus2.
    destruct (decide ("agent_decisions" = t)) as [<-|Hne].
    - reflexivity.
    - rewrite (proj2 (String.eqb_neq t "agent_decisions")) by congruence.
      rewrite app_nil_r. destruct (message_bus w1). reflexivity. }
  assert (Hfresh : assign_all ps [] = ps).
  { rewrite assign_all_fresh; [reflexivity | exact Hps |].
    intros p _ H. apply elem_of_nil in H. contradiction. }
  split; [reflexivity|].
  split; [rewrite Hcoord'; exact Hids|].
  split.
  { intros id Hid. rewrite (Hagent' id Hid).
    repeat (apply elem_of_cons in Hid as [->|Hid]);
      [rewrite Hphys | rewrite Hnurse | rewrite Hpharm | apply elem_of_nil in Hid; contradiction];
      (eexists; split; [reflexivity|]; cbn; rewrite Hfresh; repeat split). }
  split; [rewrite Hsub', Hvitals; reflexivity|].
  split; [rewrite Hsub', Halerts; reflexivity|].
  split; [rewrite Hsub', Hmeds; reflexivity|].
  split; [rewrite Hsub', Hlabs; reflexivity|].
  split; [rewrite Hsub', Hdecisions; reflexivity|].
  destruct (collect_agents (fun a => is_active a = true) (agents (coordinator (ext w'))) w')
    as (values & Hvalues & Hactive & Hlen).
  { intros id Hid. rewrite Hcoord', Hids in Hid. rewrite (Hagent' id Hid).
    repeat (apply elem_of_cons in Hid as [->|Hid]);
      [rewrite Hphys | rewrite Hnurse | rewrite Hpharm | apply elem_of_nil in Hid; contradiction];
      (eexists; split; reflexivity). }
  assert (Hall3 : length (List.filter is_active values) = 3).
  { rewrite Hcoord', Hids in Hlen. cbn [length] in Hlen. rewrite <- Hlen.
    clear Hvalues Hlen. induction Hactive as [|a vs Ha _ IH]; [reflexivity|].
    cbn [List.filter]. rewrite Ha. cbn [length]. rewrite IH. reflexivity. }
  rewrite (system_status_run env w' values Hvalues). cbn [result].
  eexists. split; [reflexivity|].
  unfold get. cbn [dict_get String.eqb Ascii.eqb Bool.eqb default].
  rewrite Hcoord', Hflag, Hall3, Hpatients. repeat split.
Qed.

Lemma initialization_wires_the_agents_witness :
  let o := (WorkflowCoordinator._initialize_agents ;;
            WorkflowCoordinator._setup_monitoring)
             (loaded ["PATIENT_1"; "PATIENT_2"]
                {| unit_id := "ICU_1"; devices := []; unit_patients := [] |}) in
  NoDup ["PATIENT_1"; "PATIENT_2"] /\
  result o = inr tt /\
  subscribed "labs" (message_bus (world o)) = [WorkflowCoordinator_monitor_messages].
Proof.
  cbv zeta.
  assert (Hps : NoDup ["PATIENT_1"; "PATIENT_2"]).
  { apply (NoDup_cons_2 _ _); [|apply NoDup_singleton].
    intros Hin. apply elem_of_cons in Hin as [Hin|Hin]; [discriminate|].
    apply elem_of_nil in Hin. contradiction. }
  split; [exact Hps|].
  destruct (initialization_wires_the_agents example_env ["PATIENT_1"; "PATIENT_2"]
              {| unit_id := "ICU_1"; devices := []; unit_patients := [] |} Hps)
    as (Hres & _ & _ & _ & _ & _ & Hlabs & _).
  split; [exact Hres | exact Hlabs].
Defined.
(** ** Registrations, parameters and restarts *)

Lemma enriched_get {Cb Ext : Type} (env : Env) (topic k : string) (d : Dict) (w : World Cb Ext) :
  k <> "_topic" -> k <> "_timestamp" -> k <> "_id" ->
  get k (enriched_by env topic d w) = get k d.
Proof.
  intros H1 H2 H3. unfold get, enriched_by, metadata, dict_update. cbn [fold_left fst snd].
  rewrite !dict_get_set_ne by congruence. reflexivity.
Qed.

Section Registrations.
Variable env : Env.
Variable depth : nat.
Variable self : string.
Variable m : Dict.
Variable patient_id : string.
Variables low high : Z.
Variable q : Q.
Hypothesis Hparameter : PhysicianAgent.thresholds_of (get "parameter" m) = Some (low, high).
Hypothesis Hvalue : as_number (get "value" m) = Some q.
Hypothesis Hcritical : (q < inject_Z low \/ inject_Z high < q)%Q.
Implicit Types w : World Callback Program.

(** One delivery of a critical reading to the physician's handler. *)
Lemma critical_delivery a w :
  agent_of self w = Some a ->
  assigned_patient (get "patient_id" m) a = Some patient_id ->
  let o := notify (invoke env (S depth)) "vitals" m (PhysicianAgent_handle_vitals self) w in
  result o = inr tt /\
  length (stored_on "agent_decisions" (events o)) = 1 /\
  exists a',
    agent_of self (world o) = Some a' /\
    decision_count a' = decision_count a + 1 /\
    patients_assigned a' = patients_assigned a.
Proof.
  intros Ha Hassigned. cbv zeta.
  split; [apply notify_result|].
  rewrite notify_events, notify_world, stored_on_notified. cbn [invoke].
  rewrite (handle_vitals_run env (invoke env depth) self a "vitals" m w patient_id low high q)
    by assumption.
  assert (Hc : Qltb q (inject_Z low) || Qltb (inject_Z high) q = true).
  { apply orb_true_iff. destruct Hcritical as [H|H]; [left|right]; apply Qltb_lt, H. }
  rewrite Hc.
  destruct (make_decision_success env depth Physician self a patient_id
              (urgent_decision env patient_id (critical_vital m)) w Ha)
    as (Hres & Hagents & _ & _ & _ & Hstored).
  destruct (then_ret_events _ w _ Hres) as [-> ->].
  split; [rewrite Hstored; reflexivity|].
  eexists. split; [unfold agent_of; rewrite Hagents; apply lookup_insert_eq|].
  split; [cbn; lia | reflexivity].
Qed.

Lemma critical_deliveries (k : nat) : forall a w,
  agent_of self w = Some a ->
  assigned_patient (get "patient_id" m) a = Some patient_id ->
  let o := for_each (replicate k (PhysicianAgent_handle_vitals self))
             (notify (invoke env (S depth)) "vitals" m) w in
  length (stored_on "agent_decisions" (events o)) = k /\
  exists a',
    agent_of self (world o) = Some a' /\
    decision_count a' = decision_count a + k /\
    patients_assigned a' = patients_assigned a.
Proof.
  induction k as [|k IH]; intros a w Ha Hassigned; cbv zeta.
  - cbn [replicate for_each ret world events]. split; [reflexivity|].
    exists a. split; [exact Ha|]. split; [lia | reflexivity].
  - cbn [replicate]. rewrite for_each_cons.
    destruct (critical_delivery a w Ha Hassigned) as (Hres & Hone & a1 & Ha1 & Hcount1 & Hps1).
    erewrite bind_run by (apply run_eta, Hres). cbn [world events].
    destruct (IH a1 _ Ha1) as (Hrest & a' & Ha' & Hcount & Hps).
    { unfold assigned_patient in *. rewrite Hps1. exact Hassigned. }
    split; [rewrite stored_on_app, length_app, Hone, Hrest; reflexivity|].
    exists a'. split; [exact Ha'|]. split; [lia | congruence].
Qed.
End Registrations.

(** X21.  A handler registered [k] times decides [k] times.  When the
    physician's vitals handler is on the subscriber list of [vitals] [k]
    times (each [initialize] of the agent adds it once more) and nothing
    else is, one critical reading of an assigned patient makes the agent
    publish [k] decisions and raises its decision count by [k]. *)
Theorem repeated_registration_repeats_decisions (env : Env) (depth : nat) (self : string)
    (a : AgentState) (message : Dict) (w : World Callback Program)
    (patient_id : string) (low high : Z) (q : Q) (k : nat)
    (Hself : agent_of self w = Some a)
    (Hassigned : assigned_patient (get "patient_id" message) a = Some patient_id)
    (Hparameter : PhysicianAgent.thresholds_of (get "parameter" message) = Some (low, high))
    (Hvalue : as_number (get "value" message) = Some q)
    (Hcritical : (q < inject_Z low \/ inject_Z high < q)%Q)
    (Hsubs : subscribed "vitals" (message_bus w)
             = replicate k (PhysicianAgent_handle_vitals self)) :
  let o := publish env (invoke env (S depth)) "vitals" (Mapping message) w in
  result o = inr true /\
  length (stored_on "agent_decisions" (events o)) = k /\
  exists a',
    agent_of self (world o) = Some a' /\
    decision_count a' = decision_count a + k.
Proof.
  cbv zeta. rewrite publish_mapping. cbn [result events world]. rewrite Hsubs.
  split; [reflexivity|].
  set (enriched := enriched_by env "vitals" message w).
  destruct (critical_deliveries env depth self enriched patient_id low high q) with
    (k := k) (a := a) (w := loop_entry "vitals" enriched w)
    as (Hlen & a' & Ha' & Hcount & _).
  - unfold enriched. rewrite enriched_get by discriminate. exact Hparameter.
  - unfold enriched. rewrite enriched_get by discriminate. exact Hvalue.
  - exact Hcritical.
  - exact Hself.
  - unfold enriched. rewrite enriched_get by discriminate. exact Hassigned.
  - split.
    + change (Stored "vitals" enriched :: ?l) with ([Stored (Cb:=Callback) "vitals" enriched] ++ l).
      rewrite stored_on_app. exact Hlen.
    + exists a'. split; assumption.
Qed.

Lemma repeated_registration_repeats_decisions_witness :
  let w := world ((modify (set_agents (insert "PHYSICIAN_001"
                                         (PhysicianAgent.init "PHYSICIAN_001"))) ;;
                   PhysicianAgent.initialize "PHYSICIAN_001" ;;
                   PhysicianAgent.initialize "PHYSICIAN_001" ;;
                   BaseAgent.assign_patient "PHYSICIAN_001" "PATIENT_1") initial_world) in
  let o := publish example_env (invoke example_env 2) "vitals"
             (Mapping (vitals_reading "PATIENT_1" "heart_rate" (VInt 160))) w in
  length (stored_on "agent_decisions" (events o)) = 2.
Proof.
  cbv zeta.
  match goal with
  | |- context [publish _ _ _ _ ?w] =>
      destruct (repeated_registration_repeats_decisions example_env 1 "PHYSICIAN_001"
                  (BaseAgent.append_patient "PATIENT_1"
                     (BaseAgent.set_is_active true (PhysicianAgent.init "PHYSICIAN_001")))
                  (vitals_reading "PATIENT_1" "heart_rate" (VInt 160)) w
                  "PATIENT_1" 50 120 160 2
                  ltac:(vm_compute; reflexivity) ltac:(vm_compute; reflexivity)
                  ltac:(vm_compute; reflexivity) ltac:(vm_compute; reflexivity)
                  (or_intror eq_refl) ltac:(vm_compute; reflexivity))
        as (_ & H & _)
  end.
  exact H.
Defined.

(** X22.  Only four parameters are watched.  The physician's handler
    reacts to [heart_rate], [systolic_bp] and [spo2] and to nothing else,
    the nurse's handler to [temperature] and to nothing else: for any
    other parameter (a missing one included) the handler returns without
    looking at the value, so a reading of [respiratory_rate] or
    [diastolic_bp] never leads to a decision, a fever never reaches the
    physician, and no reading makes both agents decide. *)
Theorem unwatched_parameters_trigger_nobody (env : Env)
    (call : Callback -> string -> Dict -> Prog unit) (self : string) (a : AgentState)
    (topic : string) (message : Dict) (w : World Callback Program)
    (Hself : agent_of self w = Some a) :
  (get "parameter" message <> VStr "heart_rate" ->
   get "parameter" message <> VStr "systolic_bp" ->
   get "parameter" message <> VStr "spo2" ->
   PhysicianAgent._handle_vitals env call self topic message w
   = {| world := w; events := []; result := inr tt |}) /\
  (get "parameter" message <> VStr "temperature" ->
   NurseAgent._handle_vitals_monitoring env call self topic message w
   = {| world := w; events := []; result := inr tt |}) /\
  (PhysicianAgent.thresholds_of (get "parameter" message) <> None ->
   NurseAgent.is_temperature (get "parameter" message) = false).
Proof.
  split; [|split].
  - intros H1 H2 H3. unfold PhysicianAgent._handle_vitals. pure_step.
    destruct (assigned_patient _ a) as [patient_id|]; [|reflexivity].
    assert (Hnone : PhysicianAgent.thresholds_of (get "parameter" message) = None).
    { unfold PhysicianAgent.thresholds_of.
      destruct (get "parameter" message) as [|b|z|x|p]; try reflexivity.
      cbn [PhysicianAgent.critical_thresholds find fst].
      rewrite (proj2 (String.eqb_neq _ _)) by congruence.
      rewrite (proj2 (String.eqb_neq _ _)) by congruence.
      rewrite (proj2 (String.eqb_neq _ _)) by congruence. reflexivity. }
    rewrite Hnone. reflexivity.
  - intros H. unfold NurseAgent._handle_vitals_monitoring. pure_step.
    destruct (assigned_patient _ a) as [patient_id|]; [|reflexivity].
    assert (Hnot : NurseAgent.is_temperature (get "parameter" message) = false).
    { unfold NurseAgent.is_temperature.
      destruct (get "parameter" message) as [|b|z|x|p]; try reflexivity.
      apply String.eqb_neq. congruence. }
    rewrite Hnot. reflexivity.
  - unfold PhysicianAgent.thresholds_of, NurseAgent.is_temperature.
    destruct (get "parameter" message) as [|b|z|x|p]; try reflexivity.
    intros Hsome. destruct (String.eqb p "temperature") eqn:E; [|reflexivity].
    apply String.eqb_eq in E. subst p. exfalso. apply Hsome. reflexivity.
Qed.

Lemma unwatched_parameters_trigger_nobody_witness :
  PhysicianAgent._handle_vitals example_env (invoke example_env 2) "PHYSICIAN_001" "vitals"
    (vitals_reading "PATIENT_1" "respiratory_rate" (VInt 60)) wired_world
  = {| world := wired_world; events := []; result := inr tt |}.
Proof.
  apply (proj1 (unwatched_parameters_trigger_nobody example_env (invoke example_env 2)
                  "PHYSICIAN_001"
                  (BaseAgent.append_patient "PATIENT_1"
                     (BaseAgent.set_is_active true (PhysicianAgent.init "PHYSICIAN_001")))
                  "vitals" (vitals_reading "PATIENT_1" "respiratory_rate" (VInt 60))
                  wired_world ltac:(vm_compute; reflexivity)));
    vm_compute; discriminate.
Defined.
(** ** Restarting the simulation *)

Lemma start_simulation_starts (duration_minutes : Z) (w : World Callback Program) :
  is_running (coordinator (ext w)) = false ->
  WorkflowCoordinator.start_simulation duration_minutes w
  = {| world :=
         set_coordinator
           (WorkflowCoordinator.set_tasks
              (fun ts => ts ++ [WorkflowCoordinator.create_task "monitoring_task"]))
           (set_coordinator
              (WorkflowCoordinator.set_tasks
                 (fun ts => ts ++ [WorkflowCoordinator.create_task "device_task"]))
              (set_coordinator (WorkflowCoordinator.set_is_running true) w));
       events := [Console ("🚀 Starting ICU simulation for " +:+ pretty duration_minutes
                           +:+ " minutes...")];
       result := inr tt |}.
Proof.
  intros Hrun. unfold WorkflowCoordinator.start_simulation, WorkflowCoordinator.self.
  etransitivity; [apply bind_pure; reflexivity|]. cbv beta. rewrite Hrun. reflexivity.
Qed.

(** X23.  A restart does not bring the agents back.  [stop_simulation]
    shuts every registered agent down and keeps the finished tasks in
    [self.tasks]; a [start_simulation] after it sets the running flag again
    and adds its two tasks to the old ones, and touches no agent.  While
    the restarted simulation is under way every registered agent is
    therefore still inactive: only a new [initialize] creates active
    agents. *)
Theorem restart_leaves_the_agents_inactive (env : Env) (data_path : string)
    (format_1f : Q -> string) (duration_minutes : Z) (w : World Callback Program)
    (Hagents : forall id, id ∈ agents (coordinator (ext w)) -> agent_of id w <> None) :
  let stopped := world (WorkflowCoordinator.stop_simulation env data_path format_1f w) in
  let o := WorkflowCoordinator.start_simulation duration_minutes stopped in
  result o = inr tt /\
  is_running (coordinator (ext (world o))) = true /\
  (forall id, id ∈ agents (coordinator (ext w)) -> active id (world o) = Some false) /\
  agents (coordinator (ext (world o))) = agents (coordinator (ext w)) /\
  length (tasks (coordinator (ext (world o)))) = length (tasks (coordinator (ext w))) + 2.
Proof.
  cbv zeta.
  destruct (stop_simulation_effects env data_path format_1f w Hagents)
    as (_ & Hflag & Hactive & _).
  pose proof (stop_simulation_coordinator env data_path format_1f w Hagents) as Hcoord.
  set (stopped := world (WorkflowCoordinator.stop_simulation env data_path format_1f w)) in *.
  rewrite (start_simulation_starts duration_minutes stopped Hflag). cbn [world result].
  split; [reflexivity|]. split; [reflexivity|].
  split; [intros id Hid; exact (Hactive id Hid)|].
  cbn [ext set_coordinator set_ext coordinator WorkflowCoordinator.set_tasks
       WorkflowCoordinator.set_is_running agents tasks].
  rewrite Hcoord. unfold stopping.
  cbn [ext coordinator WorkflowCoordinator.set_tasks WorkflowCoordinator.set_is_running
       agents tasks].
  split; [reflexivity|].
  rewrite !length_app, !length_map. cbn [length]. lia.
Qed.

Lemma restart_leaves_the_agents_inactive_witness :
  let stopped := world (WorkflowCoordinator.stop_simulation example_env "./data" decimal
                          wired_world) in
  let o := WorkflowCoordinator.start_simulation 10 stopped in
  is_running (coordinator (ext (world o))) = true /\
  active "NURSE_001" (world o) = Some false.
Proof.
  cbv zeta.
  destruct (restart_leaves_the_agents_inactive example_env "./data" decimal 10 wired_world)
    as (_ & Hflag & Hactive & _).
  - intros id Hid.
    assert (Hids : agents (coordinator (ext wired_world))
                   = ["PHYSICIAN_001"; "NURSE_001"; "PHARMACIST_001"])
      by (vm_compute; reflexivity).
    rewrite Hids in Hid.
    repeat (apply elem_of_cons in Hid as [->|Hid]);
      [vm_compute; discriminate | vm_compute; discriminate | vm_compute; discriminate
       | apply elem_of_nil in Hid; contradiction].
  - split; [exact Hflag|]. apply Hactive. vm_compute.
    apply elem_of_cons. right. apply elem_of_cons. left. reflexivity.
Defined.
(** ** From an alert to the counters *)

Lemma make_decision_counters (env : Env) (depth : nat) (cls : AgentClass) (self : string)
    (a : AgentState) (patient_id : string) (context : Dict) (w : World Callback Program) :
  agent_of self w = Some a ->
  coordinator (ext (world (make_decision env (invoke env (S depth)) cls self patient_id context w)))
  = fold_left (fun k c => counted c k) (subscribed "agent_decisions" (message_bus w))
      (coordinator (ext w)).
Proof.
  intros Hself.
  rewrite (make_decision_run env (S depth) cls self a) by exact Hself.
  cbn [world]. rewrite publish_mapping. cbn [world].
  rewrite loop_inert_coordinator by apply completed_decision_inert.
  reflexivity.
Qed.

Lemma monitor_messages_run (env : Env) (topic : string) (message : Dict)
    (w : World Callback Program) :
  world (WorkflowCoordinator._monitor_messages env topic message w)
  = set_coordinator WorkflowCoordinator.count_message w /\
  (forall t, stored_on t (events (WorkflowCoordinator._monitor_messages env topic message w)) = []).
Proof.
  unfold WorkflowCoordinator._monitor_messages.
  erewrite bind_run by reflexivity.
  destruct (_ && _); split; reflexivity.
Qed.

Lemma coordinator_set_coordinator (f : CoordinatorState -> CoordinatorState)
    (w : World Callback Program) :
  coordinator (ext (set_coordinator f w)) = f (coordinator (ext w)).
Proof. reflexivity. Qed.

(** X24.  One critical alert, end to end.  In a system wired as
    [_initialize_agents] and [_setup_monitoring] wire it (on [alerts] the
    physician's handler, then the monitor; on [agent_decisions] the
    tracker, then the monitor), publishing
    an alert of severity [high] or [critical] about an assigned patient
    returns true, puts exactly one decision on [agent_decisions], and
    leaves the coordinator with one more decision and two more messages
    counted: the alert and the decision it led to. *)
Theorem critical_alert_is_decided_and_counted (env : Env) (depth : nat) (self : string)
    (a : AgentState) (message : Dict) (w : World Callback Program) (patient_id : string)
    (Hself : agent_of self w = Some a)
    (Hassigned : assigned_patient (get "patient_id" message) a = Some patient_id)
    (Hsevere : get "severity" message = VStr "high" \/ get "severity" message = VStr "critical")
    (Halerts : subscribed "alerts" (message_bus w)
               = [PhysicianAgent_handle_alerts self; WorkflowCoordinator_monitor_messages])
    (Hdecisions : subscribed "agent_decisions" (message_bus w)
                  = [WorkflowCoordinator_track_decisions; WorkflowCoordinator_monitor_messages]) :
  let o := publish env (invoke env (S (S depth))) "alerts" (Mapping message) w in
  result o = inr true /\
  length (stored_on "agent_decisions" (events o)) = 1 /\
  total_decisions (coordinator (ext (world o))) = total_decisions (coordinator (ext w)) + 1 /\
  total_messages (coordinator (ext (world o))) = total_messages (coordinator (ext w)) + 2.
Proof.
  cbv zeta. rewrite publish_mapping. cbn [result events world]. rewrite Halerts.
  split; [reflexivity|].
  set (enriched := enriched_by env "alerts" message w).
  set (w0 := loop_entry "alerts" enriched w).
  assert (Hself0 : agent_of self w0 = Some a) by exact Hself.
  assert (Hassigned0 : assigned_patient (get "patient_id" enriched) a = Some patient_id).
  { unfold enriched. rewrite enriched_get by discriminate. exact Hassigned. }
  assert (Hsevere0 : PhysicianAgent.severe enriched = true).
  { apply severe_spec. unfold enriched. rewrite enriched_get by discriminate. exact Hsevere. }
  assert (Hdecisions0 : subscribed "agent_decisions" (message_bus w0)
                        = [WorkflowCoordinator_track_decisions;
                           WorkflowCoordinator_monitor_messages]).
  { unfold w0. rewrite (loop_entry_subscribers "alerts" enriched w "agent_decisions").
    exact Hdecisions. }
  set (context := urgent_decision env patient_id
                    [("trigger", VStr "clinical_alert");
                     ("alert_type", get "alert_type" enriched)]).
  set (md := make_decision env (invoke env (S depth)) Physician self patient_id context w0).
  assert (Hhandler : invoke env (S (S depth)) (PhysicianAgent_handle_alerts self) "alerts"
                       enriched w0
                     = bind (make_decision env (invoke env (S depth)) Physician self patient_id
                               context) (fun _ => ret tt) w0).
  { change (invoke env (S (S depth)) (PhysicianAgent_handle_alerts self) "alerts" enriched w0)
      with (PhysicianAgent._handle_alerts env (invoke env (S depth)) self "alerts" enriched w0).
    rewrite (handle_alerts_run env (invoke env (S depth)) self a "alerts" enriched w0 patient_id)
      by assumption.
    rewrite Hsevere0. reflexivity. }
  destruct (make_decision_success env (S depth) Physician self a patient_id context w0 Hself0)
    as (Hres & _ & _ & _ & _ & Hstored).
  fold md in Hres, Hstored.
  destruct (then_ret_events _ w0 _ Hres) as [Hevents Hworld].
  fold md in Hevents, Hworld.
  pose proof (make_decision_counters env depth Physician self a patient_id context w0 Hself0)
    as Hcount.
  fold md in Hcount. rewrite Hdecisions0 in Hcount. cbn [fold_left counted] in Hcount.
  rewrite !for_each_cons.
  erewrite bind_run by (apply run_eta, notify_result).
  erewrite bind_run by (apply run_eta, notify_result).
  cbn [for_each ret world events].
  rewrite !notify_world, !notify_events, Hhandler, Hworld, Hevents.
  split.
  - change (Stored "alerts" enriched :: ?l) with ([Stored (Cb:=Callback) "alerts" enriched] ++ l).
    rewrite !stored_on_app, !stored_on_notified, Hstored.
    change (invoke env (S (S depth)) WorkflowCoordinator_monitor_messages "alerts" enriched)
      with (WorkflowCoordinator._monitor_messages env "alerts" enriched).
    rewrite (proj2 (monitor_messages_run env "alerts" enriched (world md))). reflexivity.
  - change (invoke env (S (S depth)) WorkflowCoordinator_monitor_messages "alerts" enriched)
      with (WorkflowCoordinator._monitor_messages env "alerts" enriched).
    rewrite (proj1 (monitor_messages_run env "alerts" enriched (world md))).
    rewrite coordinator_set_coordinator, Hcount.
    change (coordinator (ext w0)) with (coordinator (ext w)).
    cbn. split; lia.
Qed.

Lemma critical_alert_is_decided_and_counted_witness :
  let message := [("patient_id", VStr "PATIENT_1"); ("severity", VStr "critical");
                  ("alert_type", VStr "sepsis")] in
  let o := publish example_env (invoke example_env 2) "alerts" (Mapping message) wired_world in
  length (stored_on "agent_decisions" (events o)) = 1 /\
  total_decisions (coordinator (ext (world o))) = 1 /\
  total_messages (coordinator (ext (world o))) = 2.
Proof.
  cbv zeta.
  destruct (critical_alert_is_decided_and_counted example_env 0 "PHYSICIAN_001"
              (BaseAgent.append_patient "PATIENT_1"
                 (BaseAgent.set_is_active true (PhysicianAgent.init "PHYSICIAN_001")))
              [("patient_id", VStr "PATIENT_1"); ("severity", VStr "critical");
               ("alert_type", VStr "sepsis")]
              wired_world "PATIENT_1"
              ltac:(vm_compute; reflexivity) ltac:(vm_compute; reflexivity)
              (or_intror eq_refl)
              ltac:(vm_compute; reflexivity) ltac:(vm_compute; reflexivity))
    as (_ & Hone & Hd & Hm).
  split; [exact Hone|]. split; [exact Hd | exact Hm].
Defined.
(** ** Delivery to the subscribers of a topic *)

Section Loops.
Context {Cb Ext : Type}.
Implicit Types w : World Cb Ext.

(** A loop over two lists, one after the other, when the body never
    raises. *)
Lemma for_each_app {A} (xs ys : list A) (body : A -> M Cb Ext unit) :
  (forall x w, result (body x w) = inr tt) ->
  forall w,
    let first := for_each xs body w in
    let second := for_each ys body (world first) in
    for_each (xs ++ ys) body w
    = {| world := world second; events := events first ++ events second;
         result := result second |}.
Proof.
  intros Hbody. induction xs as [|x xs IH]; intros w; cbv zeta.
  - cbn [app for_each ret world events]. apply outcome_eta.
  - cbn [app]. rewrite !for_each_cons.
    rewrite !(bind_inr _ _ _ tt) by apply Hbody.
    cbn [world events result]. rewrite IH. cbn [world events result].
    rewrite app_assoc. reflexivity.
Qed.
End Loops.

Section Subscribers.
Context {Cb Ext : Type} `{EqDecision Cb}.
Variable env : Env.
Variable call : Cb -> string -> Dict -> M Cb Ext unit.
Implicit Types w : World Cb Ext.

Lemma loop_world_run topic enriched (subs : list Cb) : forall w,
  world (for_each subs (notify call topic enriched) w) = loop_world call topic enriched subs w.
Proof.
  induction subs as [|c subs IH]; intros w; [reflexivity|].
  rewrite for_each_cons, (bind_inr _ _ _ tt) by apply notify_result.
  cbn [world loop_world]. rewrite IH, notify_world. reflexivity.
Qed.

Lemma loop_single topic enriched (c : Cb) w :
  let mine := call c topic enriched w in
  for_each [c] (notify call topic enriched) w
  = {| world := world mine;
       events := notified topic enriched c (events mine, exception_of mine);
       result := inr tt |}.
Proof.
  cbv zeta. rewrite for_each_cons.
  rewrite (bind_inr _ _ _ tt) by apply notify_result.
  cbn [for_each ret world events result].
  rewrite app_nil_r, notify_world, notify_events. reflexivity.
Qed.

(** [publish] for a topic whose subscriber list ends with [c]: the earlier
    subscribers are called, then [c], in the store they left. *)
Lemma publish_last topic d (earlier : list Cb) (c : Cb) w :
  subscribed topic (message_bus w) = earlier ++ [c] ->
  let enriched := enriched_by env topic d w in
  let entry := loop_entry topic enriched w in
  let mine := call c topic enriched (loop_world call topic enriched earlier entry) in
  publish env call topic (Mapping d) w
  = {| world := world mine;
       events := Stored topic enriched
                 :: concat (zip_with (notified topic enriched) earlier
                              (loop_outcomes call topic enriched earlier entry))
                 ++ notified topic enriched c (events mine, exception_of mine);
       result := inr true |}.
Proof.
  intros Hsubs. cbv zeta. rewrite publish_mapping. cbv zeta. rewrite Hsubs.
  rewrite for_each_app by (intros; apply notify_result). cbv zeta.
  rewrite loop_single, loop_events_exact, loop_world_run. reflexivity.
Qed.

Lemma loop_world_app topic enriched (xs ys : list Cb) : forall w,
  loop_world call topic enriched (xs ++ ys) w
  = loop_world call topic enriched ys (loop_world call topic enriched xs w).
Proof. induction xs as [|x xs IH]; intros w; [reflexivity|]. cbn [app loop_world]. apply IH. Qed.

Lemma loop_outcomes_app topic enriched (xs ys : list Cb) : forall w,
  concat (zip_with (notified topic enriched) (xs ++ ys)
            (loop_outcomes call topic enriched (xs ++ ys) w))
  = concat (zip_with (notified topic enriched) xs (loop_outcomes call topic enriched xs w))
    ++ concat (zip_with (notified topic enriched) ys
                 (loop_outcomes call topic enriched ys (loop_world call topic enriched xs w))).
Proof.
  induction xs as [|x xs IH]; intros w; [reflexivity|].
  cbn [app loop_outcomes zip_with concat loop_world]. rewrite IH, app_assoc. reflexivity.
Qed.

Lemma calls_on_publish topic d w :
  calls_on topic (events (publish env call topic (Mapping d) w))
  = map (fun c => (c, enriched_by env topic d w)) (subscribed topic (message_bus w)).
Proof.
  rewrite publish_mapping. cbn [events]. rewrite loop_events_exact.
  change (Stored topic ?e :: ?l) with ([Stored (Cb:=Cb) topic e] ++ l).
  rewrite calls_on_app, calls_on_loop by apply loop_outcomes_length.
  rewrite String.eqb_refl. reflexivity.
Qed.

Lemma deliveries_publish topic d (c : Cb) w :
  deliveries c topic (events (publish env call topic (Mapping d) w))
  = replicate (occurrences c (subscribed topic (message_bus w))) (enriched_by env topic d w).
Proof.
  unfold deliveries. rewrite calls_on_publish.
  pose proof (deliveries_fan_out c (subscribed topic (message_bus w))
                [enriched_by env topic d w]) as H1.
  cbn [flat_map] in H1. rewrite !app_nil_r in H1. exact H1.
Qed.

Section CallbacksLeaveSubscriptions.
Hypothesis call_keeps_subscribers :
  forall c topic message, preserves same_subscribers (call c topic message).

Lemma publish_all_keeps_subscribers script :
  preserves same_subscribers (publish_all env call script).
Proof.
  unfold publish_all.
  apply preserves_for_each; [apply same_subscribers_refl | apply same_subscribers_trans |].
  intros [t message].
  apply preserves_bind; [apply same_subscribers_trans | |].
  - apply publish_keeps_subscribers, call_keeps_subscribers.
  - intros _. apply preserves_ret, same_subscribers_refl.
Qed.

Lemma publish_all_deliveries topic (c : Cb) script w :
  let evs := events (publish_all env call script w) in
  deliveries c topic evs
  = flat_map (fun m => replicate (occurrences c (subscribed topic (message_bus w))) m)
             (appended_to topic evs).
Proof.
  cbv zeta. unfold deliveries.
  pose proof (publish_all_calls env call call_keeps_subscribers topic script w) as Hcalls.
  cbv zeta in Hcalls. rewrite Hcalls. apply deliveries_fan_out.
Qed.
End CallbacksLeaveSubscriptions.
End Subscribers.

(** ** The loop over the list itself *)

Section LiveList.
Context {Cb Ext : Type}.
Variable env : Env.
Variable call : Cb -> string -> Dict -> M Cb Ext unit.
Implicit Types w : World Cb Ext.

Lemma walk_end steps topic enriched position w :
  subscribed topic (message_bus w) !! position = None ->
  walk call steps topic enriched position w
  = {| world := w; events := []; result := inr true |}.
Proof. intros H. destruct steps; cbn [walk]; rewrite H; reflexivity. Qed.

Lemma walk_step steps topic enriched position (c : Cb) w :
  subscribed topic (message_bus w) !! position = Some c ->
  let mine := call c topic enriched w in
  let rest := walk call steps topic enriched (S position) (world mine) in
  walk call (S steps) topic enriched position w
  = {| world := world rest;
       events := notified topic enriched c (events mine, exception_of mine) ++ events rest;
       result := result rest |}.
Proof.
  intros H. cbv zeta. cbn [walk]. rewrite H.
  rewrite (bind_inr _ _ _ tt) by apply notify_result.
  rewrite notify_world, notify_events. reflexivity.
Qed.

(** Over a stretch of the list whose callbacks leave the topic's list as
    it is, the walk over the list itself is the loop over that stretch. *)
Lemma walk_stretch topic enriched (subs : list Cb) :
  Forall (fun c => forall w, subscribed topic (message_bus (world (call c topic enriched w)))
                             = subscribed topic (message_bus w)) subs ->
  forall (done rest : list Cb) steps w,
    subscribed topic (message_bus w) = done ++ subs ++ rest ->
    let loop := for_each subs (notify call topic enriched) w in
    let tail := walk call steps topic enriched (length done + length subs) (world loop) in
    walk call (length subs + steps) topic enriched (length done) w
    = {| world := world tail; events := events loop ++ events tail; result := result tail |}.
Proof.
  induction subs as [|c subs IH]; intros Hkeeps done rest steps w Hlist; cbv zeta.
  - cbn [for_each ret world events length app Nat.add]. rewrite Nat.add_0_r.
    apply outcome_eta.
  - apply Forall_cons in Hkeeps as [Hc Hkeeps].
    assert (Hat : subscribed topic (message_bus w) !! length done = Some c).
    { rewrite Hlist. apply list_lookup_middle. reflexivity. }
    cbn [length Nat.add].
    rewrite (walk_step _ topic enriched (length done) c w Hat). cbv zeta.
    assert (Hnext : subscribed topic (message_bus (world (call c topic enriched w)))
                    = (done ++ [c]) ++ subs ++ rest).
    { rewrite Hc, Hlist, <- app_assoc. reflexivity. }
    replace (S (length done)) with (length (done ++ [c]))
      by (rewrite length_app; cbn [length]; lia).
    rewrite (IH Hkeeps (done ++ [c]) rest steps _ Hnext).
    rewrite for_each_cons, (bind_inr _ _ _ tt) by apply notify_result.
    cbn [world events result]. rewrite notify_world, notify_events.
    replace (length (done ++ [c]) + length subs) with (length done + S (length subs))
      by (rewrite length_app; cbn [length]; lia).
    rewrite app_assoc. reflexivity.
Qed.

(** When no callback changes the topic's list while it is called, the walk
    over the list itself is the loop over the list read at the start. *)
Lemma walk_snapshot topic enriched steps w :
  (forall c w', subscribed topic (message_bus (world (call c topic enriched w')))
                = subscribed topic (message_bus w')) ->
  length (subscribed topic (message_bus w)) <= steps ->
  let loop := for_each (subscribed topic (message_bus w)) (notify call topic enriched) w in
  walk call steps topic enriched 0 w
  = {| world := world loop; events := events loop; result := inr true |}.
Proof.
  intros Hkeeps Hsteps. cbv zeta.
  replace steps with (length (subscribed topic (message_bus w))
                      + (steps - length (subscribed topic (message_bus w)))) by lia.
  rewrite (walk_stretch topic enriched (subscribed topic (message_bus w))
             ltac:(apply Forall_forall; intros c _; apply Hkeeps) [] []);
    [|rewrite app_nil_r; reflexivity].
  cbv zeta. cbn [length Nat.add].
  rewrite walk_end.
  - cbn [world events result]. rewrite app_nil_r. reflexivity.
  - rewrite (preserves_for_each (fun w1 w2 => subscribed topic (message_bus w2)
                                             = subscribed topic (message_bus w1))).
    + apply lookup_ge_None_2. lia.
    + reflexivity.
    + intros w1 w2 w3 H12 H23. congruence.
    + intros c w'. rewrite notify_world. apply Hkeeps.
Qed.

Lemma loop_world_keeps topic enriched (subs : list Cb) :
  Forall (fun c => forall w, subscribed topic (message_bus (world (call c topic enriched w)))
                             = subscribed topic (message_bus w)) subs ->
  forall w, subscribed topic (message_bus (loop_world call topic enriched subs w))
            = subscribed topic (message_bus w).
Proof.
  induction subs as [|c subs IH]; intros Hkeeps w; [reflexivity|].
  apply Forall_cons in Hkeeps as [Hc Hkeeps].
  cbn [loop_world]. rewrite (IH Hkeeps), Hc. reflexivity.
Qed.

Lemma publish_live_mapping steps topic d w :
  let enriched := enriched_by env topic d w in
  let loop := walk call steps topic enriched 0 (loop_entry topic enriched w) in
  forall ended, result loop = inr ended ->
  publish_live env call steps topic (Mapping d) w
  = {| world := world loop; events := Stored topic enriched :: events loop;
       result := inr (if ended then Some true else None) |}.
Proof.
  intros enriched loop ended Hended.
  unfold publish_live.
  erewrite try_run; [reflexivity|].
  unfold enrich, store. run.
  match goal with
  | |- context [bind (walk call steps topic ?e 0) _ ?w0] =>
      replace w0 with (loop_entry topic enriched w)
  end.
  2:{ subst enriched. unfold enriched_by, metadata, loop_entry, set_bus.
      cbn [message_bus ext clock_reads uuid_draws topics subscribers].
      rewrite ?buffer_insert_eq, ?insert_insert_eq. reflexivity. }
  rewrite (bind_inr (walk call steps topic enriched 0) _ (loop_entry topic enriched w) ended)
    by exact Hended.
  cbn [world events result ret]. rewrite !app_nil_r. reflexivity.
Qed.

Lemma publish_live_scalar steps topic v w :
  let o := publish env call topic (Scalar v) w in
  publish_live env call steps topic (Scalar v) w
  = {| world := world o; events := events o; result := inr (Some false) |}.
Proof.
  cbv zeta. rewrite publish_scalar. unfold publish_live, enrich.
  erewrite try_fail by (erewrite bind_fail by reflexivity; reflexivity).
  run. reflexivity.
Qed.

(** [publish] is [publish_live] when no callback changes a subscriber
    list while it is called. *)
Lemma publish_live_run steps topic message w :
  (forall c t m, preserves same_subscribers (call c t m)) ->
  length (subscribed topic (message_bus w)) <= steps ->
  let o := publish env call topic message w in
  exists b,
    result o = inr b /\
    publish_live env call steps topic message w
    = {| world := world o; events := events o; result := inr (Some b) |}.
Proof.
  intros Hkeeps Hsteps. cbv zeta.
  destruct message as [d|v];
    [exists true
    |exists false; rewrite publish_live_scalar; cbv zeta; rewrite publish_scalar;
     split; reflexivity].
  assert (Hlist : subscribed topic (message_bus (loop_entry topic (enriched_by env topic d w) w))
                  = subscribed topic (message_bus w))
    by apply loop_entry_subscribers.
  pose proof (walk_snapshot topic (enriched_by env topic d w) steps
                (loop_entry topic (enriched_by env topic d w) w)) as Hwalk.
  cbv zeta in Hwalk. rewrite Hlist in Hwalk.
  specialize (Hwalk (fun c w' => Hkeeps c topic _ w' topic) Hsteps).
  rewrite (publish_live_mapping steps topic d w true) by (rewrite Hwalk; reflexivity).
  rewrite Hwalk, publish_mapping. split; reflexivity.
Qed.
End LiveList.


(** C4. [publish] with a dict returns true whatever the subscribers do:
    the message is stored, then every subscriber of the topic is called
    once, in subscription order, with that same message, each in the store
    the one before it left; a call that ends with an exception is followed
    by the logged line [Error in subscriber callback: ...] and the loop
    goes on with the next subscriber, in the store the failed call left;
    the store [publish] ends in is the one the last subscriber left.
    [publish] returns false only when the message cannot be built (it is
    not a mapping); then nothing is stored, nobody is called and the
    failure is logged.  (Stated for callbacks that do not change
    subscriber lists while they are called, as none of this program's
    does: the list the loop walks is then the topic's list throughout, it
    is the same when [publish] returns, and the loop over the list itself,
    given as many steps as there are subscribers, ends in the same store
    with the same events and result.) *)
Theorem publish_isolates_subscriber_errors {Cb Ext : Type} (env : Env)
    (call : Cb -> string -> Dict -> M Cb Ext unit)
    (call_keeps_subscribers :
       forall c topic message, preserves same_subscribers (call c topic message))
    (topic : string) (message : PyObject) (w : World Cb Ext) :
  let o := publish env call topic message w in
  match message with
  | Mapping d =>
      let enriched := enriched_by env topic d w in
      let subs := subscribed topic (message_bus w) in
      result o = inr true /\
      calls_on topic (events o) = map (fun c => (c, enriched)) subs /\
      events o
      = Stored topic enriched
        :: concat (zip_with (notified topic enriched) subs
                     (loop_outcomes call topic enriched subs (loop_entry topic enriched w))) /\
      buffer topic (message_bus (loop_entry topic enriched w))
      = deque_append (buffer topic (message_bus w)) enriched /\
      world o = loop_world call topic enriched subs (loop_entry topic enriched w) /\
      subscribed topic (message_bus (world o)) = subs /\
      (forall steps,
         length subs <= steps ->
         let live := publish_live env call steps topic message w in
         result live = inr (Some true) /\ world live = world o /\ events live = events o)
  | Scalar v =>
      result o = inr false /\
      world o = w /\
      appended_to topic (events o) = [] /\
      calls_on topic (events o) = [] /\
      console (events o)
      = ["Failed to publish to " +:+ topic +:+ ": '" +:+ type_name v
         +:+ "' object is not a mapping"] /\
      (forall steps,
         let live := publish_live env call steps topic message w in
         result live = inr (Some false) /\ world live = world o /\ events live = events o)
  end.
Proof.
  destruct message as [d|v]; cbv zeta.
  - split; [rewrite publish_mapping; reflexivity|].
    split; [apply calls_on_publish|].
    split; [rewrite publish_mapping; cbn [events]; rewrite loop_events_exact; reflexivity|].
    split; [unfold loop_entry; cbn [message_bus]; apply buffer_insert_eq|].
    split; [rewrite publish_mapping; cbn [world]; apply loop_world_run|].
    split; [apply (publish_keeps_subscribers env call call_keeps_subscribers
                     topic (Mapping d) w)|].
    intros steps Hsteps.
    destruct (publish_live_run env call steps topic (Mapping d) w call_keeps_subscribers Hsteps)
      as (b & Hb & Hrun).
    rewrite publish_mapping in Hb. cbn [result] in Hb. injection Hb as <-.
    cbv zeta. rewrite Hrun. repeat split.
  - split; [rewrite publish_scalar; reflexivity|].
    split; [rewrite publish_scalar; reflexivity|].
    split; [rewrite publish_scalar; reflexivity|].
    split; [rewrite publish_scalar; reflexivity|].
    split; [rewrite publish_scalar; reflexivity|].
    intros steps. cbv zeta. rewrite publish_live_scalar. repeat split.
Qed.

Lemma publish_isolates_subscriber_errors_witness :
  let m := [("patient_id", VStr "PATIENT_1"); ("parameter", VStr "heart_rate")] in
  let o := publish example_env (invoke example_env 3) "vitals" (Mapping m) wired_world in
  result o = inr true /\
  calls_on "vitals" (events o)
  = map (fun c => (c, enriched_by example_env "vitals" m wired_world))
        (subscribed "vitals" (message_bus wired_world)) /\
  subscribed "vitals" (message_bus (world o)) = subscribed "vitals" (message_bus wired_world).
Proof.
  cbv zeta.
  destruct (publish_isolates_subscriber_errors example_env (invoke example_env 3)
              (invoke_keeps_subscribers example_env 3) "vitals"
              (Mapping [("patient_id", VStr "PATIENT_1"); ("parameter", VStr "heart_rate")])
              wired_world) as (Hres & Hcalls & _ & _ & _ & Hsubs & _).
  split; [exact Hres|]. split; [exact Hcalls | exact Hsubs].
Defined.




(** C10. [subscribe] never deduplicates: two calls with the same callback
    put it twice at the end of the topic's subscriber list, where both
    entries stay over any later run of [publish] calls.  Every [publish]
    of a dict on the topic from then on calls the subscribers registered
    earlier and then runs the callback twice with the stored message, the
    second time in the store the first call left, whether that call
    returned or raised.  Over any run of [publish] calls the callback is
    called, for each message these calls store on the topic, twice more
    than it would have been without the two registrations.  (Stated for
    callbacks that do not change subscriber lists while they are called,
    as none of this program's does.) *)
Theorem subscribe_twice_delivers_twice {Cb Ext : Type} `{EqDecision Cb}
    (env : Env) (call : Cb -> string -> Dict -> M Cb Ext unit)
    (call_keeps_subscribers :
       forall c topic message, preserves same_subscribers (call c topic message))
    (topic : string) (c : Cb) (w : World Cb Ext) :
  let earlier := subscribed topic (message_bus w) in
  let twice := world (subscribe topic c (world (subscribe topic c w))) in
  subscribed topic (message_bus twice) = earlier ++ [c; c] /\
  occurrences c (subscribed topic (message_bus twice)) = occurrences c earlier + 2 /\
  (forall script,
     subscribed topic (message_bus (world (publish_all env call script twice)))
     = earlier ++ [c; c]) /\
  (forall w' d,
     subscribed topic (message_bus w') = earlier ++ [c; c] ->
     let o := publish env call topic (Mapping d) w' in
     let enriched := enriched_by env topic d w' in
     let entry := loop_entry topic enriched w' in
     let first := call c topic enriched (loop_world call topic enriched earlier entry) in
     let second := call c topic enriched (world first) in
     result o = inr true /\
     world o = world second /\
     events o = Stored topic enriched
                :: concat (zip_with (notified topic enriched) earlier
                             (loop_outcomes call topic enriched earlier entry))
                ++ notified topic enriched c (events first, exception_of first)
                ++ notified topic enriched c (events second, exception_of second) /\
     deliveries c topic (events o) = replicate (occurrences c earlier + 2) enriched) /\
  (forall script,
     let o := publish_all env call script twice in
     deliveries c topic (events o)
     = flat_map (fun m => replicate (occurrences c earlier + 2) m)
                (appended_to topic (events o))).
Proof.
  cbv zeta.
  assert (Hsubs : subscribed topic
                    (message_bus (world (subscribe topic c (world (subscribe topic c w)))))
                  = subscribed topic (message_bus w) ++ [c; c]).
  { rewrite !subscribe_subscribed, !decide_True by reflexivity.
    rewrite <- app_assoc. reflexivity. }
  assert (Htwo : occurrences c (subscribed topic (message_bus w) ++ [c; c])
                 = occurrences c (subscribed topic (message_bus w)) + 2).
  { rewrite occurrences_app. f_equal.
    change [c; c] with ([c] ++ [c]). rewrite occurrences_app, occurrences_self. reflexivity. }
  split; [exact Hsubs|]. split; [rewrite Hsubs; exact Htwo|].
  split.
  { intros script.
    rewrite (publish_all_keeps_subscribers env call call_keeps_subscribers script _ topic).
    exact Hsubs. }
  split.
  { intros w' d Hlist.
    assert (Hlist' : subscribed topic (message_bus w')
                     = (subscribed topic (message_bus w) ++ [c]) ++ [c])
      by (rewrite <- app_assoc; exact Hlist).
    split; [rewrite publish_mapping; reflexivity|].
    split; [|split].
    - rewrite (publish_last env call topic d _ c w' Hlist'). cbn [world].
      rewrite loop_world_app. reflexivity.
    - rewrite (publish_last env call topic d _ c w' Hlist'). cbn [events].
      rewrite loop_outcomes_app, loop_world_app.
      cbn [loop_outcomes zip_with concat loop_world]. rewrite app_nil_r, <- app_assoc.
      reflexivity.
    - rewrite deliveries_publish, Hlist, Htwo. reflexivity. }
  intros script.
  rewrite (publish_all_deliveries env call call_keeps_subscribers topic c script).
  rewrite Hsubs, Htwo. reflexivity.
Qed.

Lemma subscribe_twice_witness :
  let c := WorkflowCoordinator_track_decisions in
  let twice := world (subscribe "alerts" c (world (subscribe "alerts" c wired_world))) in
  let o := publish_all example_env (invoke example_env 3)
             [("alerts", Mapping [("patient_id", VStr "PATIENT_1"); ("severity", VStr "low")]);
              ("alerts", Mapping [("patient_id", VStr "PATIENT_1"); ("severity", VStr "low")])]
             twice in
  length (appended_to "alerts" (events o)) = 2 /\
  deliveries c "alerts" (events o)
  = flat_map (fun m => [m; m]) (appended_to "alerts" (events o)) /\
  total_decisions (coordinator (ext (world o))) = 4.
Proof.
  cbv zeta. split; [vm_compute; reflexivity|]. split; [|vm_compute; reflexivity].
  rewrite (proj2 (proj2 (proj2 (proj2
    (subscribe_twice_delivers_twice example_env (invoke example_env 3)
       (invoke_keeps_subscribers example_env 3) "alerts"
       WorkflowCoordinator_track_decisions wired_world))))).
  assert (Hnone : occurrences WorkflowCoordinator_track_decisions
                    (subscribed "alerts" (message_bus wired_world)) = 0)
    by (vm_compute; reflexivity).
  rewrite Hnone. reflexivity.
Defined.

(** X25.  [publish] as the source writes it, with the loop over the
    subscriber list itself, comes to the end of the list and delivers as
    [publish] is modelled throughout, whenever no callback changes a
    subscriber list while it is called: given at least as many steps as
    the topic has subscribers, it returns true, calls the subscribers
    listed at the start once each, in order, each in the store the one
    before it left, and ends in the store the last one left. *)
Theorem live_loop_calls_the_listed_subscribers {Cb Ext : Type} (env : Env)
    (call : Cb -> string -> Dict -> M Cb Ext unit)
    (call_keeps_subscribers :
       forall c topic message, preserves same_subscribers (call c topic message))
    (steps : nat) (topic : string) (d : Dict) (w : World Cb Ext)
    (enough : length (subscribed topic (message_bus w)) <= steps) :
  let o := publish_live env call steps topic (Mapping d) w in
  let enriched := enriched_by env topic d w in
  let subs := subscribed topic (message_bus w) in
  let entry := loop_entry topic enriched w in
  result o = inr (Some true) /\
  world o = world (publish env call topic (Mapping d) w) /\
  events o = events (publish env call topic (Mapping d) w) /\
  world o = loop_world call topic enriched subs entry /\
  events o = Stored topic enriched
             :: concat (zip_with (notified topic enriched) subs
                          (loop_outcomes call topic enriched subs entry)) /\
  subscribed topic (message_bus (world o)) = subs.
Proof.
  cbv zeta.
  destruct (publish_live_run env call steps topic (Mapping d) w call_keeps_subscribers enough)
    as (b & Hb & Hrun).
  rewrite publish_mapping in Hb. cbn [result] in Hb. injection Hb as <-.
  split; [rewrite Hrun; reflexivity|].
  split; [rewrite Hrun; reflexivity|]. split; [rewrite Hrun; reflexivity|].
  rewrite Hrun. cbn [world events].
  split; [rewrite publish_mapping; cbn [world]; apply loop_world_run|].
  split; [rewrite publish_mapping; cbn [events]; rewrite loop_events_exact; reflexivity|].
  apply (publish_keeps_subscribers env call call_keeps_subscribers topic (Mapping d) w).
Qed.

Lemma live_loop_calls_the_listed_subscribers_witness :
  let m := vitals_reading "PATIENT_1" "heart_rate" (VInt 40) in
  world (publish_live example_env (invoke example_env 3) 3 "vitals" (Mapping m) wired_world)
  = world (publish example_env (invoke example_env 3) "vitals" (Mapping m) wired_world) /\
  length (subscribed "vitals" (message_bus wired_world)) = 3.
Proof.
  cbv zeta. split; [|vm_compute; reflexivity].
  refine (proj1 (proj2
    (live_loop_calls_the_listed_subscribers example_env (invoke example_env 3)
       (invoke_keeps_subscribers example_env 3) 3 "vitals" _ wired_world _))).
  vm_compute. lia.
Defined.

(** X26.  A callback subscribed to a topic while a message is being
    delivered is called for that message too.  When the last subscriber
    of the topic, on being called, subscribes another callback to the
    topic, the loop of [publish], which walks the list itself, goes on to
    the new entry: the new callback is called with the message that is
    being delivered, in the store the subscription left, and [publish]
    ends in the store that call left.  (The subscribers before the last
    leave the topic's list as it is, and so does the new callback.) *)
Theorem subscriber_added_during_delivery_is_called {Cb Ext : Type} (env : Env)
    (call : Cb -> string -> Dict -> M Cb Ext unit)
    (steps : nat) (topic : string) (d : Dict) (w : World Cb Ext)
    (subs : list Cb) (usher guest : Cb) :
  let enriched := enriched_by env topic d w in
  let entry := loop_entry topic enriched w in
  let before := loop_world call topic enriched subs entry in
  let joined := world (subscribe topic guest before) in
  let mine := call guest topic enriched joined in
  subscribed topic (message_bus w) = subs ++ [usher] ->
  Forall (fun c => forall w', subscribed topic (message_bus (world (call c topic enriched w')))
                              = subscribed topic (message_bus w')) subs ->
  (forall w', call usher topic enriched w' = subscribe topic guest w') ->
  subscribed topic (message_bus (world mine)) = subscribed topic (message_bus joined) ->
  length subs + 2 <= steps ->
  let o := publish_live env call steps topic (Mapping d) w in
  result o = inr (Some true) /\
  world o = world mine /\
  events o = Stored topic enriched
             :: concat (zip_with (notified topic enriched) subs
                          (loop_outcomes call topic enriched subs entry))
             ++ [Called usher topic enriched [] None]
             ++ notified topic enriched guest (events mine, exception_of mine) /\
  subscribed topic (message_bus (world o)) = subs ++ [usher; guest].
Proof.
  cbv zeta. intros Hlist Hsubs Husher Hguest Hsteps.
  set (enriched := enriched_by env topic d w) in *.
  set (entry := loop_entry topic enriched w) in *.
  set (before := loop_world call topic enriched subs entry) in *.
  set (joined := world (subscribe topic guest before)) in *.
  set (mine := call guest topic enriched joined) in *.
  assert (Hentry : subscribed topic (message_bus entry) = [] ++ subs ++ [usher]).
  { unfold entry. rewrite (loop_entry_subscribers topic enriched w topic). exact Hlist. }
  assert (Hbefore : subscribed topic (message_bus before) = subs ++ [usher]).
  { unfold before. rewrite (loop_world_keeps call topic enriched subs Hsubs). exact Hentry. }
  assert (Hjoined : subscribed topic (message_bus joined) = subs ++ [usher; guest]).
  { unfold joined. rewrite subscribe_subscribed, decide_True by reflexivity.
    rewrite Hbefore, <- app_assoc. reflexivity. }
  assert (Hwalk : walk call steps topic enriched 0 entry
                  = {| world := world mine;
                       events := concat (zip_with (notified topic enriched) subs
                                           (loop_outcomes call topic enriched subs entry))
                                 ++ [Called usher topic enriched [] None]
                                 ++ notified topic enriched guest (events mine, exception_of mine);
                       result := inr true |}).
  { replace steps with (length subs + S (S (steps - length subs - 2))) by lia.
    rewrite (walk_stretch call topic enriched subs Hsubs [] [usher] _ entry Hentry).
    cbv zeta. cbn [length Nat.add].
    rewrite loop_world_run, loop_events_exact. fold before.
    rewrite (walk_step call _ topic enriched (length subs) usher before)
      by (rewrite Hbefore; apply list_lookup_middle; reflexivity).
    cbv zeta. rewrite Husher. fold joined.
    rewrite (walk_step call _ topic enriched (S (length subs)) guest joined).
    2:{ rewrite Hjoined.
        change (subs ++ [usher; guest]) with (subs ++ [usher] ++ [guest]).
        rewrite app_assoc. apply list_lookup_middle.
        rewrite length_app. cbn [length]. lia. }
    cbv zeta. fold mine.
    rewrite walk_end.
    2:{ rewrite Hguest, Hjoined. apply lookup_ge_None_2.
        rewrite length_app. cbn [length]. lia. }
    rewrite subscribe_run. cbn [world events result exception_of notified fst snd].
    rewrite !app_nil_r. reflexivity. }
  rewrite (publish_live_mapping env call steps topic d w true)
    by (fold enriched entry; rewrite Hwalk; reflexivity).
  fold enriched entry. rewrite Hwalk. cbn [world events result].
  split; [reflexivity|]. split; [reflexivity|]. split; [reflexivity|].
  rewrite Hguest. exact Hjoined.
Qed.

Lemma subscriber_added_during_delivery_is_called_witness :
  let w := world (subscribe "vitals" Usher
                    {| message_bus := {| topics := ∅; subscribers := ∅ |};
                       ext := []; clock_reads := 0; uuid_draws := 0 |}) in
  let o := publish_live example_env (probe example_env 3) 2 "vitals"
             (Mapping [("reading", VInt 1)]) w in
  result o = inr (Some true) /\
  subscribed "vitals" (message_bus (world o)) = [Usher; Recorder] /\
  map (get "_id") (ext (world o)) = [VStr "vitals_0"].
Proof.
  cbv zeta.
  destruct (subscriber_added_during_delivery_is_called example_env (probe example_env 3) 2
              "vitals" [("reading", VInt 1)]
              (world (subscribe "vitals" Usher
                        {| message_bus := {| topics := ∅; subscribers := ∅ |};
                           ext := []; clock_reads := 0; uuid_draws := 0 |}))
              [] Usher Recorder)
    as (Hres & Hworld & _ & Hlist).
  - vm_compute. reflexivity.
  - apply Forall_nil_2.
  - intros w'. reflexivity.
  - reflexivity.
  - cbn [length]. lia.
  - split; [exact Hres|]. split; [exact Hlist|].
    rewrite Hworld. vm_compute. reflexivity.
Defined.

(** ** The accounting of decisions *)

Section Published.
Variable env : Env.
Implicit Types w : World Callback Program.


End Published.


